(** * A shallow embedding of the DXF polyline viewer/editor

    The embedded program is the script block of the viewer component
    (normalisation of loosely typed input into polyline items, the viewport
    transform, the pointer/keyboard editing functions, the textual command
    interpreter and the JSON / DXF / SVG projections).

    Conventions of the embedding.

    - A JavaScript [number] is a value of [num]: a finite rational, one of
      the two infinities, or NaN; the sign of a zero is not modelled.
      The viewport (client to model coordinates, fit, wheel zoom), the
      pan and polyline-drag gestures and the transformation commands
      compute in binary64: their [+], [-], [*] and [/] are those of
      [B64], which round to nearest, ties to even, and overflow to an
      infinity, by the Standard Library's specification of IEEE 754
      arithmetic.  The remaining arithmetic (sampling steps, the nearest
      segment of a double click, nudges and midpoints, the closing test
      of the DXF export, colour channels) is exact on finite values and
      follows IEEE 754 on the others; the statements about it name the
      value that the code computes or count far below [2^53].
    - A JavaScript value of static type [unknown] is a [jsval].
    - JavaScript strings are [string]s of 8-bit code units.
    - Built-ins whose result is not determined by the program text
      ([Number(v)], number formatting, [JSON.stringify], [JSON.parse],
      [Math.exp], [Math.cos], [Math.sin]) are variables of the section
      that holds the program.  Where [Number(v)] throws is a predicate
      of its own ([numberThrows]).
    - Module-level [ref]s of the component are the fields of [State]; every
      function of the component that writes a [ref] is a function from
      states to states. *)

From Stdlib Require Import QArith Qabs Qround Lqa ZArith List String Ascii Bool Lia.
From Stdlib Require Import Floats.
From Stdlib Require Import Sorted Permutation.
Import ListNotations.

Set Warnings "-register-all".

(* ===================================================================== *)
(** ** Numbers *)
(* ===================================================================== *)

Inductive num : Type :=
| Fin (q : Q)
| PInf
| NInf
| NaN.

Definition Qltb (a b : Q) : bool := negb (Qle_bool b a).

Definition Qsign (a : Q) : comparison := (Qnum a ?= 0)%Z.

Module Num.

Definition zero : num := Fin 0.
Definition one : num := Fin 1.

(** [Number.isFinite] *)
Definition isFinite (n : num) : bool :=
  match n with Fin _ => true | _ => false end.

Definition isNaN (n : num) : bool :=
  match n with NaN => true | _ => false end.

(** [Number.isInteger] *)
Definition isInteger (n : num) : bool :=
  match n with
  | Fin q => Z.eqb (Z.modulo (Qnum q) (Zpos (Qden q))) 0
  | _ => false
  end.

(** unary minus *)
Definition neg (n : num) : num :=
  match n with
  | Fin q => Fin (- q)
  | PInf => NInf
  | NInf => PInf
  | NaN => NaN
  end.

(** [a + b] *)
Definition add (a b : num) : num :=
  match a, b with
  | NaN, _ | _, NaN => NaN
  | Fin x, Fin y => Fin (x + y)
  | PInf, NInf | NInf, PInf => NaN
  | PInf, _ | _, PInf => PInf
  | NInf, _ | _, NInf => NInf
  end.

(** [a - b] *)
Definition sub (a b : num) : num := add a (neg b).

Definition inf_of_sign (c : comparison) : num :=
  match c with Gt => PInf | Lt => NInf | Eq => NaN end.

Definition flip (c : comparison) : comparison := CompOpp c.

(** [a * b] *)
Definition mul (a b : num) : num :=
  match a, b with
  | NaN, _ | _, NaN => NaN
  | Fin x, Fin y => Fin (x * y)
  | Fin x, PInf | PInf, Fin x => inf_of_sign (Qsign x)
  | Fin x, NInf | NInf, Fin x => inf_of_sign (flip (Qsign x))
  | PInf, PInf | NInf, NInf => PInf
  | PInf, NInf | NInf, PInf => NInf
  end.

(** [a / b]; a zero divisor is read as +0 *)
Definition div (a b : num) : num :=
  match a, b with
  | NaN, _ | _, NaN => NaN
  | Fin x, Fin y =>
      if Qeq_bool y 0 then inf_of_sign (Qsign x) else Fin (x / y)
  | Fin _, _ => Fin 0
  | PInf, Fin y => if Qltb y 0 then NInf else PInf
  | NInf, Fin y => if Qltb y 0 then PInf else NInf
  | _, _ => NaN
  end.

(** [a < b] *)
Definition lt (a b : num) : bool :=
  match a, b with
  | NaN, _ | _, NaN => false
  | Fin x, Fin y => Qltb x y
  | NInf, NInf | PInf, _ => false
  | NInf, _ => true
  | Fin _, PInf => true
  | Fin _, NInf => false
  end.

(** [a === b] on numbers *)
Definition eq (a b : num) : bool :=
  match a, b with
  | Fin x, Fin y => Qeq_bool x y
  | PInf, PInf | NInf, NInf => true
  | _, _ => false
  end.

(** [a > b], [a <= b], [a >= b] *)
Definition gt (a b : num) : bool := lt b a.
Definition le (a b : num) : bool := lt a b || eq a b.
Definition ge (a b : num) : bool := le b a.

(** [Math.max(a, b)] and [Math.min(a, b)] *)
Definition max (a b : num) : num :=
  match a, b with
  | NaN, _ | _, NaN => NaN
  | _, _ => if lt a b then b else a
  end.

Definition min (a b : num) : num :=
  match a, b with
  | NaN, _ | _, NaN => NaN
  | _, _ => if lt b a then b else a
  end.

(** [Math.abs] *)
Definition abs (a : num) : num :=
  match a with
  | Fin q => Fin (Qabs q)
  | PInf | NInf => PInf
  | NaN => NaN
  end.

(** [Math.ceil] *)
Definition ceil (a : num) : num :=
  match a with
  | Fin q => Fin (inject_Z (Qceiling q))
  | _ => a
  end.

Definition ofNat (n : nat) : num := Fin (inject_Z (Z.of_nat n)).


End Num.

Declare Scope num_scope.
Delimit Scope num_scope with num.
Bind Scope num_scope with num.
Infix "+" := Num.add : num_scope.
Infix "-" := Num.sub : num_scope.
Infix "*" := Num.mul : num_scope.
Infix "/" := Num.div : num_scope.
Infix "<?" := Num.lt : num_scope.
Infix "<=?" := Num.le : num_scope.
Infix ">?" := Num.gt : num_scope.
Infix ">=?" := Num.ge : num_scope.
Infix "=?" := Num.eq : num_scope.
Notation "- x" := (Num.neg x) : num_scope.

(** Decimal literals of the source. *)
Definition n0 : num := Fin 0.
Definition n1 : num := Fin 1.
Definition n2 : num := Fin 2.
Definition n100 : num := Fin 100.
Definition n0_1 : num := Fin (1 # 10).
Definition n0_5 : num := Fin (1 # 2).
Definition n0_05 : num := Fin (5 # 100).
Definition n1e9 : num := Fin 1000000000.
Definition n1e_6 : num := Fin (1 # 1000000).

(** Model-space point, [type Point = [number, number]]. *)
Abbreviation Point := (num * num)%type (only parsing).
(** [type Polyline = Point[]] *)
Abbreviation Polyline := (list (num * num)%type) (only parsing).

Definition pointFinite (p : Point) : bool :=
  Num.isFinite (fst p) && Num.isFinite (snd p).


(* ===================================================================== *)
(** ** Strings *)
(* ===================================================================== *)

Open Scope string_scope.

Fixpoint dropWhile {A : Type} (f : A -> bool) (l : list A) : list A :=
  match l with
  | [] => []
  | x :: t => if f x then dropWhile f t else l
  end.

(** White space of [String.prototype.trim] and of the regular expression
    class [\s], among the 8-bit code units. *)
Definition isWhiteSpace (c : ascii) : bool :=
  let n := nat_of_ascii c in
  ((9 <=? n) && (n <=? 13) || (n =? 32) || (n =? 160))%nat.

Definition trimList (l : list ascii) : list ascii :=
  rev (dropWhile isWhiteSpace (rev (dropWhile isWhiteSpace l))).

(** [s.trim()] *)
Definition trim (s : string) : string :=
  string_of_list_ascii (trimList (list_ascii_of_string s)).

Definition lowerChar (c : ascii) : ascii :=
  let n := nat_of_ascii c in
  if ((65 <=? n) && (n <=? 90))%nat then ascii_of_nat (n + 32) else c.

(** [s.toLowerCase()] *)
Definition toLowerCase (s : string) : string :=
  string_of_list_ascii (map lowerChar (list_ascii_of_string s)).

Definition isHexDigit (c : ascii) : bool :=
  let n := nat_of_ascii c in
  ((48 <=? n) && (n <=? 57) || (65 <=? n) && (n <=? 70)
   || (97 <=? n) && (n <=? 102))%nat.

Definition nonEmpty (s : string) : bool :=
  match s with EmptyString => false | _ => true end.

(** [n.toString(36)] for a non-negative integer counter. *)
Definition digit36 (d : nat) : ascii :=
  if (d <? 10)%nat then ascii_of_nat (48 + d) else ascii_of_nat (87 + d).

Fixpoint toString36_aux (fuel n : nat) (acc : string) : string :=
  match fuel with
  | O => acc
  | S f =>
      let acc' := String (digit36 (n mod 36)) acc in
      if (n / 36 =? 0)%nat then acc' else toString36_aux f (n / 36) acc'
  end.

Definition toString36 (n : nat) : string := toString36_aux (S n) n "".

(* ===================================================================== *)
(** ** Values of static type [unknown] *)
(* ===================================================================== *)

Inductive jsval : Type :=
| JUndefined
| JNull
| JBool (b : bool)
| JNum (n : num)
| JStr (s : string)
| JArr (elems : list jsval)
| JObj (props : list (string * jsval)).

Fixpoint lookupProp (k : string) (props : list (string * jsval)) : jsval :=
  match props with
  | [] => JUndefined
  | (k', v) :: t => if String.eqb k k' then v else lookupProp k t
  end.

(** [function asRecord(v)]: [null] unless [v] is a non-null object.  Arrays
    are objects. *)
Definition asRecord (v : jsval) : option jsval :=
  match v with
  | JArr _ | JObj _ => Some v
  | _ => None
  end.

(** [r.k] on a record.  None of the property names the program reads is a
    property of arrays or of [Object.prototype], so an array answers
    [undefined]. *)
Definition get (r : jsval) (k : string) : jsval :=
  match r with
  | JObj props => lookupProp k props
  | _ => JUndefined
  end.

(** [r?.k] where [r] is the result of [asRecord] *)
Definition optGet (r : option jsval) (k : string) : jsval :=
  match r with
  | Some v => get v k
  | None => JUndefined
  end.

(** ToBoolean *)
Definition truthy (v : jsval) : bool :=
  match v with
  | JUndefined | JNull => false
  | JBool b => b
  | JNum (Fin q) => negb (Qeq_bool q 0)
  | JNum NaN => false
  | JNum _ => true
  | JStr s => nonEmpty s
  | JArr _ | JObj _ => true
  end.

(** [v ?? d] *)
Definition nullish (v d : jsval) : jsval :=
  match v with
  | JUndefined | JNull => d
  | _ => v
  end.

Definition isArray (v : jsval) : option (list jsval) :=
  match v with JArr l => Some l | _ => None end.

(* ===================================================================== *)
(** ** The data model of the component *)
(* ===================================================================== *)

Inductive LayerLineType : Type := solid | dash | dot | dashdot.

Record PolylineLineOverride : Type := mkLineOverride {
  lo_type : option LayerLineType;
  lo_color : option string;
  lo_width : option num
}.

Record PolylineItem : Type := mkItem {
  it_id : string;
  it_layer : string;
  it_type : string;
  it_points : Polyline;
  it_visible : option bool;
  it_entityIndex : option num;
  it_lineOverride : option PolylineLineOverride;
  it_source : option jsval
}.

Record LineStyle : Type := mkLineStyle {
  line_type : LayerLineType; line_color : string; line_width : num
}.

Record TextStyle : Type := mkTextStyle {
  fontFamily : string; italicAngle : num; bold : bool;
  fontSize : num; widthFactor : num; text_color : string
}.

Record DimStyle : Type := mkDimStyle {
  dim_scale : num; textSize : num; arrowSize : num; lineGap : num
}.

Record LayerStyle : Type := mkLayerStyle {
  ls_line : LineStyle;
  ls_point_size : num;
  ls_text : TextStyle;
  ls_dim : DimStyle
}.

Record Bounds : Type := mkBounds {
  minX : num; minY : num; maxX : num; maxY : num
}.

Inductive TriState : Type := idle | ok | fail.
Inductive PointMode : Type := pm_all | pm_sampled | pm_hidden.

(** What a call leaves behind: a returned value, a thrown [TypeError],
    or exhausted fuel (only for loops whose bound is established by a
    theorem). *)
Inductive outcome (A : Type) : Type :=
| Returned (a : A)
| Threw
| OutOfFuel.
Arguments Returned {A} a.
Arguments Threw {A}.
Arguments OutOfFuel {A}.

(* ===================================================================== *)
(** ** Binary64 arithmetic *)
(* ===================================================================== *)

(** The four arithmetic operators as an engine computes them, on
    IEEE 754 binary64.  A [num] also stands for a binary64 value (the
    sign of a zero apart): an operation converts its operands to the
    Standard Library's [spec_float], applies the library's specification
    of the operation at precision 53 and maximal exponent 1024 (round to
    nearest, ties to even, overflow to an infinity), and converts the
    result back to the reduced fraction that denotes it.  An operand
    that is no binary64 number is rounded to one by the conversion; the
    numbers of a run are binary64 numbers, being results of operations
    or of [JSON.parse] and [Number].  Comparisons, [Math.max],
    [Math.min], [Math.abs] and the unary minus round nothing and are
    those of [Num]. *)
Module B64.

Definition prec : Z := 53.
Definition emax : Z := 1024.

(** [Some k] when [d] is [2^k]. *)
Fixpoint log2OfPower (d : positive) : option Z :=
  match d with
  | xH => Some 0%Z
  | xO p => option_map Z.succ (log2OfPower p)
  | xI _ => None
  end.

Definition ofZ (z : Z) : spec_float := binary_normalize prec emax z 0 false.

(** The binary64 value nearest to a number.  A fraction whose
    denominator is no power of two is the quotient of two integers, and
    is read as their binary64 quotient: the value of a decimal literal
    of up to 15 digits. *)
Definition toSF (a : num) : spec_float :=
  match a with
  | Fin q =>
      match log2OfPower (Qden q) with
      | Some k => binary_normalize prec emax (Qnum q) (- k) false
      | None => SFdiv prec emax (ofZ (Qnum q)) (ofZ (Zpos (Qden q)))
      end
  | PInf => S754_infinity false
  | NInf => S754_infinity true
  | NaN => S754_nan
  end.

Definition ofSF (f : spec_float) : num :=
  match f with
  | S754_zero _ => Fin 0
  | S754_infinity false => PInf
  | S754_infinity true => NInf
  | S754_nan => NaN
  | S754_finite s m e =>
      let sm := cond_Zopp s (Zpos m) in
      if (0 <=? e)%Z then Fin (inject_Z (sm * 2 ^ e))
      else Fin (Qred (sm # Pos.pow 2 (Z.to_pos (- e))))
  end.

(** A literal of the source, or any number, as binary64 holds it. *)
Definition round (a : num) : num := ofSF (toSF a).

Definition add (a b : num) : num := ofSF (SFadd prec emax (toSF a) (toSF b)).
Definition sub (a b : num) : num := ofSF (SFsub prec emax (toSF a) (toSF b)).
Definition mul (a b : num) : num := ofSF (SFmul prec emax (toSF a) (toSF b)).
Definition div (a b : num) : num := ofSF (SFdiv prec emax (toSF a) (toSF b)).

(** A number that binary64 holds as it is. *)
Definition isDouble (a : num) : Prop := round a = a.

(** [Math.PI] *)
Definition Math_PI : num :=
  round (Fin (3141592653589793 # 1000000000000000)).

End B64.

Infix "+~" := B64.add (at level 50, left associativity) : num_scope.
Infix "-~" := B64.sub (at level 50, left associativity) : num_scope.
Infix "*~" := B64.mul (at level 40, left associativity) : num_scope.
Infix "/~" := B64.div (at level 40, left associativity) : num_scope.

(* ===================================================================== *)
(** ** The program *)
(* ===================================================================== *)

Section Program.

Set Default Proof Using "Type".

(** [Number(v)]: ECMAScript's ToNumber. *)
Variable ToNumber : jsval -> num.

(** [String(n)] and the formatting of a number in a template literal. *)
Variable NumberToString : num -> string.

(** [JSON.stringify(v, null, 2)] and [JSON.parse(text)]; [None] stands
    for the [SyntaxError] that [JSON.parse] throws. *)
Variable JSON_stringify : jsval -> string.
Variable JSON_parse : string -> option jsval.

(** [Math.exp], [Math.cos] and [Math.sin]. *)
Variables Math_exp Math_cos Math_sin : num -> num.

Local Open Scope num_scope.

(* ------------------------------------------------------------------- *)
(** *** Input normaliser *)
(* ------------------------------------------------------------------- *)

(** The test [typeof x === 'number' && typeof y === 'number' &&
    Number.isFinite(x) && Number.isFinite(y)]. *)
Definition finitePair (x y : jsval) : option Point :=
  match x, y with
  | JNum a, JNum b =>
      if Num.isFinite a && Num.isFinite b then Some (a, b) else None
  | _, _ => None
  end.

Definition normalizePoint (p : jsval) : option Point :=
  match p with
  | JArr [x; y] =>
      match finitePair x y with
      | Some pt => Some pt
      | None =>
          let nx := ToNumber x in
          let ny := ToNumber y in
          if Num.isFinite nx && Num.isFinite ny then Some (nx, ny) else None
      end
  | _ =>
      match asRecord p with
      | Some r =>
          match get r "x", get r "y" with
          | JNum a, JNum b => Some (a, b)
          | _, _ => None
          end
      | None => None
      end
  end.

Definition trimOr (s fallback : string) : string :=
  let t := trim s in if nonEmpty t then t else fallback.

Definition normalizeLayer (v : jsval) : string :=
  match v with
  | JStr s => trimOr s "0"
  | _ =>
      let r := asRecord v in
      let name :=
        match optGet r "name" with
        | JStr n => Some n
        | _ => match optGet r "layer" with
               | JStr l => Some l
               | _ => None
               end
        end in
      match name with
      | Some n => trimOr n "0"
      | None => "0"
      end
  end.

Definition normalizeType (v : jsval) : string :=
  match v with
  | JStr s => trimOr s "POLYLINE"
  | _ => "POLYLINE"
  end.

Definition normalizeFiniteNumber (v : jsval) (fallback : num) : num :=
  match v with
  | JNum (Fin q) => Fin q
  | _ => let n := ToNumber v in if Num.isFinite n then n else fallback
  end.

(** The pattern [/^#[0-9a-fA-F]{6}$/]. *)
Definition isColorHex (s : string) : bool :=
  match list_ascii_of_string s with
  | h :: ds => Ascii.eqb h "#"%char && (List.length ds =? 6)%nat
               && forallb isHexDigit ds
  | [] => false
  end.

Definition normalizeColorHex (v : jsval) (fallback : string) : string :=
  match v with
  | JStr s0 =>
      let s := trim s0 in
      if isColorHex s then toLowerCase s else fallback
  | _ => fallback
  end.

Definition defaultLayerStyle : LayerStyle :=
  {| ls_line := {| line_type := solid; line_color := "#2c3e50";
                   line_width := n1 |};
     ls_point_size := Fin (8 # 10);
     ls_text := {| fontFamily := "sans-serif"; italicAngle := n0;
                   bold := false; fontSize := Fin 12; widthFactor := n1;
                   text_color := "#111111" |};
     ls_dim := {| dim_scale := n1; textSize := Fin 12;
                  arrowSize := Fin (25 # 10); lineGap := n2 |} |}.

Definition normalizeLayerLineType (v : jsval) : LayerLineType :=
  match v with
  | JStr s =>
      if String.eqb s "dash" then dash
      else if String.eqb s "dot" then dot
      else if String.eqb s "dashdot" then dashdot
      else solid
  | _ => solid
  end.

Definition normalizeLayerStyle (v : jsval) : LayerStyle :=
  let d := defaultLayerStyle in
  let r := asRecord v in
  let line := asRecord (optGet r "line") in
  let point := asRecord (optGet r "point") in
  let text := asRecord (optGet r "text") in
  let dim := asRecord (optGet r "dim") in
  {| ls_line :=
       {| line_type := normalizeLayerLineType (optGet line "type");
          line_color := normalizeColorHex (optGet line "color")
                          (line_color (ls_line d));
          line_width := Num.max n0_1
                          (normalizeFiniteNumber (optGet line "width")
                             (line_width (ls_line d))) |};
     ls_point_size :=
       Num.max n0_1
         (normalizeFiniteNumber (optGet point "size") (ls_point_size d));
     ls_text :=
       {| fontFamily :=
            match optGet text "fontFamily" with
            | JStr f => if nonEmpty (trim f) then f
                        else fontFamily (ls_text d)
            | _ => fontFamily (ls_text d)
            end;
          italicAngle := normalizeFiniteNumber (optGet text "italicAngle")
                           (italicAngle (ls_text d));
          bold := truthy (nullish (optGet text "bold")
                            (JBool (bold (ls_text d))));
          fontSize := Num.max n1
                        (normalizeFiniteNumber (optGet text "fontSize")
                           (fontSize (ls_text d)));
          widthFactor := Num.max n0_1
                           (normalizeFiniteNumber
                              (optGet text "widthFactor")
                              (widthFactor (ls_text d)));
          text_color := normalizeColorHex (optGet text "color")
                          (text_color (ls_text d)) |};
     ls_dim :=
       {| dim_scale := Num.max (Fin (1 # 100))
                         (normalizeFiniteNumber (optGet dim "scale")
                            (dim_scale (ls_dim d)));
          textSize := Num.max n1
                        (normalizeFiniteNumber (optGet dim "textSize")
                           (textSize (ls_dim d)));
          arrowSize := Num.max n0_1
                         (normalizeFiniteNumber (optGet dim "arrowSize")
                            (arrowSize (ls_dim d)));
          lineGap := Num.max n0
                       (normalizeFiniteNumber (optGet dim "lineGap")
                          (lineGap (ls_dim d))) |} |}.

(** The loop [for (const p of pl) { const pt = normalizePoint(p);
    if (pt) pts.push(pt) }]. *)
Fixpoint collectPoints (l : list jsval) : Polyline :=
  match l with
  | [] => []
  | p :: t =>
      match normalizePoint p with
      | Some pt => pt :: collectPoints t
      | None => collectPoints t
      end
  end.

(** [pts.length >= 2 ? pts : null] *)
Definition atLeast2 (pts : Polyline) : option Polyline :=
  if (2 <=? List.length pts)%nat then Some pts else None.

Definition normalizePolylinePointsLike (pl : jsval) : option Polyline :=
  match pl with
  | JArr l => atLeast2 (collectPoints l)
  | _ =>
      match optGet (asRecord pl) "vertices" with
      | JArr vs => atLeast2 (collectPoints vs)
      | _ => None
      end
  end.

(** [polylineIdSeq++; return `${prefix}-${polylineIdSeq.toString(36)}`];
    the counter is threaded through. *)
Definition nextPolylineId (prefix : string) (seq : nat) : string * nat :=
  (prefix ++ "-" ++ toString36 (S seq), S seq).

Definition normalizeLineOverride (v : jsval)
  : option PolylineLineOverride :=
  match asRecord v with
  | Some lo =>
      if truthy (get lo "type") || truthy (get lo "color")
         || truthy (get lo "width")
      then Some
        {| lo_type := if truthy (get lo "type")
                      then Some (normalizeLayerLineType (get lo "type"))
                      else None;
           lo_color := if truthy (get lo "color")
                       then Some (normalizeColorHex (get lo "color")
                                    "#000000")
                       else None;
           lo_width := match get lo "width" with
                       | JUndefined => None
                       | w => Some (Num.max n0_1
                                      (normalizeFiniteNumber w n1))
                       end |}
      else None
  | None => None
  end.

Definition normalizeEntityIndex (v : jsval) : option num :=
  match v with
  | JNum n => if Num.isInteger n && (n >=? n0) then Some n else None
  | _ => None
  end.

Definition bareItem (seq : nat) (r : option jsval) (pl : jsval)
  : option PolylineItem * nat :=
  match normalizePolylinePointsLike pl with
  | None => (None, seq)
  | Some points =>
      let '(id, seq') := nextPolylineId "pl" seq in
      (Some {| it_id := id;
               it_layer := normalizeLayer (optGet r "layer");
               it_type := normalizeType (optGet r "type");
               it_points := points;
               it_visible :=
                 Some (truthy (nullish (optGet r "visible") (JBool true)));
               it_entityIndex := None;
               it_lineOverride := None;
               it_source := None |}, seq')
  end.

Definition normalizePolylineItemLike (seq : nat) (pl : jsval)
  : option PolylineItem * nat :=
  let r := asRecord pl in
  match r, optGet r "points" with
  | Some rv, JArr _ =>
      match normalizePolylinePointsLike (get rv "points") with
      | None => (None, seq)
      | Some points =>
          let lineOverride := normalizeLineOverride (get rv "lineOverride") in
          let entityIndex := normalizeEntityIndex (get rv "entityIndex") in
          let '(id, seq') :=
            match get rv "id" with
            | JStr s => if nonEmpty (trim s) then (s, seq)
                        else nextPolylineId "json" seq
            | _ => nextPolylineId "json" seq
            end in
          (Some {| it_id := id;
                   it_layer := normalizeLayer (get rv "layer");
                   it_type := normalizeType (get rv "type");
                   it_points := points;
                   it_visible :=
                     Some (truthy (nullish (get rv "visible")
                                     (JBool true)));
                   it_entityIndex := entityIndex;
                   it_lineOverride := lineOverride;
                   it_source := None |}, seq')
      end
  | _, _ => bareItem seq r pl
  end.

Fixpoint normalizeEach (seq : nat) (raw : list jsval)
  : list PolylineItem * nat :=
  match raw with
  | [] => ([], seq)
  | pl :: t =>
      let '(item, seq1) := normalizePolylineItemLike seq pl in
      let '(rest, seq2) := normalizeEach seq1 t in
      (match item with Some it => it :: rest | None => rest end, seq2)
  end.

Definition normalizePolylines (seq : nat) (input : jsval)
  : list PolylineItem * nat :=
  let r := asRecord input in
  let raw :=
    match input with
    | JArr l => l
    | _ => match optGet r "polylines" with
           | JArr l => l
           | _ => []
           end
    end in
  normalizeEach seq raw.

(* ------------------------------------------------------------------- *)
(** *** Where the normaliser throws *)
(* ------------------------------------------------------------------- *)

(** [Number(v)] throws a [TypeError] when [v] has no primitive value.
    Among the values that [JSON.parse] returns these are the objects
    with an own property [toString]: it hides [Object.prototype.toString],
    it is not callable, and [valueOf] (own or inherited) gives no
    primitive either.  An array is converted by joining the conversions
    of its elements, so it throws when one of them does.  Where [Number]
    returns, [ToNumber] is what it returns. *)
Fixpoint numberThrows (v : jsval) : bool :=
  match v with
  | JObj props => existsb (fun kv => String.eqb (fst kv) "toString") props
  | JArr l => existsb numberThrows l
  | _ => false
  end.

(** [normalizePoint(p)] throws: the pair is not made of two finite
    numbers and [Number(x)] or [Number(y)] throws. *)
Definition normalizePointThrows (p : jsval) : bool :=
  match p with
  | JArr [x; y] =>
      match finitePair x y with
      | Some _ => false
      | None => numberThrows x || numberThrows y
      end
  | _ => false
  end.

Definition normalizePolylinePointsLikeThrows (pl : jsval) : bool :=
  match pl with
  | JArr l => existsb normalizePointThrows l
  | _ =>
      match optGet (asRecord pl) "vertices" with
      | JArr vs => existsb normalizePointThrows vs
      | _ => false
      end
  end.

(** The [lineOverride] expression of [normalizePolylineItemLike] throws:
    it reaches [normalizeFiniteNumber(lo.width, 1)] and [Number] throws
    there. *)
Definition normalizeLineOverrideThrows (v : jsval) : bool :=
  match asRecord v with
  | Some lo =>
      (truthy (get lo "type") || truthy (get lo "color")
       || truthy (get lo "width"))
      && match get lo "width" with
         | JUndefined => false
         | w => numberThrows w
         end
  | None => false
  end.

(** [normalizePolylineItemLike(pl)] throws, in the points or, when the
    points are accepted, in the line override; the id counter is
    advanced only after both. *)
Definition normalizePolylineItemLikeThrows (pl : jsval) : bool :=
  let r := asRecord pl in
  match r, optGet r "points" with
  | Some rv, JArr _ =>
      normalizePolylinePointsLikeThrows (get rv "points")
      || match normalizePolylinePointsLike (get rv "points") with
         | None => false
         | Some _ => normalizeLineOverrideThrows (get rv "lineOverride")
         end
  | _, _ => normalizePolylinePointsLikeThrows pl
  end.

(** The array [raw] that the loop of [normalizePolylines] walks. *)
Definition polylinesArray (input : jsval) : list jsval :=
  match input with
  | JArr l => l
  | _ => match optGet (asRecord input) "polylines" with
         | JArr l => l
         | _ => []
         end
  end.

Definition normalizePolylinesThrows (input : jsval) : bool :=
  existsb normalizePolylineItemLikeThrows (polylinesArray input).

(** The elements of [raw] in front of the first one on which
    [normalizePolylineItemLike] throws: those the loop has processed,
    and taken ids for, when it is left by the exception. *)
Fixpoint beforeThrow (raw : list jsval) : list jsval :=
  match raw with
  | [] => []
  | pl :: t => if normalizePolylineItemLikeThrows pl then []
               else pl :: beforeThrow t
  end.

(** [normalizeLayerStyle(v)] throws: one of its nine calls of
    [normalizeFiniteNumber] reaches a [Number] that throws. *)
Definition normalizeLayerStyleThrows (v : jsval) : bool :=
  let r := asRecord v in
  let line := asRecord (optGet r "line") in
  let point := asRecord (optGet r "point") in
  let text := asRecord (optGet r "text") in
  let dim := asRecord (optGet r "dim") in
  numberThrows (optGet line "width")
  || numberThrows (optGet point "size")
  || numberThrows (optGet text "italicAngle")
  || numberThrows (optGet text "fontSize")
  || numberThrows (optGet text "widthFactor")
  || numberThrows (optGet dim "scale")
  || numberThrows (optGet dim "textSize")
  || numberThrows (optGet dim "arrowSize")
  || numberThrows (optGet dim "lineGap").

(* ------------------------------------------------------------------- *)
(** *** Component state and the DOM it reads *)
(* ------------------------------------------------------------------- *)

Record DragPolyline : Type := mkDragPolyline {
  dp_pointerId : Z; dp_id : string; dp_start : Point;
  dp_basePoints : Polyline
}.

Record Panning : Type := mkPanning {
  pan_pointerId : Z; pan_start : Point; pan_bounds : Bounds
}.

Record LatestDrag : Type := mkLatestDrag {
  ld_id : string; ld_ptIndex : nat; ld_x : num; ld_y : num
}.

(** The module-level [ref]s and [let]s of the component. *)
Record State : Type := mkState {
  polylineIdSeq : nat;
  polylineItems : list PolylineItem;
  bboxBounds : option Bounds;
  viewBounds : Bounds;
  dragging : option (string * nat);
  draggingPolyline : option DragPolyline;
  panning : option Panning;
  selected : option (string * nat);
  selectedItemId : option string;
  selectedEntityIndex : option num;
  entityVisibleOverrides : list (string * bool);
  copyState : TriState;
  fileName : option string;
  parsedDxf : option jsval;
  jsonDraft : string;
  jsonState : TriState;
  commandLine : string;
  commandState : TriState;
  pointMode : PointMode;
  selectedLayers : list string;
  layerStyles : list (string * LayerStyle);
  pointNudgeStep : jsval;
  dragRaf : bool;
  latestDrag : option LatestDrag
}.

Definition defaultBounds : Bounds :=
  {| minX := n0; minY := n0; maxX := n100; maxY := n100 |}.

(** The values the [ref]s are created with. *)
Definition initialState : State :=
  {| polylineIdSeq := 0;
     polylineItems := [];
     bboxBounds := None;
     viewBounds := defaultBounds;
     dragging := None;
     draggingPolyline := None;
     panning := None;
     selected := None;
     selectedItemId := None;
     selectedEntityIndex := None;
     entityVisibleOverrides := [];
     copyState := idle;
     fileName := None;
     parsedDxf := None;
     jsonDraft := "";
     jsonState := idle;
     commandLine := "";
     commandState := idle;
     pointMode := pm_sampled;
     selectedLayers := [];
     layerStyles := [];
     pointNudgeStep := JNum n1;
     dragRaf := false;
     latestDrag := None |}.

(** What the handlers read of the [<svg>] element: its client size and
    [getScreenCTM()] ([None] when that returns [null]). *)
Record ScreenCTM : Type := mkCTM {
  ctm_a : num; ctm_d : num; ctm_e : num; ctm_f : num
}.

Record SvgElement : Type := mkSvg {
  clientWidth : num; clientHeight : num; screenCTM : option ScreenCTM
}.

(** The fields of pointer, mouse and wheel events that the handlers read. *)
Record PointerEvent : Type := mkEvent {
  clientX : num; clientY : num; deltaY : num;
  pointerId : Z; button : Z;
  shiftKey : bool; altKey : bool; ctrlKey : bool; metaKey : bool;
  targetIsCurrentTarget : bool
}.

(** Assignment to one [ref]. *)
Definition with_polylineIdSeq (v : nat) (st : State) : State :=
  {| polylineIdSeq := v;
     polylineItems := polylineItems st;
     bboxBounds := bboxBounds st;
     viewBounds := viewBounds st;
     dragging := dragging st;
     draggingPolyline := draggingPolyline st;
     panning := panning st;
     selected := selected st;
     selectedItemId := selectedItemId st;
     selectedEntityIndex := selectedEntityIndex st;
     entityVisibleOverrides := entityVisibleOverrides st;
     copyState := copyState st;
     fileName := fileName st;
     parsedDxf := parsedDxf st;
     jsonDraft := jsonDraft st;
     jsonState := jsonState st;
     commandLine := commandLine st;
     commandState := commandState st;
     pointMode := pointMode st;
     selectedLayers := selectedLayers st;
     layerStyles := layerStyles st;
     pointNudgeStep := pointNudgeStep st;
     dragRaf := dragRaf st;
     latestDrag := latestDrag st |}.

Definition with_items (v : list PolylineItem) (st : State) : State :=
  {| polylineIdSeq := polylineIdSeq st;
     polylineItems := v;
     bboxBounds := bboxBounds st;
     viewBounds := viewBounds st;
     dragging := dragging st;
     draggingPolyline := draggingPolyline st;
     panning := panning st;
     selected := selected st;
     selectedItemId := selectedItemId st;
     selectedEntityIndex := selectedEntityIndex st;
     entityVisibleOverrides := entityVisibleOverrides st;
     copyState := copyState st;
     fileName := fileName st;
     parsedDxf := parsedDxf st;
     jsonDraft := jsonDraft st;
     jsonState := jsonState st;
     commandLine := commandLine st;
     commandState := commandState st;
     pointMode := pointMode st;
     selectedLayers := selectedLayers st;
     layerStyles := layerStyles st;
     pointNudgeStep := pointNudgeStep st;
     dragRaf := dragRaf st;
     latestDrag := latestDrag st |}.

Definition with_bboxBounds (v : option Bounds) (st : State) : State :=
  {| polylineIdSeq := polylineIdSeq st;
     polylineItems := polylineItems st;
     bboxBounds := v;
     viewBounds := viewBounds st;
     dragging := dragging st;
     draggingPolyline := draggingPolyline st;
     panning := panning st;
     selected := selected st;
     selectedItemId := selectedItemId st;
     selectedEntityIndex := selectedEntityIndex st;
     entityVisibleOverrides := entityVisibleOverrides st;
     copyState := copyState st;
     fileName := fileName st;
     parsedDxf := parsedDxf st;
     jsonDraft := jsonDraft st;
     jsonState := jsonState st;
     commandLine := commandLine st;
     commandState := commandState st;
     pointMode := pointMode st;
     selectedLayers := selectedLayers st;
     layerStyles := layerStyles st;
     pointNudgeStep := pointNudgeStep st;
     dragRaf := dragRaf st;
     latestDrag := latestDrag st |}.

Definition with_viewBounds (v : Bounds) (st : State) : State :=
  {| polylineIdSeq := polylineIdSeq st;
     polylineItems := polylineItems st;
     bboxBounds := bboxBounds st;
     viewBounds := v;
     dragging := dragging st;
     draggingPolyline := draggingPolyline st;
     panning := panning st;
     selected := selected st;
     selectedItemId := selectedItemId st;
     selectedEntityIndex := selectedEntityIndex st;
     entityVisibleOverrides := entityVisibleOverrides st;
     copyState := copyState st;
     fileName := fileName st;
     parsedDxf := parsedDxf st;
     jsonDraft := jsonDraft st;
     jsonState := jsonState st;
     commandLine := commandLine st;
     commandState := commandState st;
     pointMode := pointMode st;
     selectedLayers := selectedLayers st;
     layerStyles := layerStyles st;
     pointNudgeStep := pointNudgeStep st;
     dragRaf := dragRaf st;
     latestDrag := latestDrag st |}.

Definition with_dragging (v : option (string * nat)) (st : State) : State :=
  {| polylineIdSeq := polylineIdSeq st;
     polylineItems := polylineItems st;
     bboxBounds := bboxBounds st;
     viewBounds := viewBounds st;
     dragging := v;
     draggingPolyline := draggingPolyline st;
     panning := panning st;
     selected := selected st;
     selectedItemId := selectedItemId st;
     selectedEntityIndex := selectedEntityIndex st;
     entityVisibleOverrides := entityVisibleOverrides st;
     copyState := copyState st;
     fileName := fileName st;
     parsedDxf := parsedDxf st;
     jsonDraft := jsonDraft st;
     jsonState := jsonState st;
     commandLine := commandLine st;
     commandState := commandState st;
     pointMode := pointMode st;
     selectedLayers := selectedLayers st;
     layerStyles := layerStyles st;
     pointNudgeStep := pointNudgeStep st;
     dragRaf := dragRaf st;
     latestDrag := latestDrag st |}.

Definition with_draggingPolyline (v : option DragPolyline) (st : State) : State :=
  {| polylineIdSeq := polylineIdSeq st;
     polylineItems := polylineItems st;
     bboxBounds := bboxBounds st;
     viewBounds := viewBounds st;
     dragging := dragging st;
     draggingPolyline := v;
     panning := panning st;
     selected := selected st;
     selectedItemId := selectedItemId st;
     selectedEntityIndex := selectedEntityIndex st;
     entityVisibleOverrides := entityVisibleOverrides st;
     copyState := copyState st;
     fileName := fileName st;
     parsedDxf := parsedDxf st;
     jsonDraft := jsonDraft st;
     jsonState := jsonState st;
     commandLine := commandLine st;
     commandState := commandState st;
     pointMode := pointMode st;
     selectedLayers := selectedLayers st;
     layerStyles := layerStyles st;
     pointNudgeStep := pointNudgeStep st;
     dragRaf := dragRaf st;
     latestDrag := latestDrag st |}.

Definition with_panning (v : option Panning) (st : State) : State :=
  {| polylineIdSeq := polylineIdSeq st;
     polylineItems := polylineItems st;
     bboxBounds := bboxBounds st;
     viewBounds := viewBounds st;
     dragging := dragging st;
     draggingPolyline := draggingPolyline st;
     panning := v;
     selected := selected st;
     selectedItemId := selectedItemId st;
     selectedEntityIndex := selectedEntityIndex st;
     entityVisibleOverrides := entityVisibleOverrides st;
     copyState := copyState st;
     fileName := fileName st;
     parsedDxf := parsedDxf st;
     jsonDraft := jsonDraft st;
     jsonState := jsonState st;
     commandLine := commandLine st;
     commandState := commandState st;
     pointMode := pointMode st;
     selectedLayers := selectedLayers st;
     layerStyles := layerStyles st;
     pointNudgeStep := pointNudgeStep st;
     dragRaf := dragRaf st;
     latestDrag := latestDrag st |}.

Definition with_selected (v : option (string * nat)) (st : State) : State :=
  {| polylineIdSeq := polylineIdSeq st;
     polylineItems := polylineItems st;
     bboxBounds := bboxBounds st;
     viewBounds := viewBounds st;
     dragging := dragging st;
     draggingPolyline := draggingPolyline st;
     panning := panning st;
     selected := v;
     selectedItemId := selectedItemId st;
     selectedEntityIndex := selectedEntityIndex st;
     entityVisibleOverrides := entityVisibleOverrides st;
     copyState := copyState st;
     fileName := fileName st;
     parsedDxf := parsedDxf st;
     jsonDraft := jsonDraft st;
     jsonState := jsonState st;
     commandLine := commandLine st;
     commandState := commandState st;
     pointMode := pointMode st;
     selectedLayers := selectedLayers st;
     layerStyles := layerStyles st;
     pointNudgeStep := pointNudgeStep st;
     dragRaf := dragRaf st;
     latestDrag := latestDrag st |}.

Definition with_selectedItemId (v : option string) (st : State) : State :=
  {| polylineIdSeq := polylineIdSeq st;
     polylineItems := polylineItems st;
     bboxBounds := bboxBounds st;
     viewBounds := viewBounds st;
     dragging := dragging st;
     draggingPolyline := draggingPolyline st;
     panning := panning st;
     selected := selected st;
     selectedItemId := v;
     selectedEntityIndex := selectedEntityIndex st;
     entityVisibleOverrides := entityVisibleOverrides st;
     copyState := copyState st;
     fileName := fileName st;
     parsedDxf := parsedDxf st;
     jsonDraft := jsonDraft st;
     jsonState := jsonState st;
     commandLine := commandLine st;
     commandState := commandState st;
     pointMode := pointMode st;
     selectedLayers := selectedLayers st;
     layerStyles := layerStyles st;
     pointNudgeStep := pointNudgeStep st;
     dragRaf := dragRaf st;
     latestDrag := latestDrag st |}.

Definition with_selectedEntityIndex (v : option num) (st : State) : State :=
  {| polylineIdSeq := polylineIdSeq st;
     polylineItems := polylineItems st;
     bboxBounds := bboxBounds st;
     viewBounds := viewBounds st;
     dragging := dragging st;
     draggingPolyline := draggingPolyline st;
     panning := panning st;
     selected := selected st;
     selectedItemId := selectedItemId st;
     selectedEntityIndex := v;
     entityVisibleOverrides := entityVisibleOverrides st;
     copyState := copyState st;
     fileName := fileName st;
     parsedDxf := parsedDxf st;
     jsonDraft := jsonDraft st;
     jsonState := jsonState st;
     commandLine := commandLine st;
     commandState := commandState st;
     pointMode := pointMode st;
     selectedLayers := selectedLayers st;
     layerStyles := layerStyles st;
     pointNudgeStep := pointNudgeStep st;
     dragRaf := dragRaf st;
     latestDrag := latestDrag st |}.

Definition with_entityVisibleOverrides (v : list (string * bool)) (st : State) : State :=
  {| polylineIdSeq := polylineIdSeq st;
     polylineItems := polylineItems st;
     bboxBounds := bboxBounds st;
     viewBounds := viewBounds st;
     dragging := dragging st;
     draggingPolyline := draggingPolyline st;
     panning := panning st;
     selected := selected st;
     selectedItemId := selectedItemId st;
     selectedEntityIndex := selectedEntityIndex st;
     entityVisibleOverrides := v;
     copyState := copyState st;
     fileName := fileName st;
     parsedDxf := parsedDxf st;
     jsonDraft := jsonDraft st;
     jsonState := jsonState st;
     commandLine := commandLine st;
     commandState := commandState st;
     pointMode := pointMode st;
     selectedLayers := selectedLayers st;
     layerStyles := layerStyles st;
     pointNudgeStep := pointNudgeStep st;
     dragRaf := dragRaf st;
     latestDrag := latestDrag st |}.

Definition with_copyState (v : TriState) (st : State) : State :=
  {| polylineIdSeq := polylineIdSeq st;
     polylineItems := polylineItems st;
     bboxBounds := bboxBounds st;
     viewBounds := viewBounds st;
     dragging := dragging st;
     draggingPolyline := draggingPolyline st;
     panning := panning st;
     selected := selected st;
     selectedItemId := selectedItemId st;
     selectedEntityIndex := selectedEntityIndex st;
     entityVisibleOverrides := entityVisibleOverrides st;
     copyState := v;
     fileName := fileName st;
     parsedDxf := parsedDxf st;
     jsonDraft := jsonDraft st;
     jsonState := jsonState st;
     commandLine := commandLine st;
     commandState := commandState st;
     pointMode := pointMode st;
     selectedLayers := selectedLayers st;
     layerStyles := layerStyles st;
     pointNudgeStep := pointNudgeStep st;
     dragRaf := dragRaf st;
     latestDrag := latestDrag st |}.

Definition with_fileName (v : option string) (st : State) : State :=
  {| polylineIdSeq := polylineIdSeq st;
     polylineItems := polylineItems st;
     bboxBounds := bboxBounds st;
     viewBounds := viewBounds st;
     dragging := dragging st;
     draggingPolyline := draggingPolyline st;
     panning := panning st;
     selected := selected st;
     selectedItemId := selectedItemId st;
     selectedEntityIndex := selectedEntityIndex st;
     entityVisibleOverrides := entityVisibleOverrides st;
     copyState := copyState st;
     fileName := v;
     parsedDxf := parsedDxf st;
     jsonDraft := jsonDraft st;
     jsonState := jsonState st;
     commandLine := commandLine st;
     commandState := commandState st;
     pointMode := pointMode st;
     selectedLayers := selectedLayers st;
     layerStyles := layerStyles st;
     pointNudgeStep := pointNudgeStep st;
     dragRaf := dragRaf st;
     latestDrag := latestDrag st |}.

Definition with_parsedDxf (v : option jsval) (st : State) : State :=
  {| polylineIdSeq := polylineIdSeq st;
     polylineItems := polylineItems st;
     bboxBounds := bboxBounds st;
     viewBounds := viewBounds st;
     dragging := dragging st;
     draggingPolyline := draggingPolyline st;
     panning := panning st;
     selected := selected st;
     selectedItemId := selectedItemId st;
     selectedEntityIndex := selectedEntityIndex st;
     entityVisibleOverrides := entityVisibleOverrides st;
     copyState := copyState st;
     fileName := fileName st;
     parsedDxf := v;
     jsonDraft := jsonDraft st;
     jsonState := jsonState st;
     commandLine := commandLine st;
     commandState := commandState st;
     pointMode := pointMode st;
     selectedLayers := selectedLayers st;
     layerStyles := layerStyles st;
     pointNudgeStep := pointNudgeStep st;
     dragRaf := dragRaf st;
     latestDrag := latestDrag st |}.

Definition with_jsonDraft (v : string) (st : State) : State :=
  {| polylineIdSeq := polylineIdSeq st;
     polylineItems := polylineItems st;
     bboxBounds := bboxBounds st;
     viewBounds := viewBounds st;
     dragging := dragging st;
     draggingPolyline := draggingPolyline st;
     panning := panning st;
     selected := selected st;
     selectedItemId := selectedItemId st;
     selectedEntityIndex := selectedEntityIndex st;
     entityVisibleOverrides := entityVisibleOverrides st;
     copyState := copyState st;
     fileName := fileName st;
     parsedDxf := parsedDxf st;
     jsonDraft := v;
     jsonState := jsonState st;
     commandLine := commandLine st;
     commandState := commandState st;
     pointMode := pointMode st;
     selectedLayers := selectedLayers st;
     layerStyles := layerStyles st;
     pointNudgeStep := pointNudgeStep st;
     dragRaf := dragRaf st;
     latestDrag := latestDrag st |}.

Definition with_jsonState (v : TriState) (st : State) : State :=
  {| polylineIdSeq := polylineIdSeq st;
     polylineItems := polylineItems st;
     bboxBounds := bboxBounds st;
     viewBounds := viewBounds st;
     dragging := dragging st;
     draggingPolyline := draggingPolyline st;
     panning := panning st;
     selected := selected st;
     selectedItemId := selectedItemId st;
     selectedEntityIndex := selectedEntityIndex st;
     entityVisibleOverrides := entityVisibleOverrides st;
     copyState := copyState st;
     fileName := fileName st;
     parsedDxf := parsedDxf st;
     jsonDraft := jsonDraft st;
     jsonState := v;
     commandLine := commandLine st;
     commandState := commandState st;
     pointMode := pointMode st;
     selectedLayers := selectedLayers st;
     layerStyles := layerStyles st;
     pointNudgeStep := pointNudgeStep st;
     dragRaf := dragRaf st;
     latestDrag := latestDrag st |}.

Definition with_commandLine (v : string) (st : State) : State :=
  {| polylineIdSeq := polylineIdSeq st;
     polylineItems := polylineItems st;
     bboxBounds := bboxBounds st;
     viewBounds := viewBounds st;
     dragging := dragging st;
     draggingPolyline := draggingPolyline st;
     panning := panning st;
     selected := selected st;
     selectedItemId := selectedItemId st;
     selectedEntityIndex := selectedEntityIndex st;
     entityVisibleOverrides := entityVisibleOverrides st;
     copyState := copyState st;
     fileName := fileName st;
     parsedDxf := parsedDxf st;
     jsonDraft := jsonDraft st;
     jsonState := jsonState st;
     commandLine := v;
     commandState := commandState st;
     pointMode := pointMode st;
     selectedLayers := selectedLayers st;
     layerStyles := layerStyles st;
     pointNudgeStep := pointNudgeStep st;
     dragRaf := dragRaf st;
     latestDrag := latestDrag st |}.

Definition with_commandState (v : TriState) (st : State) : State :=
  {| polylineIdSeq := polylineIdSeq st;
     polylineItems := polylineItems st;
     bboxBounds := bboxBounds st;
     viewBounds := viewBounds st;
     dragging := dragging st;
     draggingPolyline := draggingPolyline st;
     panning := panning st;
     selected := selected st;
     selectedItemId := selectedItemId st;
     selectedEntityIndex := selectedEntityIndex st;
     entityVisibleOverrides := entityVisibleOverrides st;
     copyState := copyState st;
     fileName := fileName st;
     parsedDxf := parsedDxf st;
     jsonDraft := jsonDraft st;
     jsonState := jsonState st;
     commandLine := commandLine st;
     commandState := v;
     pointMode := pointMode st;
     selectedLayers := selectedLayers st;
     layerStyles := layerStyles st;
     pointNudgeStep := pointNudgeStep st;
     dragRaf := dragRaf st;
     latestDrag := latestDrag st |}.

Definition with_pointMode (v : PointMode) (st : State) : State :=
  {| polylineIdSeq := polylineIdSeq st;
     polylineItems := polylineItems st;
     bboxBounds := bboxBounds st;
     viewBounds := viewBounds st;
     dragging := dragging st;
     draggingPolyline := draggingPolyline st;
     panning := panning st;
     selected := selected st;
     selectedItemId := selectedItemId st;
     selectedEntityIndex := selectedEntityIndex st;
     entityVisibleOverrides := entityVisibleOverrides st;
     copyState := copyState st;
     fileName := fileName st;
     parsedDxf := parsedDxf st;
     jsonDraft := jsonDraft st;
     jsonState := jsonState st;
     commandLine := commandLine st;
     commandState := commandState st;
     pointMode := v;
     selectedLayers := selectedLayers st;
     layerStyles := layerStyles st;
     pointNudgeStep := pointNudgeStep st;
     dragRaf := dragRaf st;
     latestDrag := latestDrag st |}.

Definition with_selectedLayers (v : list string) (st : State) : State :=
  {| polylineIdSeq := polylineIdSeq st;
     polylineItems := polylineItems st;
     bboxBounds := bboxBounds st;
     viewBounds := viewBounds st;
     dragging := dragging st;
     draggingPolyline := draggingPolyline st;
     panning := panning st;
     selected := selected st;
     selectedItemId := selectedItemId st;
     selectedEntityIndex := selectedEntityIndex st;
     entityVisibleOverrides := entityVisibleOverrides st;
     copyState := copyState st;
     fileName := fileName st;
     parsedDxf := parsedDxf st;
     jsonDraft := jsonDraft st;
     jsonState := jsonState st;
     commandLine := commandLine st;
     commandState := commandState st;
     pointMode := pointMode st;
     selectedLayers := v;
     layerStyles := layerStyles st;
     pointNudgeStep := pointNudgeStep st;
     dragRaf := dragRaf st;
     latestDrag := latestDrag st |}.

Definition with_layerStyles (v : list (string * LayerStyle)) (st : State) : State :=
  {| polylineIdSeq := polylineIdSeq st;
     polylineItems := polylineItems st;
     bboxBounds := bboxBounds st;
     viewBounds := viewBounds st;
     dragging := dragging st;
     draggingPolyline := draggingPolyline st;
     panning := panning st;
     selected := selected st;
     selectedItemId := selectedItemId st;
     selectedEntityIndex := selectedEntityIndex st;
     entityVisibleOverrides := entityVisibleOverrides st;
     copyState := copyState st;
     fileName := fileName st;
     parsedDxf := parsedDxf st;
     jsonDraft := jsonDraft st;
     jsonState := jsonState st;
     commandLine := commandLine st;
     commandState := commandState st;
     pointMode := pointMode st;
     selectedLayers := selectedLayers st;
     layerStyles := v;
     pointNudgeStep := pointNudgeStep st;
     dragRaf := dragRaf st;
     latestDrag := latestDrag st |}.

Definition with_pointNudgeStep (v : jsval) (st : State) : State :=
  {| polylineIdSeq := polylineIdSeq st;
     polylineItems := polylineItems st;
     bboxBounds := bboxBounds st;
     viewBounds := viewBounds st;
     dragging := dragging st;
     draggingPolyline := draggingPolyline st;
     panning := panning st;
     selected := selected st;
     selectedItemId := selectedItemId st;
     selectedEntityIndex := selectedEntityIndex st;
     entityVisibleOverrides := entityVisibleOverrides st;
     copyState := copyState st;
     fileName := fileName st;
     parsedDxf := parsedDxf st;
     jsonDraft := jsonDraft st;
     jsonState := jsonState st;
     commandLine := commandLine st;
     commandState := commandState st;
     pointMode := pointMode st;
     selectedLayers := selectedLayers st;
     layerStyles := layerStyles st;
     pointNudgeStep := v;
     dragRaf := dragRaf st;
     latestDrag := latestDrag st |}.

Definition with_dragRaf (v : bool) (st : State) : State :=
  {| polylineIdSeq := polylineIdSeq st;
     polylineItems := polylineItems st;
     bboxBounds := bboxBounds st;
     viewBounds := viewBounds st;
     dragging := dragging st;
     draggingPolyline := draggingPolyline st;
     panning := panning st;
     selected := selected st;
     selectedItemId := selectedItemId st;
     selectedEntityIndex := selectedEntityIndex st;
     entityVisibleOverrides := entityVisibleOverrides st;
     copyState := copyState st;
     fileName := fileName st;
     parsedDxf := parsedDxf st;
     jsonDraft := jsonDraft st;
     jsonState := jsonState st;
     commandLine := commandLine st;
     commandState := commandState st;
     pointMode := pointMode st;
     selectedLayers := selectedLayers st;
     layerStyles := layerStyles st;
     pointNudgeStep := pointNudgeStep st;
     dragRaf := v;
     latestDrag := latestDrag st |}.

Definition with_latestDrag (v : option LatestDrag) (st : State) : State :=
  {| polylineIdSeq := polylineIdSeq st;
     polylineItems := polylineItems st;
     bboxBounds := bboxBounds st;
     viewBounds := viewBounds st;
     dragging := dragging st;
     draggingPolyline := draggingPolyline st;
     panning := panning st;
     selected := selected st;
     selectedItemId := selectedItemId st;
     selectedEntityIndex := selectedEntityIndex st;
     entityVisibleOverrides := entityVisibleOverrides st;
     copyState := copyState st;
     fileName := fileName st;
     parsedDxf := parsedDxf st;
     jsonDraft := jsonDraft st;
     jsonState := jsonState st;
     commandLine := commandLine st;
     commandState := commandState st;
     pointMode := pointMode st;
     selectedLayers := selectedLayers st;
     layerStyles := layerStyles st;
     pointNudgeStep := pointNudgeStep st;
     dragRaf := dragRaf st;
     latestDrag := v |}.

(* ------------------------------------------------------------------- *)
(** *** Derived views *)
(* ------------------------------------------------------------------- *)

Definition findItemById (st : State) (id : string) : option PolylineItem :=
  find (fun x => String.eqb (it_id x) id) (polylineItems st).

(** [it.visible ?? true] *)
Definition visibleOrTrue (it : PolylineItem) : bool :=
  match it_visible it with Some b => b | None => true end.

Definition layerFilterHas (st : State) (layer : string) : bool :=
  existsb (String.eqb layer) (selectedLayers st).

Definition visiblePolylineItems (st : State) : list PolylineItem :=
  filter (fun it => layerFilterHas st (it_layer it) && visibleOrTrue it)
         (polylineItems st).

Definition countPoints (st : State) : nat :=
  fold_left (fun acc it => (acc + List.length (it_points it))%nat)
            (visiblePolylineItems st) 0%nat.

Definition pointSampleStep (st : State) : num :=
  let maxPoints := Fin 3500 in
  let total := Num.ofNat (countPoints st) in
  match pointMode st with
  | pm_hidden => PInf
  | pm_all => n1
  | pm_sampled =>
      if total >? maxPoints then Num.ceil (total / maxPoints) else n1
  end.

Definition polylineStrokeStep (st : State) : num :=
  let total := Num.ofNat (countPoints st) in
  if total <=? Fin 20000 then n1
  else match pointMode st with
       | pm_all => n1
       | _ => Num.max n1 (pointSampleStep st)
       end.

(* ------------------------------------------------------------------- *)
(** *** Rendering projection *)
(* ------------------------------------------------------------------- *)

(** [`${x},${-y}`] *)
Definition svgCoord (p : Point) : string :=
  NumberToString (fst p) ++ "," ++ NumberToString (- snd p).

(** [pl[i]] for a number [i]: [undefined] unless [i] is an index. *)
Definition pointAt (pl : Polyline) (i : num) : option Point :=
  match i with
  | Fin q => if Num.isInteger i && (i >=? n0)
             then nth_error pl (Z.to_nat (Qfloor q)) else None
  | _ => None
  end.

(** [for (let i = 0; i < pl.length; i += step) { const [x, y] = pl[i];
    pts.push(...) }]; destructuring [undefined] throws. *)
Fixpoint sampleLoop (fuel : nat) (pl : Polyline) (step i : num)
         (pts : list string) : outcome (list string) :=
  match fuel with
  | O => OutOfFuel
  | S f =>
      if i <? Num.ofNat (List.length pl) then
        match pointAt pl i with
        | Some p =>
            sampleLoop f pl step (i + step) (pts ++ [svgCoord p])%list
        | None => Threw
        end
      else Returned pts
  end.

(** [pts[pts.length - 1]], [undefined] on the empty array *)
Definition lastOpt {A : Type} (l : list A) : option A :=
  List.last (map Some l) None.

(** The array [pts] that [toSvgPoints] joins. *)
Definition toSvgCoords (pl : Polyline) (step : num)
  : outcome (list string) :=
  if negb (Num.isFinite step) || (step <=? n1) then
    Returned (map svgCoord pl)
  else
    match sampleLoop (S (List.length pl)) pl step n0 [] with
    | Returned pts =>
        if (2 <=? List.length pl)%nat then
          let last := svgCoord (List.last pl (n0, n0)) in
          if match lastOpt pts with
             | Some s => negb (String.eqb s last)
             | None => true
             end
          then Returned (pts ++ [last])%list else Returned pts
        else Returned pts
    | other => other
    end.

Definition toSvgPoints (pl : Polyline) (step : num) : outcome string :=
  match toSvgCoords pl step with
  | Returned pts => Returned (String.concat " " pts)
  | Threw => Threw
  | OutOfFuel => OutOfFuel
  end.

(* ------------------------------------------------------------------- *)
(** *** Viewport *)
(* ------------------------------------------------------------------- *)

Definition clientToModel (svg : option SvgElement) (ev : PointerEvent)
  : option Point :=
  match svg with
  | None => None
  | Some el =>
      match screenCTM el with
      | None => None
      | Some CTM =>
          let x := (clientX ev -~ ctm_e CTM) /~ ctm_a CTM in
          let y := - ((clientY ev -~ ctm_f CTM) /~ ctm_d CTM) in
          Some (x, y)
      end
  end.

Definition boundsFinite (b : Bounds) : bool :=
  Num.isFinite (minX b) && Num.isFinite (minY b)
  && Num.isFinite (maxX b) && Num.isFinite (maxY b).

(** The letter-boxing step of [setViewToContentBounds]. *)
Definition letterbox (vw vh : num) (b : Bounds) : Bounds :=
  let w := maxX b -~ minX b in
  let h := maxY b -~ minY b in
  if (vw >? n0) && (vh >? n0) then
    let viewportRatio := vw /~ vh in
    let contentRatio := w /~ h in
    if Num.isFinite viewportRatio && (viewportRatio >? n0)
       && Num.isFinite contentRatio then
      if contentRatio >? viewportRatio then
        let targetH := w /~ viewportRatio in
        let extra := targetH -~ h in
        {| minX := minX b; minY := minY b -~ extra /~ n2;
           maxX := maxX b; maxY := maxY b +~ extra /~ n2 |}
      else if contentRatio <? viewportRatio then
        let targetW := h *~ viewportRatio in
        let extra := targetW -~ w in
        {| minX := minX b -~ extra /~ n2; minY := minY b;
           maxX := maxX b +~ extra /~ n2; maxY := maxY b |}
      else b
    else b
  else b.

(** The edges of [bounds] as [setViewToContentBounds] orders them: each
    pair swapped when it is the wrong way round. *)
Definition orderedBounds (bounds : Bounds) : Bounds :=
  let '(minX1, maxX1) :=
    if maxX bounds <? minX bounds then (maxX bounds, minX bounds)
    else (minX bounds, maxX bounds) in
  let '(minY1, maxY1) :=
    if maxY bounds <? minY bounds then (maxY bounds, minY bounds)
    else (minY bounds, maxY bounds) in
  {| minX := minX1; minY := minY1; maxX := maxX1; maxY := maxY1 |}.

(** [span]: the larger side of the ordered bounds, or 100 when that is
    not a positive finite number. *)
Definition fitSpan (bounds : Bounds) : num :=
  let b := orderedBounds bounds in
  let span0 := Num.max (maxX b -~ minX b) (maxY b -~ minY b) in
  if negb (Num.isFinite span0) || (span0 <=? n0) then n100 else span0.

(** [pr]: the pad ratio clamped to [0, 0.5], or 0.05 when it is not
    finite. *)
Definition clampedPadRatio (padRatio : num) : num :=
  if Num.isFinite padRatio
  then Num.max n0 (Num.min n0_5 padRatio) else B64.round n0_05.

(** The ordered bounds grown by [pad] on every side. *)
Definition paddedBounds (bounds : Bounds) (pad : num) : Bounds :=
  let b := orderedBounds bounds in
  {| minX := minX b -~ pad; minY := minY b -~ pad;
     maxX := maxX b +~ pad; maxY := maxY b +~ pad |}.

(** The bounds that [setViewToContentBounds] assigns; [None] on the two
    early [return]s. *)
Definition contentBoundsView (svg : option SvgElement) (bounds : Bounds)
           (padRatio : num) : option Bounds :=
  if negb (boundsFinite bounds) then None
  else
    let pad := fitSpan bounds *~ clampedPadRatio padRatio in
    let b2 := paddedBounds bounds pad in
    let w2 := maxX b2 -~ minX b2 in
    let h2 := maxY b2 -~ minY b2 in
    if negb (Num.isFinite w2) || negb (Num.isFinite h2)
       || (w2 <=? n0) || (h2 <=? n0) then None
    else
      let vw := match svg with Some el => clientWidth el | None => n0 end in
      let vh := match svg with Some el => clientHeight el | None => n0 end in
      Some (letterbox vw vh b2).

Definition setViewToContentBounds (svg : option SvgElement)
           (bounds : Bounds) (padRatio : num) (st : State) : State :=
  match contentBoundsView svg bounds padRatio with
  | Some b => with_viewBounds b st
  | None => st
  end.

(** The loop [for (const [x, y] of pts) { if (x < minX) minX = x ... }]
    started from [Infinity] / [-Infinity]. *)
Definition growBounds (b : Bounds) (p : Point) : Bounds :=
  let '(x, y) := p in
  {| minX := if x <? minX b then x else minX b;
     minY := if y <? minY b then y else minY b;
     maxX := if x >? maxX b then x else maxX b;
     maxY := if y >? maxY b then y else maxY b |}.

Definition emptyBounds : Bounds :=
  {| minX := PInf; minY := PInf; maxX := NInf; maxY := NInf |}.

Definition pointsBounds (pts : Polyline) : Bounds :=
  fold_left growBounds pts emptyBounds.

(** [polylineLayerCounts]: layers in order of first appearance with their
    item counts, sorted by decreasing count (the sort is stable), first
    200 kept. *)
Fixpoint bumpCount (layer : string) (m : list (string * nat))
  : list (string * nat) :=
  match m with
  | [] => [(layer, 1%nat)]
  | (l, n) :: t => if String.eqb l layer then (l, S n) :: t
                   else (l, n) :: bumpCount layer t
  end.

Fixpoint insertByCount (e : string * nat) (sorted : list (string * nat))
  : list (string * nat) :=
  match sorted with
  | [] => [e]
  | h :: t => if (snd h <? snd e)%nat then e :: sorted
              else h :: insertByCount e t
  end.

Definition sortByCountDesc (m : list (string * nat)) : list (string * nat) :=
  fold_left (fun acc e => insertByCount e acc) m [].

Definition polylineLayerCounts (st : State) : list (string * nat) :=
  firstn 200
    (sortByCountDesc
       (fold_left (fun m it => bumpCount (it_layer it) m)
                  (polylineItems st) [])).

(** [layerFilterSet.value.size] *)
Definition layerFilterSize (st : State) : nat :=
  List.length (nodup string_dec (selectedLayers st)).

(** The part of [fitToContent] below its first [if]. *)
Definition fitToVisiblePoints (svg : option SvgElement) (st : State)
  : State :=
  let pts := flat_map it_points (visiblePolylineItems st) in
  match pts with
  | [] => with_viewBounds defaultBounds st
  | _ => setViewToContentBounds svg (pointsBounds pts)
                                  (B64.round n0_05) st
  end.

Definition fitToContent (svg : option SvgElement) (st : State) : State :=
  match bboxBounds st with
  | Some b =>
      if (0 <? layerFilterSize st)%nat
         && (layerFilterSize st =? List.length (polylineLayerCounts st))%nat
      then setViewToContentBounds svg b (B64.round n0_05) st
      else fitToVisiblePoints svg st
  | None => fitToVisiblePoints svg st
  end.

Definition onWheel (svg : option SvgElement) (ev : PointerEvent)
           (st : State) : State :=
  match clientToModel svg ev with
  | None => st
  | Some (px, py) =>
      let b := viewBounds st in
      let w := maxX b -~ minX b in
      let h := maxY b -~ minY b in
      let scale :=
        Math_exp (Num.max (Fin (-10)) (Num.min (Fin 10) (deltaY ev))
                  *~ B64.round (Fin (12 # 10000))) in
      let minW := n1 in
      let minH := n1 in
      let maxW := n1e9 in
      let maxH := n1e9 in
      let nextW := Num.max minW (Num.min maxW (w *~ scale)) in
      let nextH := Num.max minH (Num.min maxH (h *~ scale)) in
      let rx := if w =? n0 then n0_5 else (px -~ minX b) /~ w in
      let ry := if h =? n0 then n0_5 else (py -~ minY b) /~ h in
      let minX' := px -~ rx *~ nextW in
      let maxX' := minX' +~ nextW in
      let minY' := py -~ ry *~ nextH in
      let maxY' := minY' +~ nextH in
      with_viewBounds
        {| minX := minX'; minY := minY'; maxX := maxX'; maxY := maxY' |} st
  end.

(* ------------------------------------------------------------------- *)
(** *** Editing the point arrays *)
(* ------------------------------------------------------------------- *)

Definition setPoints (pts : Polyline) (it : PolylineItem) : PolylineItem :=
  {| it_id := it_id it; it_layer := it_layer it; it_type := it_type it;
     it_points := pts; it_visible := it_visible it;
     it_entityIndex := it_entityIndex it;
     it_lineOverride := it_lineOverride it; it_source := it_source it |}.

Definition setVisible (b : bool) (it : PolylineItem) : PolylineItem :=
  {| it_id := it_id it; it_layer := it_layer it; it_type := it_type it;
     it_points := it_points it; it_visible := Some b;
     it_entityIndex := it_entityIndex it;
     it_lineOverride := it_lineOverride it; it_source := it_source it |}.

(** A write through the reference that [find] / [findIndex] returned: it
    reaches the first item with that id. *)
Fixpoint updateItem (id : string) (f : PolylineItem -> PolylineItem)
         (items : list PolylineItem) : list PolylineItem :=
  match items with
  | [] => []
  | it :: t => if String.eqb (it_id it) id then f it :: t
               else it :: updateItem id f t
  end.

(** [polylineItems.value.splice(idx, 1)] with [idx] the index of the first
    item with that id. *)
Fixpoint removeItem (id : string) (items : list PolylineItem)
  : list PolylineItem :=
  match items with
  | [] => []
  | it :: t => if String.eqb (it_id it) id then t
               else it :: removeItem id t
  end.

(** [pl[i] = v] for an index that exists *)
Fixpoint setNth {A : Type} (i : nat) (v : A) (l : list A) : list A :=
  match l, i with
  | [], _ => []
  | _ :: t, O => v :: t
  | h :: t, S j => h :: setNth j v t
  end.

(** [pl.splice(i, 0, v)] *)
Definition insertAt {A : Type} (i : nat) (v : A) (l : list A) : list A :=
  (firstn i l ++ v :: skipn i l)%list.

(** [pl.splice(i, 1)] *)
Definition removeAt {A : Type} (i : nat) (l : list A) : list A :=
  (firstn i l ++ skipn (S i) l)%list.

Definition selectPolyline (id : string) (st : State) : State :=
  let st1 := with_selectedItemId (Some id) st in
  match findItemById st1 id with
  | Some it =>
      match it_entityIndex it with
      | Some n => with_selectedEntityIndex (Some n) st1
      | None => st1
      end
  | None => st1
  end.

Definition onPointerDown (id : string) (ptIndex : nat) (st : State)
  : State :=
  selectPolyline id
    (with_selected (Some (id, ptIndex))
       (with_dragging (Some (id, ptIndex)) st)).

(** The callback that [onPointerMove] hands to [requestAnimationFrame]. *)
Definition dragFrame (st : State) : State :=
  let st1 := with_latestDrag None (with_dragRaf false st) in
  match latestDrag st with
  | None => st1
  | Some d =>
      match findItemById st1 (ld_id d) with
      | None => st1
      | Some it =>
          match nth_error (it_points it) (ld_ptIndex d) with
          | None => st1
          | Some _ =>
              with_items
                (updateItem (ld_id d)
                   (fun it => setPoints
                                (setNth (ld_ptIndex d) (ld_x d, ld_y d)
                                        (it_points it)) it)
                   (polylineItems st1)) st1
          end
      end
  end.

Definition onPointerMove (svg : option SvgElement) (ev : PointerEvent)
           (st : State) : State :=
  match panning st with
  | Some pan =>
      match clientToModel svg ev with
      | None => st
      | Some (px, py) =>
          let start := pan_start pan in
          let b := pan_bounds pan in
          let dx := px -~ fst start in
          let dy := py -~ snd start in
          with_viewBounds
            {| minX := minX b -~ dx; minY := minY b -~ dy;
               maxX := maxX b -~ dx; maxY := maxY b -~ dy |} st
      end
  | None =>
      match draggingPolyline st with
      | Some d =>
          match clientToModel svg ev with
          | None => st
          | Some (px, py) =>
              match findItemById st (dp_id d) with
              | None => st
              | Some _ =>
                  let dx := px -~ fst (dp_start d) in
                  let dy := py -~ snd (dp_start d) in
                  with_items
                    (updateItem (dp_id d)
                       (setPoints
                          (map (fun '(x, y) => (x +~ dx, y +~ dy))
                               (dp_basePoints d)))
                       (polylineItems st)) st
              end
          end
      | None =>
          match dragging st, polylineItems st with
          | None, _ | _, [] => st
          | Some (id, ptIndex), _ =>
              match clientToModel svg ev with
              | None => st
              | Some (px, py) =>
                  let st1 :=
                    with_latestDrag
                      (Some {| ld_id := id; ld_ptIndex := ptIndex;
                               ld_x := px; ld_y := py |}) st in
                  if dragRaf st1 then st1 else with_dragRaf true st1
              end
          end
      end
  end.

(** [onPointerUp] and [onPointerCancel] have the same body. *)
Definition onPointerUp (st : State) : State :=
  with_dragRaf false
    (with_latestDrag None
       (with_panning None
          (with_draggingPolyline None (with_dragging None st)))).

Definition onCanvasPointerDown (svg : option SvgElement)
           (ev : PointerEvent) (st : State) : State :=
  if negb (targetIsCurrentTarget ev) then st
  else if Z.eqb (button ev) 1 || shiftKey ev then
    match clientToModel svg ev with
    | None => st
    | Some p =>
        with_panning
          (Some {| pan_pointerId := pointerId ev; pan_start := p;
                   pan_bounds := viewBounds st |}) st
    end
  else
    with_selectedEntityIndex None
      (with_selectedItemId None (with_selected None st)).

Definition onPolylinePointerDown (svg : option SvgElement) (id : string)
           (ev : PointerEvent) (st : State) : State :=
  if negb (Z.eqb (button ev) 0) then st
  else if negb (altKey ev) && negb (ctrlKey ev) && negb (metaKey ev) then st
  else
    match clientToModel svg ev with
    | None => st
    | Some p =>
        match findItemById st id with
        | None => st
        | Some it =>
            with_draggingPolyline
              (Some {| dp_pointerId := pointerId ev; dp_id := id;
                       dp_start := p; dp_basePoints := it_points it |})
              (with_selected None (selectPolyline id st))
        end
    end.

(** The point the selection designates, [it?.points?.[s.ptIndex]]. *)
Definition selectedPointOf (st : State) : option (string * nat * Point) :=
  match selected st with
  | None => None
  | Some (id, ptIndex) =>
      match findItemById st id with
      | None => None
      | Some it =>
          match nth_error (it_points it) ptIndex with
          | None => None
          | Some p => Some (id, ptIndex, p)
          end
      end
  end.

Definition writeSelectedPoint (st : State) (id : string) (i : nat)
           (p : Point) : State :=
  with_items
    (updateItem id (fun it => setPoints (setNth i p (it_points it)) it)
                (polylineItems st)) st.

Definition setSelectedX (x : num) (st : State) : State :=
  match selectedPointOf st with
  | None => st
  | Some (id, i, p) => writeSelectedPoint st id i (x, snd p)
  end.

Definition setSelectedY (y : num) (st : State) : State :=
  match selectedPointOf st with
  | None => st
  | Some (id, i, p) => writeSelectedPoint st id i (fst p, y)
  end.

(** The parameter [t] that the loop of [insertPointOnPolyline] computes
    for segment [a]-[b]: the projection of [p], clamped to [0, 1]. *)
Definition segmentParam (p a b : Point) : num :=
  let '(ax, ay) := a in
  let '(bx, by_) := b in
  let abx := bx - ax in
  let aby := by_ - ay in
  let apx := fst p - ax in
  let apy := snd p - ay in
  let abLen2 := abx * abx + aby * aby in
  if abLen2 =? n0 then n0
  else Num.max n0 (Num.min n1 ((apx * abx + apy * aby) / abLen2)).

(** The point [(cx, cy)] of the segment at that parameter. *)
Definition closestOnSegment (p a b : Point) : Point :=
  let t := segmentParam p a b in
  (fst a + t * (fst b - fst a), snd a + t * (snd b - snd a)).

Definition segDist2 (p a b : Point) : num :=
  let c := closestOnSegment p a b in
  let dx := fst p - fst c in
  let dy := snd p - snd c in
  dx * dx + dy * dy.

(** The loop over [i = 0 .. pl.length - 2]; [pl] is the part of the
    array from index [i] on. *)
Fixpoint nearestSegFrom (p : Point) (pl : Polyline) (i bestSeg : nat)
         (bestDist2 : num) : nat :=
  match pl with
  | a :: ((b :: _) as t) =>
      let d2 := segDist2 p a b in
      if d2 <? bestDist2 then nearestSegFrom p t (S i) i d2
      else nearestSegFrom p t (S i) bestSeg bestDist2
  | _ => bestSeg
  end.

Definition nearestSeg (p : Point) (pl : Polyline) : nat :=
  nearestSegFrom p pl 0 0 PInf.

Definition insertPointOnPolyline (svg : option SvgElement) (id : string)
           (ev : PointerEvent) (st : State) : State :=
  match clientToModel svg ev with
  | None => st
  | Some p =>
      match findItemById st id with
      | None => st
      | Some it =>
          let pl := it_points it in
          if (List.length pl <? 2)%nat then st
          else
            let bestSeg := nearestSeg p pl in
            with_selected (Some (id, S bestSeg))
              (with_items
                 (updateItem id
                    (fun it => setPoints
                                 (insertAt (S bestSeg) p (it_points it)) it)
                    (polylineItems st)) st)
      end
  end.

Definition deleteSelectedPoint (st : State) : State :=
  match selected st with
  | None => st
  | Some (id, ptIndex) =>
      match findItemById st id with
      | None => st
      | Some it =>
          let pl := it_points it in
          match nth_error pl ptIndex with
          | None => st
          | Some _ =>
              if (List.length pl <=? 2)%nat then
                with_selected None
                  (with_items (removeItem id (polylineItems st)) st)
              else
                with_selected (Some (id, Nat.max 0 (ptIndex - 1)))
                  (with_items
                     (updateItem id
                        (fun it => setPoints
                                     (removeAt ptIndex (it_points it)) it)
                        (polylineItems st)) st)
          end
      end
  end.

Definition nudgeSelectedPoint (dx dy mult : num) (st : State) : State :=
  match selectedPointOf st with
  | None => st
  | Some (id, i, p) =>
      let raw := ToNumber (pointNudgeStep st) in
      let step := Num.max n0 (if truthy (JNum raw) then raw else n0) in
      if negb (Num.isFinite step) || (step <=? n0) then st
      else
        let nx := fst p + dx * step * mult in
        let ny := snd p + dy * step * mult in
        if negb (Num.isFinite nx) || negb (Num.isFinite ny) then st
        else writeSelectedPoint st id i (nx, ny)
  end.

(** [mode === 'before'] is [before = true]. *)
Definition insertPointAroundSelected (before : bool) (st : State) : State :=
  match selected st with
  | None => st
  | Some (id, i) =>
      match findItemById st id with
      | None => st
      | Some it =>
          let pl := it_points it in
          if (List.length pl <? 2)%nat then st
          else
            let prevIndex := Nat.max 0 (i - 1) in
            let nextIndex := Nat.min (List.length pl - 1) (S i) in
            match nth_error pl (if before then prevIndex else i),
                  nth_error pl (if before then i else nextIndex) with
            | Some a, Some b =>
                let mid := ((fst a + fst b) / n2, (snd a + snd b) / n2) in
                let at_ := if before then i else S i in
                with_selected (Some (id, at_))
                  (with_items
                     (updateItem id
                        (fun it => setPoints
                                     (insertAt at_ mid (it_points it)) it)
                        (polylineItems st)) st)
            | _, _ => st (* [a[0]] on [undefined] throws before any write *)
            end
      end
  end.

(* ------------------------------------------------------------------- *)
(** *** Serialiser *)
(* ------------------------------------------------------------------- *)

Definition lineTypeName (t : LayerLineType) : string :=
  match t with
  | solid => "solid" | dash => "dash" | dot => "dot" | dashdot => "dashdot"
  end.

Definition optValue {A : Type} (f : A -> jsval) (o : option A) : jsval :=
  match o with Some a => f a | None => JUndefined end.

Definition pointValue (p : Point) : jsval :=
  JArr [JNum (fst p); JNum (snd p)].

Definition lineOverrideValue (lo : PolylineLineOverride) : jsval :=
  JObj [("type", optValue (fun t => JStr (lineTypeName t)) (lo_type lo));
        ("color", optValue JStr (lo_color lo));
        ("width", optValue JNum (lo_width lo))].

(** The object that the arrow function of [exportJson] builds for one
    item: every field but [source]. *)
Definition exportItem (it : PolylineItem) : jsval :=
  JObj [("id", JStr (it_id it));
        ("layer", JStr (it_layer it));
        ("type", JStr (it_type it));
        ("points", JArr (map pointValue (it_points it)));
        ("visible", JBool (visibleOrTrue it));
        ("entityIndex", optValue JNum (it_entityIndex it));
        ("lineOverride", optValue lineOverrideValue (it_lineOverride it))].

(** [{ ...style, visible }] *)
Definition layerStyleValue (s : LayerStyle) (visible : bool) : jsval :=
  JObj [("line", JObj [("type", JStr (lineTypeName (line_type (ls_line s))));
                       ("color", JStr (line_color (ls_line s)));
                       ("width", JNum (line_width (ls_line s)))]);
        ("point", JObj [("size", JNum (ls_point_size s))]);
        ("text", JObj [("fontFamily", JStr (fontFamily (ls_text s)));
                       ("italicAngle", JNum (italicAngle (ls_text s)));
                       ("bold", JBool (bold (ls_text s)));
                       ("fontSize", JNum (fontSize (ls_text s)));
                       ("widthFactor", JNum (widthFactor (ls_text s)));
                       ("color", JStr (text_color (ls_text s)))]);
        ("dim", JObj [("scale", JNum (dim_scale (ls_dim s)));
                      ("textSize", JNum (textSize (ls_dim s)));
                      ("arrowSize", JNum (arrowSize (ls_dim s)));
                      ("lineGap", JNum (lineGap (ls_dim s)))]);
        ("visible", JBool visible)].

(** The argument of [JSON.stringify] in [exportJson]. *)
Definition exportObject (st : State) : jsval :=
  JObj [("polylines", JArr (map exportItem (visiblePolylineItems st)));
        ("layers",
         JObj (map (fun '(layer, style) =>
                      (layer,
                       layerStyleValue style (layerFilterHas st layer)))
                   (layerStyles st)))].

Definition exportJson (st : State) : string :=
  JSON_stringify (exportObject st).

(** The value that ECMAScript's [JSON.parse] recovers from the text that
    [JSON.stringify] writes for [v]: a property whose value is
    [undefined] is left out, [undefined] in an array and every non-finite
    number become [null]. *)
Fixpoint JSON_value (v : jsval) : jsval :=
  match v with
  | JNum n => if Num.isFinite n then v else JNull
  | JArr l =>
      JArr (map (fun e => match e with
                          | JUndefined => JNull
                          | _ => JSON_value e
                          end) l)
  | JObj props =>
      JObj ((fix go (ps : list (string * jsval)) : list (string * jsval) :=
               match ps with
               | [] => []
               | (k, e) :: t =>
                   match e with
                   | JUndefined => go t
                   | _ => (k, JSON_value e) :: go t
                   end
               end) props)
  | _ => v
  end.

Definition polylineClosedFlag (pl : Polyline) : bool * Polyline :=
  if (List.length pl <? 3)%nat then (false, pl)
  else
    let tol := n1e_6 in
    let first := hd (n0, n0) pl in
    let last := List.last pl (n0, n0) in
    let closed := (Num.abs (fst first - fst last) <? tol)
                  && (Num.abs (snd first - snd last) <? tol) in
    (closed, if closed then removelast pl else pl).

(** [pushPair(code, value)] *)
Definition pushPair (code value : string) : list string := [code; value].

(** The lines that one iteration of the loop of [toDxfString] pushes. *)
Definition dxfEntityLines (it : PolylineItem) : list string :=
  let '(closed, vertices) := polylineClosedFlag (it_points it) in
  if (List.length vertices <? 2)%nat then []
  else
    (pushPair "0" "LWPOLYLINE"
     ++ pushPair "100" "AcDbEntity"
     ++ pushPair "8" (if nonEmpty (it_layer it) then it_layer it else "0")
     ++ pushPair "100" "AcDbPolyline"
     ++ pushPair "90" (NumberToString (Num.ofNat (List.length vertices)))
     ++ pushPair "70" (if closed then "1" else "0")
     ++ flat_map (fun '(x, y) =>
                    pushPair "10" (NumberToString x)
                    ++ pushPair "20" (NumberToString y))
                 vertices)%list.

Definition toDxfLines (st : State) : list string :=
  (pushPair "0" "SECTION"
   ++ pushPair "2" "HEADER"
   ++ pushPair "9" "$ACADVER"
   ++ pushPair "1" "AC1027"
   ++ pushPair "0" "ENDSEC"
   ++ pushPair "0" "SECTION"
   ++ pushPair "2" "ENTITIES"
   ++ flat_map dxfEntityLines (visiblePolylineItems st)
   ++ pushPair "0" "ENDSEC"
   ++ pushPair "0" "EOF")%list.

Definition newline : string := String (ascii_of_nat 10) EmptyString.

Definition toDxfString (st : State) : string :=
  String.concat newline (toDxfLines st).


(* ------------------------------------------------------------------- *)
(** *** Layer style registry and JSON import *)
(* ------------------------------------------------------------------- *)

Fixpoint lookupKey {A : Type} (k : string) (m : list (string * A))
  : option A :=
  match m with
  | [] => None
  | (k', v) :: t => if String.eqb k k' then Some v else lookupKey k t
  end.

(** The value of a string of decimal digits. *)
Fixpoint digitsValue (l : list ascii) (acc : Z) : option Z :=
  match l with
  | [] => Some acc
  | c :: t =>
      let n := nat_of_ascii c in
      if ((48 <=? n) && (n <=? 57))%nat
      then digitsValue t (acc * 10 + Z.of_nat (n - 48))%Z
      else None
  end.

(** An array index: the canonical decimal form of an integer below
    [2^32 - 1].  The own properties of an object whose names are array
    indices are enumerated first, in ascending order; the others follow
    in the order of their creation.  An association list that stands for
    a plain object holds its own properties in that order. *)
Definition arrayIndex (k : string) : option Z :=
  match list_ascii_of_string k with
  | [] => None
  | c :: t =>
      if Ascii.eqb c "0" && negb (match t with [] => true | _ => false end)
      then None
      else match digitsValue (c :: t) 0 with
           | Some z => if (z <? 4294967295)%Z then Some z else None
           | None => None
           end
  end.

(** The new property [k], an array index [i], takes its place among the
    array indices. *)
Fixpoint insertIndex {A : Type} (i : Z) (k : string) (v : A)
         (m : list (string * A)) : list (string * A) :=
  match m with
  | [] => [(k, v)]
  | (k', v') :: t =>
      match arrayIndex k' with
      | Some j => if (j <? i)%Z then (k', v') :: insertIndex i k v t
                  else (k, v) :: m
      | None => (k, v) :: m
      end
  end.

(** The value of the own property [k] is replaced where it stands. *)
Fixpoint replaceKey {A : Type} (k : string) (v : A) (m : list (string * A))
  : list (string * A) :=
  match m with
  | [] => []
  | (k', v') :: t => if String.eqb k k' then (k', v) :: t
                     else (k', v') :: replaceKey k v t
  end.

(** [m[k] = v] for a name [k] other than [__proto__] *)
Definition setKey {A : Type} (k : string) (v : A) (m : list (string * A))
  : list (string * A) :=
  match lookupKey k m with
  | Some _ => replaceKey k v m
  | None =>
      match arrayIndex k with
      | Some i => insertIndex i k v m
      | None => (m ++ [(k, v)])%list
      end
  end.

(** The names of the properties of [Object.prototype].  On a plain
    object without an own property of that name, the read [m[k]] finds
    the inherited one: a function, or for [__proto__] the prototype
    itself, a truthy value in every case. *)
Definition objectPrototypeNames : list string :=
  ["constructor"; "__defineGetter__"; "__defineSetter__";
   "hasOwnProperty"; "__lookupGetter__"; "__lookupSetter__";
   "isPrototypeOf"; "propertyIsEnumerable"; "toString"; "valueOf";
   "__proto__"; "toLocaleString"].

Definition inheritedName (k : string) : bool :=
  existsb (String.eqb k) objectPrototypeNames.

(** [existing = layerStyles.value[l]; if (existing) return existing]:
    an own style, or else an inherited property of [Object.prototype],
    ends the call; only otherwise is the default style stored. *)
Definition ensureLayerStyle (layer : string) (st : State) : State :=
  let l := normalizeLayer (JStr layer) in
  match lookupKey l (layerStyles st) with
  | Some _ => st
  | None =>
      if inheritedName l then st
      else with_layerStyles (setKey l defaultLayerStyle (layerStyles st)) st
  end.

Definition initLayerStateFromItems (forceSelectAllIfEmpty : bool)
           (st : State) : State :=
  let layers := map fst (polylineLayerCounts st) in
  let st1 := fold_left (fun s l => ensureLayerStyle l s) layers st in
  if forceSelectAllIfEmpty && (0 <? List.length layers)%nat
     && (List.length (selectedLayers st1) =? 0)%nat
  then with_selectedLayers layers st1
  else st1.

Fixpoint toDecimal_aux (fuel n : nat) (acc : string) : string :=
  match fuel with
  | O => acc
  | S f =>
      let acc' := String (ascii_of_nat (48 + n mod 10)) acc in
      if (n / 10 =? 0)%nat then acc' else toDecimal_aux f (n / 10) acc'
  end.

Definition toDecimal (n : nat) : string := toDecimal_aux (S n) n "".

(** [Object.entries(v)] of a record in its enumeration order. *)
Definition objectEntries (v : jsval) : list (string * jsval) :=
  match v with
  | JObj props => props
  | JArr l => combine (map toDecimal (seq 0 (List.length l))) l
  | _ => []
  end.

(** The loop of [applyJsonDraft] over the entries of [layers]. *)
Fixpoint readLayerConfig (entries : list (string * jsval))
         (nextStyles : list (string * LayerStyle))
         (nextVisible : list string)
  : list (string * LayerStyle) * list string :=
  match entries with
  | [] => (nextStyles, nextVisible)
  | (k, v) :: t =>
      let layer := normalizeLayer (JStr k) in
      let visible :=
        match asRecord v with
        | Some vr => truthy (nullish (get vr "visible") (JBool true))
        | None => true
        end in
      readLayerConfig t
        (* [nextStyles['__proto__'] = style] sets the prototype of
           [nextStyles] and creates no own property *)
        (if String.eqb layer "__proto__" then nextStyles
         else setKey layer (normalizeLayerStyle v) nextStyles)
                      (if visible then (nextVisible ++ [layer])%list
                       else nextVisible)
  end.

(** The loop of [applyJsonDraft] over the entries of [layers] is left by
    an exception: [normalizeLayerStyle] throws on one of the values. *)
Definition readLayerConfigThrows (entries : list (string * jsval)) : bool :=
  existsb (fun kv => normalizeLayerStyleThrows (snd kv)) entries.

(** [Boolean(r && r.layers && typeof r.layers === 'object')] *)
Definition hasLayerConfig (obj : jsval) : bool :=
  match optGet (asRecord obj) "layers" with
  | JArr _ | JObj _ => true
  | _ => false
  end.

Definition applyJsonDraft (st : State) : State :=
  let st0 := with_jsonState idle st in
  match JSON_parse (jsonDraft st0) with
  | None => with_jsonState fail st0
  | Some obj =>
      let r := asRecord obj in
      if normalizePolylinesThrows obj then
        (* the [TypeError] is caught: only the id counter has moved *)
        with_jsonState fail
          (with_polylineIdSeq
             (snd (normalizeEach (polylineIdSeq st0)
                                 (beforeThrow (polylinesArray obj)))) st0)
      else
        let '(next, seq') := normalizePolylines (polylineIdSeq st0) obj in
        let st1 := with_polylineIdSeq seq' st0 in
        match next with
        | [] => with_jsonState fail st1
        | _ =>
            let st2 :=
              with_selectedLayers []
                (with_layerStyles []
                   (with_selectedEntityIndex None
                      (with_selectedItemId None
                         (with_selected None
                            (with_bboxBounds None
                               (with_items next st1)))))) in
            if hasLayerConfig obj
               && readLayerConfigThrows (objectEntries (optGet r "layers"))
            then
              (* caught after the items, the selection and the layer
                 state were replaced *)
              with_jsonState fail st2
            else
              let st3 :=
                if hasLayerConfig obj then
                  let '(nextStyles, nextVisible) :=
                    readLayerConfig (objectEntries (optGet r "layers"))
                                    [] [] in
                  with_selectedLayers nextVisible
                    (with_layerStyles nextStyles st2)
                else st2 in
              with_jsonState ok
                (initLayerStateFromItems (negb (hasLayerConfig obj)) st3)
        end
  end.

Definition refreshJsonDraft (st : State) : State :=
  with_jsonState idle (with_jsonDraft (exportJson st) st).

Definition clearAll (st : State) : State :=
  {| polylineIdSeq := polylineIdSeq st;
     polylineItems := [];
     bboxBounds := None;
     viewBounds := defaultBounds;
     dragging := dragging st;
     draggingPolyline := draggingPolyline st;
     panning := panning st;
     selected := None;
     selectedItemId := None;
     selectedEntityIndex := None;
     entityVisibleOverrides := [];
     copyState := idle;
     fileName := None;
     parsedDxf := None;
     jsonDraft := "";
     jsonState := idle;
     commandLine := "";
     commandState := idle;
     pointMode := pointMode st;
     selectedLayers := [];
     layerStyles := [];
     pointNudgeStep := pointNudgeStep st;
     dragRaf := dragRaf st;
     latestDrag := latestDrag st |}.

(* ------------------------------------------------------------------- *)
(** *** Command line *)
(* ------------------------------------------------------------------- *)

Definition tokenOf (cur : list ascii) : string :=
  string_of_list_ascii (rev cur).

(** [s.split(/\s+/)]: cut at every maximal run of white space; [cur]
    holds the current piece in reverse. *)
Fixpoint splitRuns (l cur : list ascii) (prevWs : bool) : list string :=
  match l with
  | [] => [tokenOf cur]
  | c :: t =>
      if isWhiteSpace c then
        if prevWs then splitRuns t cur true
        else tokenOf cur :: splitRuns t [] true
      else splitRuns t (c :: cur) false
  end.

Definition splitWhitespace (s : string) : list string :=
  splitRuns (list_ascii_of_string s) [] false.

(** [parts[i]] *)
Definition partValue (parts : list string) (i : nat) : jsval :=
  match nth_error parts i with
  | Some s => JStr s
  | None => JUndefined
  end.

(** [selectedItemId.value ?? selected.value?.id ?? null], and [None] as
    well when [!id] holds of it. *)
Definition commandTargetId (st : State) : option string :=
  let id :=
    match selectedItemId st with
    | Some i => Some i
    | None => match selected st with
              | Some (i, _) => Some i
              | None => None
              end
    end in
  match id with
  | Some i => if nonEmpty i then Some i else None
  | None => None
  end.

Definition movePoints (dx dy : num) (pts : Polyline) : Polyline :=
  map (fun p => (fst p +~ dx, snd p +~ dy)) pts.

Definition scalePoints (sx sy : num) (pts : Polyline) : Polyline :=
  let b := pointsBounds pts in
  let cx := (minX b +~ maxX b) /~ n2 in
  let cy := (minY b +~ maxY b) /~ n2 in
  map (fun p => (cx +~ (fst p -~ cx) *~ sx, cy +~ (snd p -~ cy) *~ sy)) pts.

Definition rotatePoints (deg : num) (pts : Polyline) : Polyline :=
  let b := pointsBounds pts in
  let cx := (minX b +~ maxX b) /~ n2 in
  let cy := (minY b +~ maxY b) /~ n2 in
  let rad := (deg *~ B64.Math_PI) /~ Fin 180 in
  let cos := Math_cos rad in
  let sin := Math_sin rad in
  map (fun p =>
         let dx := fst p -~ cx in
         let dy := snd p -~ cy in
         (cx +~ dx *~ cos -~ dy *~ sin, cy +~ dy *~ cos +~ dx *~ sin)) pts.

(** A transformation command once its arguments are accepted: resolve the
    item, then rewrite its points. *)
Definition transformSelected (id : string) (f : Polyline -> Polyline)
           (st : State) : State :=
  match findItemById st id with
  | None => with_commandState fail st
  | Some _ =>
      with_commandState ok
        (with_items
           (updateItem id (fun it => setPoints (f (it_points it)) it)
                       (polylineItems st)) st)
  end.

(** [copyJson()] up to its first [await]. *)
Definition copyJsonStart (st : State) : State :=
  match visiblePolylineItems st with
  | [] => st
  | _ => with_copyState idle st
  end.

(** [commandLine.value.trim().split(/\s+/).filter(Boolean)] *)
Definition commandParts (line : string) : list string :=
  filter nonEmpty (splitWhitespace (trim line)).

(** [(parts[0] ?? '').toLowerCase()] *)
Definition commandVerb (parts : list string) : string :=
  toLowerCase (hd "" parts).

Definition runCommand (svg : option SvgElement) (st : State) : State :=
  let parts := commandParts (commandLine st) in
  let cmd := commandVerb parts in
  let st0 := with_commandState idle st in
  if String.eqb cmd "clear" then with_commandState ok (clearAll st0)
  else if String.eqb cmd "delete" then
    with_commandState ok (deleteSelectedPoint st0)
  else if String.eqb cmd "copy" then copyJsonStart st0
  else if String.eqb cmd "export" then with_commandState ok st0
  else if String.eqb cmd "refresh-json" then
    with_commandState ok (refreshJsonDraft st0)
  else if String.eqb cmd "apply-json" then
    let st1 := applyJsonDraft st0 in
    with_commandState
      (match jsonState st1 with fail => fail | _ => ok end) st1
  else if String.eqb cmd "fit" then
    with_commandState ok (fitToContent svg st0)
  else if String.eqb cmd "move" then
    match commandTargetId st0 with
    | None => with_commandState fail st0
    | Some id =>
        let dx := ToNumber (partValue parts 1) in
        let dy := ToNumber (partValue parts 2) in
        if negb (Num.isFinite dx) || negb (Num.isFinite dy)
        then with_commandState fail st0
        else transformSelected id (movePoints dx dy) st0
    end
  else if String.eqb cmd "scale" then
    match commandTargetId st0 with
    | None => with_commandState fail st0
    | Some id =>
        let sx := ToNumber (partValue parts 1) in
        let sy := if (3 <=? List.length parts)%nat
                  then ToNumber (partValue parts 2) else sx in
        if negb (Num.isFinite sx) || negb (Num.isFinite sy)
           || (sx =? n0) || (sy =? n0)
        then with_commandState fail st0
        else transformSelected id (scalePoints sx sy) st0
    end
  else if String.eqb cmd "rotate" then
    match commandTargetId st0 with
    | None => with_commandState fail st0
    | Some id =>
        let deg := ToNumber (partValue parts 1) in
        if negb (Num.isFinite deg) then with_commandState fail st0
        else transformSelected id (rotatePoints deg) st0
    end
  else if nonEmpty cmd then with_commandState fail st0
  else st0.

(* ------------------------------------------------------------------- *)
(** *** Loading a parsed DXF file *)
(* ------------------------------------------------------------------- *)

Definition asBoxBounds (v : jsval) : option Bounds :=
  let r := asRecord v in
  let min := asRecord (optGet r "min") in
  let max := asRecord (optGet r "max") in
  match optGet min "x", optGet min "y", optGet max "x", optGet max "y" with
  | JNum a, JNum b, JNum c, JNum d =>
      let bb := {| minX := a; minY := b; maxX := c; maxY := d |} in
      if boundsFinite bb then Some bb else None
  | _, _, _, _ => None
  end.

(** [cr ? normalizeFiniteNumber(cr.k, NaN) : NaN] *)
Definition finiteField (cr : option jsval) (k : string) : num :=
  match cr with
  | Some r => normalizeFiniteNumber (get r k) NaN
  | None => NaN
  end.

Fixpoint cornerPoints (corners : list jsval) : Polyline :=
  match corners with
  | [] => []
  | c :: t =>
      let cr := asRecord c in
      let x := finiteField cr "x" in
      let y := finiteField cr "y" in
      if Num.isFinite x && Num.isFinite y then (x, y) :: cornerPoints t
      else cornerPoints t
  end.

Definition polylinePointsFromEntity (entity : jsval) : option Polyline :=
  match asRecord entity with
  | None => None
  | Some er =>
      match get er "type" with
      | JStr ty =>
          if String.eqb ty "SOLID" then
            let corners := match get er "corners" with
                           | JArr l => l
                           | _ => []
                           end in
            let pts := cornerPoints corners in
            match pts with
            | p0 :: _ => if (List.length pts <? 3)%nat then None
                         else Some (pts ++ [p0])%list
            | [] => None
            end
          else if String.eqb ty "DIMENSION" then
            let ms := asRecord (get er "measureStart") in
            let me := asRecord (get er "measureEnd") in
            let x1 := finiteField ms "x" in
            let y1 := finiteField ms "y" in
            let x2 := finiteField me "x" in
            let y2 := finiteField me "y" in
            if negb (Num.isFinite x1) || negb (Num.isFinite y1)
               || negb (Num.isFinite x2) || negb (Num.isFinite y2)
            then None
            else Some [(x1, y1); (x2, y2)]
          else None
      | _ => None
      end
  end.

(** [s.includes(sub)] *)
Definition includes (s sub : string) : bool :=
  match index 0 sub s with Some _ => true | None => false end.

Definition lineTypeFromName (name : jsval) : option LayerLineType :=
  match name with
  | JStr n =>
      let s := toLowerCase (trim n) in
      if negb (nonEmpty s) || String.eqb s "bylayer"
         || String.eqb s "byblock" then None
      else if includes s "dashdot" || includes s "dash-dot"
              || includes s "dash_dot" then Some dashdot
      else if includes s "dot" then Some dot
      else if includes s "dash" then Some dash
      else Some solid
  | _ => None
  end.

Definition hexDigit (d : Z) : ascii :=
  if (d <? 10)%Z then ascii_of_nat (48 + Z.to_nat d)
  else ascii_of_nat (87 + Z.to_nat d).

(** [Math.max(0, Math.min(255, Math.round(n))).toString(16)
    .padStart(2, '0')] for a finite [n]. *)
Definition to2 (q : Q) : string :=
  let r := Qfloor (q + (1 # 2)) in
  let c := Z.max 0 (Z.min 255 r) in
  String (hexDigit (c / 16)) (String (hexDigit (c mod 16)) EmptyString).

Definition rgbToHex (v : jsval) : option string :=
  match v with
  | JArr (r :: g :: b :: _) =>
      match ToNumber r, ToNumber g, ToNumber b with
      | Fin qr, Fin qg, Fin qb => Some ("#" ++ to2 qr ++ to2 qg ++ to2 qb)
      | _, _, _ => None
      end
  | _ => None
  end.

(** One iteration of the loop of [onFileSelected] over [rawPolylines]. *)
Definition dxfItem (seq i : nat) (pl ent : jsval)
  : option PolylineItem * nat :=
  let points :=
    match normalizePolylinePointsLike pl with
    | Some pts => Some pts
    | None => polylinePointsFromEntity ent
    end in
  match points with
  | None => (None, seq)
  | Some pts =>
      let er := asRecord ent in
      let plr := asRecord pl in
      let type :=
        match optGet er "type" with
        | JStr t => t
        | _ => normalizeType (optGet plr "type")
        end in
      let layer :=
        normalizeLayer (nullish (optGet er "layer") (optGet plr "layer")) in
      let visible := truthy (nullish (optGet er "visible") (JBool true)) in
      let o_type := lineTypeFromName (optGet er "lineTypeName") in
      let o_color :=
        match optGet er "colorNumber" with
        | JNum c => if negb (c =? Fin 256) then rgbToHex (optGet plr "rgb")
                    else None
        | _ => None
        end in
      let lineOverride :=
        match o_type, o_color with
        | None, None => None
        | _, _ => Some {| lo_type := o_type; lo_color := o_color;
                          lo_width := None |}
        end in
      let '(id, seq') := nextPolylineId "dxf" seq in
      (Some {| it_id := id; it_layer := layer; it_type := type;
               it_points := pts; it_visible := Some visible;
               it_entityIndex := Some (Num.ofNat i);
               it_lineOverride := lineOverride;
               it_source := Some (JObj [("entity", ent);
                                        ("polyline", pl)]) |}, seq')
  end.

Fixpoint dxfItems (seq i : nat) (rawPolylines denormEntities : list jsval)
  : list PolylineItem * nat :=
  match rawPolylines with
  | [] => ([], seq)
  | pl :: t =>
      let ent := nth i denormEntities JUndefined in
      let '(item, seq1) := dxfItem seq i pl ent in
      let '(rest, seq2) := dxfItems seq1 (S i) t denormEntities in
      (match item with Some it => it :: rest | None => rest end, seq2)
  end.

(** The body of the timer callback of [onFileSelected], given what the
    parser returned: [polyResult] is [helper.toPolylines()], [denorm] is
    [helper.denormalised], [name] is [file.name]. *)
Definition loadParsedDxf (svg : option SvgElement)
           (polyResult denorm : jsval) (name : string) (st : State)
  : State :=
  let pr := asRecord polyResult in
  let denormEntities := match denorm with JArr l => l | _ => [] end in
  let rawPolylines := match optGet pr "polylines" with
                      | JArr l => l
                      | _ => []
                      end in
  let '(items, seq') :=
    dxfItems (polylineIdSeq st) 0 rawPolylines denormEntities in
  let st1 :=
    with_selectedLayers []
      (with_layerStyles []
         (with_items items
            (with_polylineIdSeq seq'
               (with_bboxBounds (asBoxBounds (optGet pr "bbox")) st)))) in
  let st2 := initLayerStateFromItems true st1 in
  let st3 :=
    with_selectedEntityIndex None
      (with_selectedItemId None
         (with_selected None
            (with_fileName (Some name)
               (with_entityVisibleOverrides []
                  (with_parsedDxf
                     (Some (JObj [("entities", JArr denormEntities)]))
                     st2))))) in
  let st4 :=
    with_commandState idle
      (with_commandLine ""
         (with_jsonState idle
            (with_jsonDraft (exportJson st3)
               (with_copyState idle st3)))) in
  let st5 :=
    with_pointMode
      (if Num.ofNat (countPoints st4) >? Fin 3500 then pm_sampled
       else pm_all) st4 in
  fitToContent svg st5.

(** [setLayerVisible], [clearLayerFilter], [selectAllLayers] *)
Fixpoint removeFirstString (l : string) (ls : list string) : list string :=
  match ls with
  | [] => []
  | h :: t => if String.eqb h l then t else h :: removeFirstString l t
  end.

Definition setLayerVisible (layer : string) (visible : bool) (st : State)
  : State :=
  let l := normalizeLayer (JStr layer) in
  let present := existsb (String.eqb l) (selectedLayers st) in
  if visible then
    if present then st
    else with_selectedLayers (selectedLayers st ++ [l])%list st
  else
    if present
    then with_selectedLayers (removeFirstString l (selectedLayers st)) st
    else st.

Definition clearLayerFilter (st : State) : State :=
  with_selectedLayers [] st.

Definition selectAllLayers (st : State) : State :=
  with_selectedLayers (map fst (polylineLayerCounts st)) st.

(* ------------------------------------------------------------------- *)
(** *** The interaction loop *)
(* ------------------------------------------------------------------- *)

(** One callback of the component, with what the browser passes to it.
    [TypeCommandLine] and [TypeJsonDraft] are the two text boxes bound
    to [commandLine] and [jsonDraft]. *)
Inductive Action : Type :=
| PointerDown (id : string) (ptIndex : nat)
| PointerMove (svg : option SvgElement) (ev : PointerEvent)
| AnimationFrame
| PointerUp
| CanvasPointerDown (svg : option SvgElement) (ev : PointerEvent)
| PolylinePointerDown (svg : option SvgElement) (id : string)
                      (ev : PointerEvent)
| Wheel (svg : option SvgElement) (ev : PointerEvent)
| SetSelectedX (x : num)
| SetSelectedY (y : num)
| DoubleClick (svg : option SvgElement) (id : string) (ev : PointerEvent)
| DeleteKey
| Nudge (dx dy mult : num)
| InsertAround (before : bool)
| Fit (svg : option SvgElement)
| ApplyJson
| RefreshJson
| ClearAll
| TypeCommandLine (s : string)
| TypeJsonDraft (s : string)
| RunCommand (svg : option SvgElement)
| LoadDxf (svg : option SvgElement) (polyResult denorm : jsval)
          (name : string)
| SetLayerVisible (layer : string) (visible : bool)
| ClearLayerFilter
| SelectAllLayers.

Definition perform (a : Action) (st : State) : State :=
  match a with
  | PointerDown id i => onPointerDown id i st
  | PointerMove svg ev => onPointerMove svg ev st
  | AnimationFrame => dragFrame st
  | PointerUp => onPointerUp st
  | CanvasPointerDown svg ev => onCanvasPointerDown svg ev st
  | PolylinePointerDown svg id ev => onPolylinePointerDown svg id ev st
  | Wheel svg ev => onWheel svg ev st
  | SetSelectedX x => setSelectedX x st
  | SetSelectedY y => setSelectedY y st
  | DoubleClick svg id ev => insertPointOnPolyline svg id ev st
  | DeleteKey => deleteSelectedPoint st
  | Nudge dx dy mult => nudgeSelectedPoint dx dy mult st
  | InsertAround before => insertPointAroundSelected before st
  | Fit svg => fitToContent svg st
  | ApplyJson => applyJsonDraft st
  | RefreshJson => refreshJsonDraft st
  | ClearAll => clearAll st
  | TypeCommandLine s => with_commandLine s st
  | TypeJsonDraft s => with_jsonDraft s st
  | RunCommand svg => runCommand svg st
  | LoadDxf svg polyResult denorm name =>
      loadParsedDxf svg polyResult denorm name st
  | SetLayerVisible layer visible => setLayerVisible layer visible st
  | ClearLayerFilter => clearLayerFilter st
  | SelectAllLayers => selectAllLayers st
  end.

(** The state after a sequence of callbacks. *)
Definition run (actions : list Action) (st : State) : State :=
  fold_left (fun s a => perform a s) actions st.

(* ------------------------------------------------------------------- *)
(** *** Predicates used in the statements *)
(* ------------------------------------------------------------------- *)



(** Callbacks that leave the point arrays alone. *)
Definition sameGeometry (st st' : State) : Prop :=
  polylineItems st' = polylineItems st
  /\ draggingPolyline st' = draggingPolyline st.





(** The invariant of the viewport bounds: four finite edges,
    [maxX > minX] and [maxY > minY]. *)
Definition boundsOk (b : Bounds) : bool :=
  boundsFinite b && (minX b <? maxX b) && (minY b <? maxY b).


(** The verbs that [runCommand] knows. *)
Definition knownVerbs : list string :=
  ["clear"; "delete"; "copy"; "export"; "refresh-json"; "apply-json";
   "fit"; "move"; "scale"; "rotate"].

(** The three verbs that transform the selected item. *)
Definition transformVerbs : list string := ["move"; "scale"; "rotate"].

(** The arguments of a transformation command are rejected: a missing or
    non-numeric argument converts to NaN, and [scale] also rejects a zero
    factor. *)
Definition invalidArguments (cmd : string) (parts : list string) : Prop :=
  (cmd = "move"
   /\ (Num.isFinite (ToNumber (partValue parts 1)) = false
       \/ Num.isFinite (ToNumber (partValue parts 2)) = false))
  \/ (cmd = "scale"
      /\ let sx := ToNumber (partValue parts 1) in
         let sy := if (3 <=? List.length parts)%nat
                   then ToNumber (partValue parts 2) else sx in
         Num.isFinite sx = false \/ Num.isFinite sy = false
         \/ (sx =? n0) = true \/ (sy =? n0) = true)
  \/ (cmd = "rotate"
      /\ Num.isFinite (ToNumber (partValue parts 1)) = false).

(** The item list, the selection, the layer styles with the layer
    filter, and the viewport are the same in both states. *)
Definition sameDocument (st st' : State) : Prop :=
  polylineItems st' = polylineItems st
  /\ selected st' = selected st
  /\ selectedItemId st' = selectedItemId st
  /\ selectedEntityIndex st' = selectedEntityIndex st
  /\ layerStyles st' = layerStyles st
  /\ selectedLayers st' = selectedLayers st
  /\ viewBounds st' = viewBounds st.

(** What the export keeps of an item: every field but [source], with
    [visible] made explicit. *)
Definition exportedItem (it : PolylineItem) : PolylineItem :=
  {| it_id := it_id it; it_layer := it_layer it; it_type := it_type it;
     it_points := it_points it;
     it_visible := Some (visibleOrTrue it);
     it_entityIndex := it_entityIndex it;
     it_lineOverride := it_lineOverride it;
     it_source := None |}.

(** A line override as the normaliser and the DXF loader build it: at
    least one field is present, a colour is a lower-case [#rrggbb], a
    width is 0.1 or a finite number above it. *)
Definition canonicalOverride (lo : PolylineLineOverride) : Prop :=
  (lo_type lo <> None \/ lo_color lo <> None \/ lo_width lo <> None)
  /\ (forall c, lo_color lo = Some c ->
                isColorHex c = true /\ toLowerCase c = c)
  /\ (forall w, lo_width lo = Some w ->
                w = n0_1 \/ exists q, w = Fin q /\ (1 # 10 < q)%Q).

(** The fields of an item other than its coordinates, as the normaliser
    builds them: an id that is not blank, a trimmed non-empty layer and
    type, at least two points, a non-negative integer entity index, a
    canonical line override. *)
Definition canonicalShape (it : PolylineItem) : Prop :=
  nonEmpty (trim (it_id it)) = true
  /\ (trim (it_layer it) = it_layer it /\ nonEmpty (it_layer it) = true)
  /\ (trim (it_type it) = it_type it /\ nonEmpty (it_type it) = true)
  /\ (2 <= List.length (it_points it))%nat
  /\ (forall n, it_entityIndex it = Some n ->
                Num.isInteger n = true /\ (n >=? n0) = true)
  /\ (forall lo, it_lineOverride it = Some lo -> canonicalOverride lo).

(** A canonical item all of whose coordinates are finite. *)
Definition canonicalItem (it : PolylineItem) : Prop :=
  canonicalShape it /\ forallb pointFinite (it_points it) = true.

(** An array element as [JSON.stringify] then [JSON.parse] return it. *)
Definition JSON_element (e : jsval) : jsval :=
  match e with
  | JUndefined => JNull
  | _ => JSON_value e
  end.

(** What [JSON.parse] returns for a document with one polyline whose
    first point is the record [{x: 1e999, y: 0}] (the literal [1e999]
    reads as [Infinity]) and whose second point is the pair [[1, 1]]. *)
Definition infiniteRecordDocument : jsval :=
  JObj [("polylines",
         JArr [JObj [("id", JStr "a");
                     ("points",
                      JArr [JObj [("x", JNum PInf); ("y", JNum (Fin 0))];
                            JArr [JNum (Fin 1); JNum (Fin 1)]])]])].

(* ------------------------------------------------------------------- *)
(** *** The quarter turn *)
(* ------------------------------------------------------------------- *)

(** [90 * Math.PI / 180] in binary64: 1.5707963267948966. *)
Definition quarterTurn : num := (Fin 90 *~ B64.Math_PI) /~ Fin 180.

(** [Math.cos(Math.PI / 2)] as the engines return it,
    6.123233995736766e-17: the binary64 value [0x1.1a62633145c07p-54],
    which is [4967757600021511 / 2^106]. *)
Definition cosQuarterTurn : num :=
  Fin (4967757600021511 # 81129638414606681695789005144064).

(* ------------------------------------------------------------------- *)
(** *** Inputs of the closed instances *)
(* ------------------------------------------------------------------- *)

(** [Number(v)] on the values that the closed instances use: numbers,
    [null], booleans, [undefined] and strings of decimal digits; NaN on
    every other value. *)
Definition sampleNumber (v : jsval) : num :=
  match v with
  | JUndefined => NaN
  | JNull => Fin 0
  | JBool b => if b then Fin 1 else Fin 0
  | JNum n => n
  | JStr s =>
      match list_ascii_of_string (trim s) with
      | [] => Fin 0
      | l => match digitsValue l 0 with
             | Some z => Fin (inject_Z z)
             | None => NaN
             end
      end
  | _ => NaN
  end.


Definition sampleStringify (v : jsval) : string := "document".

Definition sampleParse (doc : jsval) (text : string) : option jsval :=
  Some doc.

Definition sampleExp (x : num) : num := Fin 1.
(** A cosine and a sine with the values of [Math.cos] and [Math.sin] at
    the quarter turn, and those at the angle 0 elsewhere. *)
Definition sampleCos (x : num) : num :=
  if x =? quarterTurn then cosQuarterTurn else Fin 1.
Definition sampleSin (x : num) : num :=
  if x =? quarterTurn then Fin 1 else Fin 0.

(** An [<svg>] element of 800 by 600 pixels whose screen transform
    scales x by [a] and y by 1 with no translation. *)
Definition sampleSvg (a : Q) : option SvgElement :=
  Some {| clientWidth := Fin 800; clientHeight := Fin 600;
          screenCTM := Some {| ctm_a := Fin a; ctm_d := Fin 1;
                               ctm_e := Fin 0; ctm_f := Fin 0 |} |}.

(** A pointer event at client position [(x, y)]. *)
Definition sampleEvent (x y : Q) (shift : bool) : PointerEvent :=
  {| clientX := Fin x; clientY := Fin y; deltaY := Fin 0;
     pointerId := 1; button := 0;
     shiftKey := shift; altKey := false; ctrlKey := false;
     metaKey := false; targetIsCurrentTarget := true |}.

Definition sampleItem (id : string) (pts : Polyline) : PolylineItem :=
  {| it_id := id; it_layer := "0"; it_type := "POLYLINE";
     it_points := pts; it_visible := Some true;
     it_entityIndex := None; it_lineOverride := None;
     it_source := None |}.

(** A document with the one item ["a"] on the visible layer ["0"], its
    point number [i] selected. *)
Definition sampleState (pts : Polyline) (i : nat) (line : string) : State :=
  with_commandLine line
    (with_selectedItemId (Some "a")
       (with_selected (Some ("a", i))
          (with_selectedLayers ["0"]
             (with_items [sampleItem "a" pts] initialState)))).

(* ------------------------------------------------------------------- *)
(** *** Canonical styles, layer counts and point markers *)
(* ------------------------------------------------------------------- *)

(** A number as [Math.max(m, normalizeFiniteNumber(..))] returns it: the
    bound [m] itself or a finite number above it. *)
Definition atLeast (m : Q) (w : num) : Prop :=
  w = Fin m \/ exists q, w = Fin q /\ (m < q)%Q.

(** A lower-case [#rrggbb]. *)
Definition lowerColorHex (c : string) : Prop :=
  isColorHex c = true /\ toLowerCase c = c.

(** A layer style as [normalizeLayerStyle] builds it: lower-case
    [#rrggbb] colours, a font family that is not blank, a finite italic
    angle, and every size at or above its minimum. *)
Definition canonicalStyle (s : LayerStyle) : Prop :=
  lowerColorHex (line_color (ls_line s))
  /\ atLeast (1 # 10) (line_width (ls_line s))
  /\ atLeast (1 # 10) (ls_point_size s)
  /\ nonEmpty (trim (fontFamily (ls_text s))) = true
  /\ Num.isFinite (italicAngle (ls_text s)) = true
  /\ atLeast 1 (fontSize (ls_text s))
  /\ atLeast (1 # 10) (widthFactor (ls_text s))
  /\ lowerColorHex (text_color (ls_text s))
  /\ atLeast (1 # 100) (dim_scale (ls_dim s))
  /\ atLeast 1 (textSize (ls_dim s))
  /\ atLeast (1 # 10) (arrowSize (ls_dim s))
  /\ atLeast 0 (lineGap (ls_dim s)).

(** Every coordinate of every item is finite. *)
Definition finiteItems (items : list PolylineItem) : Prop :=
  Forall (fun it => forallb pointFinite (it_points it) = true) items.

(** A character that is not white space. *)
Definition notWhiteSpace (c : ascii) : bool := negb (isWhiteSpace c).

(** The number of items on layer [l]. *)
Definition itemsOnLayer (l : string) (items : list PolylineItem) : nat :=
  List.length (filter (fun it => String.eqb (it_layer it) l) items).

(** The table that the loop of [polylineLayerCounts] builds, before it
    is sorted and cut. *)
Definition layerCountTable (st : State) : list (string * nat) :=
  fold_left (fun m it => bumpCount (it_layer it) m) (polylineItems st) [].

(** Counts do not increase along the list. *)
Definition countsDescending (m : list (string * nat)) : Prop :=
  StronglySorted (fun a b => (snd b <= snd a)%nat) m.

(** [Math.trunc] on a rational. *)
Definition Qtrunc (q : Q) : Z :=
  if Qle_bool 0 q then Qfloor q else Qceiling q.

(** [a % b]: the remainder has the sign of the dividend. *)
Definition numRem (a b : num) : num :=
  match a, b with
  | Fin x, Fin y =>
      if Qeq_bool y 0 then NaN
      else Fin (x - y * inject_Z (Qtrunc (x / y)))
  | Fin x, (PInf | NInf) => Fin x
  | _, _ => NaN
  end.

Definition shouldRenderPoint (st : State) (id : string)
           (ptIndex ptTotal : nat) : bool :=
  if match selectedItemId st with
     | Some s => String.eqb s id
     | None => false
     end
  then true
  else
    match pointMode st with
    | pm_hidden => false
    | _ =>
        let step := pointSampleStep st in
        if step <=? n1 then true
        else if match selected st with
                | Some (sid, si) => String.eqb sid id && (si =? ptIndex)%nat
                | None => false
                end
        then true
        else if (Num.ofNat ptIndex =? n0)
                || (Num.ofNat ptIndex =? Num.ofNat ptTotal - n1)
        then true
        else numRem (Num.ofNat ptIndex) step =? n0
    end.

(** The number of the points of a polyline of [n] points that the
    template draws. *)
Definition renderedPoints (st : State) (id : string) (n : nat) : nat :=
  List.length (filter (fun i => shouldRenderPoint st id i n) (seq 0 n)).

(* ------------------------------------------------------------------- *)
(** *** Degenerate content bounds *)
(* ------------------------------------------------------------------- *)

(** The bounds of a single point. *)
Definition pointBounds (p : Point) : Bounds :=
  {| minX := fst p; minY := snd p; maxX := fst p; maxY := snd p |}.

(** The window of half-width [pad] around a point, in binary64. *)
Definition windowAround (p : Point) (pad : num) : Bounds :=
  {| minX := fst p -~ pad; minY := snd p -~ pad;
     maxX := fst p +~ pad; maxY := snd p +~ pad |}.

(** [svg.clientWidth || 0] and [svg.clientHeight || 0] with [svg] the
    element or [null]. *)
Definition clientSize (svg : option SvgElement) : num * num :=
  match svg with
  | Some el => (clientWidth el, clientHeight el)
  | None => (n0, n0)
  end.

(* ------------------------------------------------------------------- *)
(** *** Documents far from the origin *)
(* ------------------------------------------------------------------- *)

(** The document
    [{"polylines":[[[9007199254740991,0],[9007199254740992,1]]]}]: one
    segment next to [2^53], where binary64 numbers are 1 apart below and
    2 apart above. *)
Definition farDocument : jsval :=
  JObj [("polylines",
         JArr [JArr [JArr [JNum (Fin 9007199254740991); JNum (Fin 0)];
                     JArr [JNum (Fin 9007199254740992); JNum (Fin 1)]]])].

(** An [<svg>] element of 800 by 600 pixels that shows a window one unit
    wide whose left edge is at [2^53 - 1]: 600 pixels to the unit, the
    left edge 1000 pixels from the left of the page. *)
Definition farSvg : option SvgElement :=
  Some {| clientWidth := Fin 800; clientHeight := Fin 600;
          screenCTM :=
            Some {| ctm_a := Fin 600; ctm_d := Fin 600;
                    ctm_e := Fin 1000 -~ Fin 9007199254740991 *~ Fin 600;
                    ctm_f := Fin 600 |} |}.

(** The document [{"polylines":[[[0,-7e307],[1,7e307]]]}]: a segment
    whose height, 1.4e308, is a finite binary64 number. *)
Definition tallDocument : jsval :=
  JObj [("polylines",
         JArr [JArr [JArr [JNum (Fin 0);
                           JNum (B64.round (Fin (inject_Z (- 7 * 10 ^ 307))))];
                     JArr [JNum (Fin 1);
                           JNum (B64.round (Fin (inject_Z (7 * 10 ^ 307))))]]])].

(** The four edges are binary64 numbers. *)
Definition boundsAreDoubles (b : Bounds) : Prop :=
  B64.isDouble (minX b) /\ B64.isDouble (minY b)
  /\ B64.isDouble (maxX b) /\ B64.isDouble (maxY b).

(* ===================================================================== *)
(** ** Properties *)
(* ===================================================================== *)

(* ------------------------------------------------------------------- *)
(** *** Numbers *)
(* ------------------------------------------------------------------- *)

Lemma Qltb_true (a b : Q) : Qltb a b = true <-> (a < b)%Q.
Proof.
  unfold Qltb. rewrite negb_true_iff.
  destruct (Qle_bool b a) eqn:E.
  - apply Qle_bool_iff in E. split; [discriminate | intro H].
    exfalso. apply (Qlt_not_le _ _ H E).
  - split; [intros _ | reflexivity].
    apply Qnot_le_lt. intro H. apply Qle_bool_iff in H. congruence.
Qed.

Lemma Qltb_false (a b : Q) : Qltb a b = false <-> (b <= a)%Q.
Proof.
  unfold Qltb. rewrite negb_false_iff. apply Qle_bool_iff.
Qed.

Lemma Qeq_bool_false (a b : Q) : Qeq_bool a b = false <-> ~ (a == b)%Q.
Proof.
  split.
  - intros E H. apply Qeq_bool_iff in H. congruence.
  - intro H. destruct (Qeq_bool a b) eqn:E; [| reflexivity].
    apply Qeq_bool_iff in E. contradiction.
Qed.

Lemma isFinite_Fin (n : num) :
  Num.isFinite n = true <-> exists q, n = Fin q.
Proof.
  destruct n; simpl; split; intro H;
    try discriminate; try reflexivity; try (eexists; reflexivity);
    destruct H as [q H]; discriminate.
Qed.

(** Case analysis on a comparison of two rationals, with the order fact
    put in the context. *)
Ltac qcases :=
  repeat match goal with
    | |- context [Qltb ?a ?b] =>
        let E := fresh "E" in
        destruct (Qltb a b) eqn:E;
        [apply Qltb_true in E | apply Qltb_false in E]
    | |- context [Qeq_bool ?a ?b] =>
        let E := fresh "E" in
        destruct (Qeq_bool a b) eqn:E;
        [apply Qeq_bool_iff in E | apply Qeq_bool_false in E]
    end.


(* ------------------------------------------------------------------- *)
(** *** Normaliser: which points are produced *)
(* ------------------------------------------------------------------- *)

Lemma finitePair_finite (x y : jsval) (pt : Point) :
  finitePair x y = Some pt -> pointFinite pt = true.
Proof.
  unfold finitePair, pointFinite.
  destruct x as [| | | a | | |]; try discriminate.
  destruct y as [| | | b | | |]; try discriminate.
  destruct (Num.isFinite a && Num.isFinite b) eqn:E; [| discriminate].
  intros [= <-]. exact E.
Qed.

(** The array branch of [normalizePoint] tests both coordinates: a point
    produced from a pair is finite. *)
Lemma normalizePoint_pair_finite (x y : jsval) (pt : Point) :
  normalizePoint (JArr [x; y]) = Some pt -> pointFinite pt = true.
Proof.
  simpl. destruct (finitePair x y) as [q |] eqn:E.
  - intros [= <-]. exact (finitePair_finite _ _ _ E).
  - destruct (Num.isFinite (ToNumber x) && Num.isFinite (ToNumber y)) eqn:F;
      [| discriminate].
    intros [= <-]. exact F.
Qed.

(** The record branch only tests [typeof]: it returns the two numbers as
    they are. *)
Lemma normalizePoint_record (props : list (string * jsval)) (a b : num) :
  lookupProp "x" props = JNum a ->
  lookupProp "y" props = JNum b ->
  normalizePoint (JObj props) = Some (a, b).
Proof.
  intros Hx Hy. simpl. rewrite Hx, Hy. reflexivity.
Qed.

(** C1 (evaluation at the failing input).  [normalizePolylines] applied
    to the array holding one polyline whose first point is the record
    [{x: Infinity, y: 0}] and whose second point is the pair [[1, 2]]
    returns an item whose first point has the coordinate [Infinity]: the
    record is neither dropped nor made finite. *)
Theorem normalizePolylines_keeps_infinite_record_point :
  map it_points
      (fst (normalizePolylines 0
              (JArr [JArr [JObj [("x", JNum PInf); ("y", JNum (Fin 0))];
                           JArr [JNum (Fin 1); JNum (Fin 2)]]])))
  = [[(PInf, Fin 0); (Fin 1, Fin 2)]]
  /\ pointFinite (PInf, Fin 0) = false.
Proof.
  split; reflexivity.
Qed.

(* ------------------------------------------------------------------- *)
(** *** Rendering projection: the sampled stroke keeps its last vertex *)
(* ------------------------------------------------------------------- *)



Lemma isInteger_floor (q : Q) :
  Num.isInteger (Fin q) = true -> (q == inject_Z (Qfloor q))%Q.
Proof.
  destruct q as [a b]. simpl. intro H. apply Z.eqb_eq in H.
  unfold Qeq, inject_Z. simpl.
  pose proof (Z.div_mod a (Zpos b) ltac:(discriminate)) as D.
  rewrite H in D. lia.
Qed.

Lemma isInteger_inject (z : Z) : Num.isInteger (Fin (inject_Z z)) = true.
Proof.
  simpl. rewrite Z.mod_1_r. reflexivity.
Qed.

Lemma isInteger_of_Z (q : Q) (z : Z) :
  (q == inject_Z z)%Q -> Num.isInteger (Fin q) = true.
Proof.
  destruct q as [a b]. unfold Qeq, inject_Z. simpl. intro H.
  apply Z.eqb_eq. replace a with (z * Zpos b)%Z by lia.
  apply Z.mod_mul. discriminate.
Qed.

Lemma pointAt_index (pl : Polyline) (q : Q) :
  Num.isInteger (Fin q) = true -> (0 <= q)%Q ->
  (q < inject_Z (Z.of_nat (List.length pl)))%Q ->
  exists p, pointAt pl (Fin q) = Some p.
Proof.
  intros Hint H0 Hlt. unfold pointAt. rewrite Hint.
  assert (Hge : (Fin q >=? n0) = true).
  { unfold Num.ge, Num.le, n0. simpl. qcases; try reflexivity. lra. }
  rewrite Hge. simpl.
  pose proof (isInteger_floor q Hint) as Hq.
  assert (Hz0 : (0 <= Qfloor q)%Z).
  { rewrite Zle_Qle. rewrite <- Hq. exact H0. }
  assert (Hzl : (Qfloor q < Z.of_nat (List.length pl))%Z).
  { rewrite Zlt_Qlt. rewrite <- Hq. exact Hlt. }
  destruct (nth_error pl (Z.to_nat (Qfloor q))) as [p |] eqn:E.
  - exists p. reflexivity.
  - apply nth_error_None in E. lia.
Qed.

Lemma sampleLoop_returns (pl : Polyline) (s : Q) :
  Num.isInteger (Fin s) = true -> (1 < s)%Q ->
  forall (fuel : nat) (q : Q) (pts : list string),
    Num.isInteger (Fin q) = true -> (0 <= q)%Q ->
    (1 <= fuel)%nat ->
    (Z.of_nat (List.length pl) < Z.of_nat fuel + Qfloor q)%Z ->
    exists more,
      sampleLoop fuel pl (Fin s) (Fin q) pts = Returned (pts ++ more)%list
      /\ ((q < inject_Z (Z.of_nat (List.length pl)))%Q -> more <> []).
Proof.
  intros Hs Hs1. pose proof (isInteger_floor s Hs) as Hsz.
  induction fuel as [| f IH]; intros q pts Hq Hq0 Hf Hfuel; [lia |].
  pose proof (isInteger_floor q Hq) as Hqz.
  cbn [sampleLoop].
  change (Fin q <? Num.ofNat (List.length pl))
    with (Qltb q (inject_Z (Z.of_nat (List.length pl)))).
  destruct (Qltb q (inject_Z (Z.of_nat (List.length pl)))) eqn:E.
  - apply Qltb_true in E.
    destruct (pointAt_index pl q Hq Hq0 E) as [p Hp]. rewrite Hp.
    assert (Hzl : (Qfloor q < Z.of_nat (List.length pl))%Z).
    { rewrite Zlt_Qlt. rewrite <- Hqz. exact E. }
    assert (Hsum : (q + s == inject_Z (Qfloor q + Qfloor s))%Q).
    { rewrite inject_Z_plus, <- Hqz, <- Hsz. reflexivity. }
    assert (Hzs : (1 < Qfloor s)%Z).
    { rewrite Zlt_Qlt. rewrite <- Hsz. exact Hs1. }
    assert (Hfl : Qfloor (q + s) = (Qfloor q + Qfloor s)%Z).
    { rewrite Hsum. apply Qfloor_Z. }
    destruct (IH (q + s)%Q (pts ++ [svgCoord p])%list) as [more [Hr _]].
    + exact (isInteger_of_Z _ _ Hsum).
    + lra.
    + lia.
    + rewrite Hfl. lia.
    + exists (svgCoord p :: more). split.
      * change (Fin q + Fin s) with (Fin (q + s)).
        rewrite Hr. rewrite <- app_assoc. reflexivity.
      * intros _. discriminate.
  - apply Qltb_false in E. exists []. split.
    + rewrite app_nil_r. reflexivity.
    + intro H. lra.
Qed.



(* ------------------------------------------------------------------- *)
(** *** Minimum-points invariant *)
(* ------------------------------------------------------------------- *)

Lemma atLeast2_Some (pts r : Polyline) :
  atLeast2 pts = Some r -> r = pts /\ (2 <= List.length r)%nat.
Proof.
  unfold atLeast2. destruct (2 <=? List.length pts)%nat eqn:E;
    [| discriminate].
  intros [= <-]. split; [reflexivity | apply Nat.leb_le; exact E].
Qed.


Lemma normalizePolylinePointsLike_min (pl : jsval) (pts : Polyline) :
  normalizePolylinePointsLike pl = Some pts -> (2 <= List.length pts)%nat.
Proof.
  unfold normalizePolylinePointsLike.
  destruct pl; try discriminate.
  - intro H. apply atLeast2_Some in H. exact (proj2 H).
  - simpl. destruct (lookupProp "vertices" props); try discriminate.
    intro H. apply atLeast2_Some in H. exact (proj2 H).
Qed.











Lemma setNth_length (A : Type) (i : nat) (v : A) (l : list A) :
  List.length (setNth i v l) = List.length l.
Proof.
  revert i. induction l as [| h t IH]; intros [| j]; simpl; auto.
Qed.






Ltac break_match :=
  match goal with
  | |- context [match ?x with _ => _ end] => destruct x eqn:?
  end.

Ltac same_geometry :=
  unfold sameGeometry; repeat break_match; simpl; auto.


Lemma sameGeometry_trans (a b c : State) :
  sameGeometry a b -> sameGeometry b c -> sameGeometry a c.
Proof.
  unfold sameGeometry. intros [H1 H2] [H3 H4]. split; congruence.
Qed.




Lemma ensureLayerStyle_same (l : string) (st : State) :
  sameGeometry st (ensureLayerStyle l st).
Proof.
  unfold ensureLayerStyle. same_geometry.
Qed.

Lemma ensureLayerStyles_same (layers : list string) :
  forall st,
    sameGeometry st (fold_left (fun s l => ensureLayerStyle l s) layers st).
Proof.
  induction layers as [| l t IH]; intro st; simpl.
  - split; reflexivity.
  - eapply sameGeometry_trans; [apply ensureLayerStyle_same | apply IH].
Qed.

Lemma initLayerStateFromItems_same (force : bool) (st : State) :
  sameGeometry st (initLayerStateFromItems force st).
Proof.
  unfold initLayerStateFromItems.
  pose proof (ensureLayerStyles_same (map fst (polylineLayerCounts st)) st)
    as H.
  break_match; [| exact H].
  destruct H as [H1 H2]. split; simpl; assumption.
Qed.










Lemma movePoints_length (dx dy : num) (pts : Polyline) :
  List.length (movePoints dx dy pts) = List.length pts.
Proof. apply length_map. Qed.

Lemma scalePoints_length (sx sy : num) (pts : Polyline) :
  List.length (scalePoints sx sy pts) = List.length pts.
Proof. apply length_map. Qed.












(* ------------------------------------------------------------------- *)
(** *** DXF export: closed rings *)
(* ------------------------------------------------------------------- *)







(* ------------------------------------------------------------------- *)
(** *** Point insertion on double click *)
(* ------------------------------------------------------------------- *)

Lemma lt_irrefl (a : num) : (a <? a) = false.
Proof.
  destruct a; simpl; try reflexivity. apply Qltb_false. lra.
Qed.







(* ------------------------------------------------------------------- *)
(** *** Numbers: quotients *)
(* ------------------------------------------------------------------- *)

Lemma div_Fin (a b : Q) :
  ~ (b == 0)%Q -> Fin a / Fin b = Fin (a / b).
Proof.
  intro H. unfold Num.div. apply Qeq_bool_false in H. rewrite H.
  reflexivity.
Qed.

(* ------------------------------------------------------------------- *)
(** *** Command line: failure leaves the document alone *)
(* ------------------------------------------------------------------- *)

Lemma sameDocument_commandState (c : TriState) (st : State) :
  sameDocument st (with_commandState c st).
Proof. repeat split. Qed.

Lemma transformSelected_fail (id : string) (f : Polyline -> Polyline)
      (st : State) :
  commandState (transformSelected id f st) = fail ->
  transformSelected id f st = with_commandState fail st.
Proof.
  unfold transformSelected.
  destruct (findItemById st id); [simpl; discriminate | reflexivity].
Qed.

(** Whatever the command line, unless its verb is [apply-json], a run
    that ends with the status [fail] has changed nothing of the
    document. *)
Lemma runCommand_fail_unchanged (svg : option SvgElement) (st : State) :
  commandVerb (commandParts (commandLine st)) <> "apply-json" ->
  commandState (runCommand svg st) = fail ->
  sameDocument st (runCommand svg st).
Proof.
  intro Hne. unfold runCommand.
  repeat break_match;
    first
      [ solve [simpl; discriminate]
      | solve [intros _; repeat split]
      | solve [unfold copyJsonStart; break_match; simpl; discriminate]
      | solve [exfalso; apply Hne; apply String.eqb_eq; assumption]
      | solve [intro H; rewrite (transformSelected_fail _ _ _ H);
               repeat split] ].
Qed.

(** [delete] when the selection designates no point: nothing is
    deleted, and the status is [ok]. *)
Lemma runCommand_delete_nothing (svg : option SvgElement) (st : State) :
  commandVerb (commandParts (commandLine st)) = "delete" ->
  selectedPointOf st = None ->
  runCommand svg st = with_commandState ok st.
Proof.
  intros Hc Hs. unfold runCommand. rewrite Hc. cbn [String.eqb Ascii.eqb].
  simpl.
  assert (D : deleteSelectedPoint (with_commandState idle st)
              = with_commandState idle st).
  { unfold deleteSelectedPoint, selectedPointOf in *.
    change (selected (with_commandState idle st)) with (selected st).
    destruct (selected st) as [[id i] |]; [| reflexivity].
    change (findItemById (with_commandState idle st) id)
      with (findItemById st id).
    destruct (findItemById st id) as [it |]; [| reflexivity].
    destruct (nth_error (it_points it) i); [discriminate | reflexivity]. }
  rewrite D. reflexivity.
Qed.

Lemma runCommand_move (svg : option SvgElement) (st : State) :
  commandVerb (commandParts (commandLine st)) = "move" ->
  runCommand svg st
  = match commandTargetId st with
    | None => with_commandState fail st
    | Some id =>
        let parts := commandParts (commandLine st) in
        let dx := ToNumber (partValue parts 1) in
        let dy := ToNumber (partValue parts 2) in
        if negb (Num.isFinite dx) || negb (Num.isFinite dy)
        then with_commandState fail st
        else transformSelected id (movePoints dx dy)
                               (with_commandState idle st)
    end.
Proof.
  intro H. unfold runCommand. rewrite H. reflexivity.
Qed.

Lemma runCommand_scale (svg : option SvgElement) (st : State) :
  commandVerb (commandParts (commandLine st)) = "scale" ->
  runCommand svg st
  = match commandTargetId st with
    | None => with_commandState fail st
    | Some id =>
        let parts := commandParts (commandLine st) in
        let sx := ToNumber (partValue parts 1) in
        let sy := if (3 <=? List.length parts)%nat
                  then ToNumber (partValue parts 2) else sx in
        if negb (Num.isFinite sx) || negb (Num.isFinite sy)
           || (sx =? n0) || (sy =? n0)
        then with_commandState fail st
        else transformSelected id (scalePoints sx sy)
                               (with_commandState idle st)
    end.
Proof.
  intro H. unfold runCommand. rewrite H. reflexivity.
Qed.

Lemma runCommand_rotate (svg : option SvgElement) (st : State) :
  commandVerb (commandParts (commandLine st)) = "rotate" ->
  runCommand svg st
  = match commandTargetId st with
    | None => with_commandState fail st
    | Some id =>
        let deg := ToNumber (partValue (commandParts (commandLine st)) 1) in
        if negb (Num.isFinite deg) then with_commandState fail st
        else transformSelected id (rotatePoints deg)
                               (with_commandState idle st)
    end.
Proof.
  intro H. unfold runCommand. rewrite H. reflexivity.
Qed.

Lemma transformSelected_not_found (id : string) (f : Polyline -> Polyline)
      (st : State) :
  findItemById st id = None ->
  transformSelected id f (with_commandState idle st)
  = with_commandState fail st.
Proof.
  intro H. unfold transformSelected.
  change (findItemById (with_commandState idle st) id)
    with (findItemById st id).
  rewrite H. reflexivity.
Qed.

Lemma runCommand_unknown (svg : option SvgElement) (st : State) :
  nonEmpty (commandVerb (commandParts (commandLine st))) = true ->
  ~ In (commandVerb (commandParts (commandLine st))) knownVerbs ->
  runCommand svg st = with_commandState fail st.
Proof.
  intros Hne Hnot. unfold runCommand.
  set (cmd := commandVerb (commandParts (commandLine st))) in *.
  repeat match goal with
    | |- context [String.eqb cmd ?v] =>
        destruct (String.eqb_spec cmd v) as [E | _];
        [exfalso; apply Hnot; rewrite E; simpl;
         solve [repeat (first [left; reflexivity | right])] |]
    end.
  rewrite Hne. reflexivity.
Qed.

Lemma runCommand_no_target (svg : option SvgElement) (st : State) :
  In (commandVerb (commandParts (commandLine st))) transformVerbs ->
  commandTargetId st = None ->
  runCommand svg st = with_commandState fail st.
Proof.
  intros Hin Ht. simpl in Hin.
  destruct Hin as [H | [H | [H | []]]]; symmetry in H.
  - rewrite (runCommand_move svg st H), Ht. reflexivity.
  - rewrite (runCommand_scale svg st H), Ht. reflexivity.
  - rewrite (runCommand_rotate svg st H), Ht. reflexivity.
Qed.

Lemma runCommand_target_missing (svg : option SvgElement) (st : State)
      (id : string) :
  In (commandVerb (commandParts (commandLine st))) transformVerbs ->
  commandTargetId st = Some id -> findItemById st id = None ->
  runCommand svg st = with_commandState fail st.
Proof.
  intros Hin Ht Hf. simpl in Hin.
  destruct Hin as [H | [H | [H | []]]]; symmetry in H.
  - rewrite (runCommand_move svg st H), Ht. cbv zeta.
    break_match; [reflexivity | apply transformSelected_not_found; exact Hf].
  - rewrite (runCommand_scale svg st H), Ht. cbv zeta.
    break_match; [reflexivity | apply transformSelected_not_found; exact Hf].
  - rewrite (runCommand_rotate svg st H), Ht. cbv zeta.
    break_match; [reflexivity | apply transformSelected_not_found; exact Hf].
Qed.

Lemma runCommand_invalid_arguments (svg : option SvgElement) (st : State) :
  invalidArguments (commandVerb (commandParts (commandLine st)))
                   (commandParts (commandLine st)) ->
  runCommand svg st = with_commandState fail st.
Proof.
  intros [[H A] | [[H A] | [H A]]].
  - rewrite (runCommand_move svg st H).
    destruct (commandTargetId st); [| reflexivity]. cbv zeta.
    destruct A as [A | A]; rewrite A; simpl;
      rewrite ?orb_true_r; reflexivity.
  - rewrite (runCommand_scale svg st H).
    destruct (commandTargetId st); [| reflexivity]. cbv zeta in *.
    destruct A as [A | [A | [A | A]]]; rewrite A; simpl;
      rewrite ?orb_true_r; reflexivity.
  - rewrite (runCommand_rotate svg st H).
    destruct (commandTargetId st); [| reflexivity]. cbv zeta.
    rewrite A. reflexivity.
Qed.

(** C7 (as amended).  [runCommand] with an unknown verb, with a
    transformation verb ([move], [scale], [rotate]) and no selected item
    or a selected id that no item has, or with a transformation verb and
    missing or invalid numeric arguments ([scale] also rejects a zero
    factor), sets the command status to [fail] and changes nothing else.
    [delete] when the selection designates no point changes nothing
    either, but sets the status [ok].  Whatever the verb, [apply-json]
    apart, a run that ends with the status [fail] leaves the item list,
    the selection, the layer styles and the viewport as they were. *)
Theorem runCommand_failure_no_mutation (svg : option SvgElement)
        (st : State) :
  let parts := commandParts (commandLine st) in
  let cmd := commandVerb parts in
  ((nonEmpty cmd = true /\ ~ In cmd knownVerbs)
   \/ (In cmd transformVerbs /\ commandTargetId st = None)
   \/ (In cmd transformVerbs
       /\ exists id, commandTargetId st = Some id
                     /\ findItemById st id = None)
   \/ invalidArguments cmd parts ->
   runCommand svg st = with_commandState fail st)
  /\ (cmd = "delete" -> selectedPointOf st = None ->
      runCommand svg st = with_commandState ok st)
  /\ (cmd <> "apply-json" ->
      commandState (runCommand svg st) = fail ->
      sameDocument st (runCommand svg st)).
Proof.
  intros parts cmd. split; [| split].
  - intros [[Hne Hnot] | [[Hin Ht] | [[Hin [id [Ht Hf]]] | Hinv]]].
    + apply runCommand_unknown; assumption.
    + apply runCommand_no_target; assumption.
    + apply (runCommand_target_missing svg st id); assumption.
    + apply runCommand_invalid_arguments. exact Hinv.
  - apply runCommand_delete_nothing.
  - apply runCommand_fail_unchanged.
Qed.

(* ------------------------------------------------------------------- *)
(** *** JSON export and re-import *)
(* ------------------------------------------------------------------- *)

Lemma JSON_value_arr (l : list jsval) :
  JSON_value (JArr l) = JArr (map JSON_element l).
Proof. reflexivity. Qed.

Lemma roundtrip_point (p : Point) :
  pointFinite p = true ->
  normalizePoint (JSON_element (pointValue p)) = Some p.
Proof.
  destruct p as [x y]. unfold pointFinite. simpl. intro H.
  apply andb_true_iff in H. destruct H as [Hx Hy].
  destruct x as [qx | | |], y as [qy | | |]; try discriminate.
  reflexivity.
Qed.

Lemma roundtrip_points (pts : Polyline) :
  forallb pointFinite pts = true ->
  collectPoints (map JSON_element (map pointValue pts)) = pts.
Proof.
  induction pts as [| p t IH]; [reflexivity |].
  cbn [map forallb collectPoints].
  intro H. apply andb_true_iff in H. destruct H as [Hp Ht].
  rewrite (roundtrip_point p Hp), (IH Ht). reflexivity.
Qed.

Lemma dropWhile_head (A : Type) (f : A -> bool) (x : A) (l : list A) :
  f x = false -> dropWhile f (x :: l) = x :: l.
Proof. intro H. simpl. rewrite H. reflexivity. Qed.

Lemma dropWhile_suffix (A : Type) (f : A -> bool) (l : list A) :
  exists p, l = (p ++ dropWhile f l)%list.
Proof.
  induction l as [| x t [p IH]]; [exists []; reflexivity |].
  simpl. destruct (f x).
  - exists (x :: p). simpl. rewrite <- IH. reflexivity.
  - exists []. reflexivity.
Qed.

Lemma dropWhile_starts (A : Type) (f : A -> bool) (l : list A) (x : A)
      (t : list A) :
  dropWhile f l = x :: t -> f x = false.
Proof.
  induction l as [| y l' IH]; simpl; [discriminate |].
  destruct (f y) eqn:E; [exact IH |].
  intros [= <- _]. exact E.
Qed.

(** A list that neither starts nor ends with white space is its own
    trim. *)
Lemma trimList_fixed (l : list ascii) :
  (forall x t, l = x :: t -> isWhiteSpace x = false) ->
  (forall x t, rev l = x :: t -> isWhiteSpace x = false) ->
  trimList l = l.
Proof.
  intros Hh Hl. unfold trimList.
  assert (E1 : dropWhile isWhiteSpace l = l).
  { destruct l as [| x t]; [reflexivity |].
    apply dropWhile_head. exact (Hh x t eq_refl). }
  rewrite E1.
  assert (E2 : dropWhile isWhiteSpace (rev l) = rev l).
  { destruct (rev l) as [| x t] eqn:R; [reflexivity |].
    apply dropWhile_head. exact (Hl x t eq_refl). }
  rewrite E2. apply rev_involutive.
Qed.

Lemma trimList_ends (l : list ascii) :
  (forall x t, trimList l = x :: t -> isWhiteSpace x = false)
  /\ (forall x t, rev (trimList l) = x :: t -> isWhiteSpace x = false).
Proof.
  unfold trimList.
  set (m := dropWhile isWhiteSpace l).
  set (r := dropWhile isWhiteSpace (rev m)).
  split.
  - intros x t H.
    destruct (dropWhile_suffix _ isWhiteSpace (rev m)) as [p Hp].
    fold r in Hp.
    assert (Hm : m = (rev r ++ rev p)%list).
    { rewrite <- (rev_involutive m), Hp, rev_app_distr. reflexivity. }
    rewrite H in Hm. simpl in Hm.
    exact (dropWhile_starts _ isWhiteSpace l x _ Hm).
  - intros x t H. rewrite rev_involutive in H.
    exact (dropWhile_starts _ isWhiteSpace (rev m) x t H).
Qed.

Lemma trimList_idempotent (l : list ascii) :
  trimList (trimList l) = trimList l.
Proof.
  destruct (trimList_ends l) as [H1 H2].
  apply trimList_fixed; assumption.
Qed.

Lemma trim_idempotent (s : string) : trim (trim s) = trim s.
Proof.
  unfold trim. rewrite list_ascii_of_string_of_list_ascii.
  rewrite trimList_idempotent. reflexivity.
Qed.

Lemma trimOr_fixed (s fallback : string) :
  trim s = s -> nonEmpty s = true -> trimOr s fallback = s.
Proof.
  intros Ht Hn. unfold trimOr. rewrite Ht, Hn. reflexivity.
Qed.

Lemma trimOr_canonical (s fallback : string) :
  trim fallback = fallback -> nonEmpty fallback = true ->
  trim (trimOr s fallback) = trimOr s fallback
  /\ nonEmpty (trimOr s fallback) = true.
Proof.
  intros Hf Hn. unfold trimOr.
  destruct (nonEmpty (trim s)) eqn:E.
  - split; [apply trim_idempotent | exact E].
  - split; assumption.
Qed.

Lemma hexDigit_not_space (c : ascii) :
  isHexDigit c = true -> isWhiteSpace c = false.
Proof.
  destruct c as [[] [] [] [] [] [] [] []]; vm_compute; congruence.
Qed.

Lemma isColorHex_chars (s : string) :
  isColorHex s = true ->
  Forall (fun c => isWhiteSpace c = false) (list_ascii_of_string s)
  /\ nonEmpty s = true.
Proof.
  unfold isColorHex.
  destruct s as [| h s']; [discriminate |].
  cbn [list_ascii_of_string]. intro H.
  apply andb_true_iff in H. destruct H as [H Hd].
  apply andb_true_iff in H. destruct H as [Hh _].
  split; [| reflexivity].
  constructor.
  - apply Ascii.eqb_eq in Hh. rewrite Hh. reflexivity.
  - rewrite forallb_forall in Hd. apply Forall_forall.
    intros c Hc. apply hexDigit_not_space. exact (Hd c Hc).
Qed.

Lemma trim_no_space (s : string) :
  Forall (fun c => isWhiteSpace c = false) (list_ascii_of_string s) ->
  trim s = s.
Proof.
  intro H. unfold trim.
  rewrite trimList_fixed.
  - apply string_of_list_ascii_of_string.
  - intros x t E. rewrite E in H. inversion H; assumption.
  - intros x t E. rewrite Forall_forall in H. apply H.
    apply in_rev. rewrite E. left. reflexivity.
Qed.

Lemma isColorHex_trim (s : string) : isColorHex s = true -> trim s = s.
Proof.
  intro H. apply trim_no_space. exact (proj1 (isColorHex_chars s H)).
Qed.

Lemma roundtrip_lineType (t : LayerLineType) :
  truthy (JStr (lineTypeName t)) = true
  /\ normalizeLayerLineType (JStr (lineTypeName t)) = t.
Proof. destruct t; split; reflexivity. Qed.

Lemma roundtrip_color (c fallback : string) :
  isColorHex c = true -> toLowerCase c = c ->
  truthy (JStr c) = true /\ normalizeColorHex (JStr c) fallback = c.
Proof.
  intros Hh Hl. split.
  - exact (proj2 (isColorHex_chars c Hh)).
  - unfold normalizeColorHex. rewrite (isColorHex_trim c Hh), Hh.
    exact Hl.
Qed.

Lemma roundtrip_width (w : num) :
  w = n0_1 \/ (exists q, w = Fin q /\ (1 # 10 < q)%Q) ->
  exists q, w = Fin q
            /\ truthy (JNum w) = true
            /\ Num.max n0_1 (normalizeFiniteNumber (JNum w) n1) = w.
Proof.
  intros [-> | [q [-> Hq]]].
  - exists (1 # 10)%Q. repeat split.
  - exists q. split; [reflexivity |]. split.
    + simpl. apply negb_true_iff. apply Qeq_bool_false. lra.
    + unfold n0_1, Num.max. simpl.
      apply Qltb_true in Hq. rewrite Hq. reflexivity.
Qed.

Lemma roundtrip_lineOverride (lo : PolylineLineOverride) :
  canonicalOverride lo ->
  normalizeLineOverride (JSON_value (lineOverrideValue lo)) = Some lo.
Proof.
  destruct lo as [ty col wd]. unfold canonicalOverride. simpl.
  intros [Hsome [Hcol Hwd]].
  assert (Ht : forall t, truthy (JStr (lineTypeName t)) = true
                         /\ normalizeLayerLineType (JStr (lineTypeName t))
                            = t) by exact roundtrip_lineType.
  assert (Hc : forall c, col = Some c ->
                         truthy (JStr c) = true
                         /\ normalizeColorHex (JStr c) "#000000" = c).
  { intros c E. destruct (Hcol c E) as [H1 H2].
    exact (roundtrip_color c "#000000" H1 H2). }
  assert (Hw : forall w, wd = Some w ->
                         exists q, w = Fin q
                                   /\ truthy (JNum w) = true
                                   /\ Num.max n0_1
                                        (normalizeFiniteNumber (JNum w) n1)
                                      = w).
  { intros w E. exact (roundtrip_width w (Hwd w E)). }
  clear Hcol Hwd.
  destruct ty as [t |], col as [c |], wd as [w |];
    try (destruct (Hw w eq_refl) as [q [-> [Tw Mw]]]);
    try (destruct (Hc c eq_refl) as [Tc Nc]);
    try (destruct (Ht t) as [Tt Nt]);
    unfold normalizeLineOverride, lineOverrideValue;
    cbn [JSON_value optValue Num.isFinite asRecord get lookupProp
         String.eqb Ascii.eqb Bool.eqb andb];
    rewrite ?Tt, ?Tc, ?Tw, ?Nt, ?Nc, ?Mw;
    cbn [orb truthy]; rewrite ?Tt, ?Tc, ?Tw, ?orb_true_r;
    try reflexivity.
  exfalso. destruct Hsome as [H | [H | H]]; apply H; reflexivity.
Qed.

Lemma roundtrip_entityIndex (n : num) :
  Num.isInteger n = true -> (n >=? n0) = true ->
  JSON_value (JNum n) = JNum n /\ normalizeEntityIndex (JNum n) = Some n.
Proof.
  intros Hi Hn. destruct n as [q | | |]; try discriminate.
  split; [reflexivity |].
  unfold normalizeEntityIndex. rewrite Hi, Hn. reflexivity.
Qed.

(** The parsed form of one exported item. *)
Lemma JSON_value_exportItem (it : PolylineItem) :
  JSON_value (exportItem it)
  = JObj ([("id", JStr (it_id it));
           ("layer", JStr (it_layer it));
           ("type", JStr (it_type it));
           ("points", JArr (map JSON_element
                                (map pointValue (it_points it))));
           ("visible", JBool (visibleOrTrue it))]
          ++ match it_entityIndex it with
             | Some n => [("entityIndex", JSON_value (JNum n))]
             | None => []
             end
          ++ match it_lineOverride it with
             | Some lo => [("lineOverride",
                            JSON_value (lineOverrideValue lo))]
             | None => []
             end)%list.
Proof.
  unfold exportItem.
  destruct (it_entityIndex it), (it_lineOverride it); reflexivity.
Qed.

Lemma roundtrip_item (seq : nat) (it : PolylineItem) :
  canonicalItem it ->
  normalizePolylineItemLike seq (JSON_element (exportItem it))
  = (Some (exportedItem it), seq).
Proof.
  intros [[Hid [[Hl1 Hl2] [[Ht1 Ht2] [Hlen [Hei Hlo]]]]] Hfin].
  change (JSON_element (exportItem it)) with (JSON_value (exportItem it)).
  rewrite JSON_value_exportItem.
  assert (Hpts : normalizePolylinePointsLike
                   (JArr (map JSON_element (map pointValue (it_points it))))
                 = Some (it_points it)).
  { unfold normalizePolylinePointsLike.
    rewrite (roundtrip_points _ Hfin). unfold atLeast2.
    apply Nat.leb_le in Hlen. rewrite Hlen. reflexivity. }
  assert (Hlayer : normalizeLayer (JStr (it_layer it)) = it_layer it)
    by (apply trimOr_fixed; assumption).
  assert (Htype : normalizeType (JStr (it_type it)) = it_type it)
    by (apply trimOr_fixed; assumption).
  unfold exportedItem, normalizePolylineItemLike.
  destruct it as [id layer type pts vis ei lo src].
  cbn [it_id it_layer it_type it_points it_visible it_entityIndex
       it_lineOverride it_source] in *.
  destruct ei as [n |], lo as [o |];
    try (destruct (Hei n eq_refl) as [Hi Hn];
         destruct (roundtrip_entityIndex n Hi Hn) as [Jn Nn];
         rewrite Jn);
    try (pose proof (roundtrip_lineOverride o (Hlo o eq_refl)) as Ho);
    cbn [app asRecord optGet get lookupProp String.eqb Ascii.eqb Bool.eqb
         andb];
    rewrite Hpts, Hid, Hlayer, Htype, ?Nn, ?Ho;
    reflexivity.
Qed.

Lemma exported_points_no_throw (pts : Polyline) :
  existsb normalizePointThrows (map JSON_element (map pointValue pts))
  = false.
Proof.
  induction pts as [| [x y] t IH]; [reflexivity |].
  cbn [map existsb]. rewrite IH, orb_false_r.
  destruct x as [qx | | |], y as [qy | | |]; reflexivity.
Qed.

Lemma exported_lineOverride_no_throw (lo : PolylineLineOverride) :
  normalizeLineOverrideThrows (JSON_value (lineOverrideValue lo)) = false.
Proof.
  destruct lo as [[t |] [c |] [[q | | |] |]];
    unfold normalizeLineOverrideThrows, lineOverrideValue;
    cbn [JSON_value optValue Num.isFinite asRecord get lookupProp
         String.eqb Ascii.eqb Bool.eqb andb numberThrows];
    apply andb_false_r.
Qed.

(** No exported item makes the normaliser throw. *)
Lemma exported_item_no_throw (it : PolylineItem) :
  normalizePolylineItemLikeThrows (JSON_element (exportItem it)) = false.
Proof.
  change (JSON_element (exportItem it)) with (JSON_value (exportItem it)).
  rewrite JSON_value_exportItem.
  unfold normalizePolylineItemLikeThrows.
  destruct it as [id layer type pts vis ei lo src].
  cbn [it_id it_layer it_type it_points it_visible it_entityIndex
       it_lineOverride it_source].
  destruct ei as [n |], lo as [o |];
    cbn [app asRecord optGet get lookupProp String.eqb Ascii.eqb Bool.eqb
         andb];
    cbn [normalizePolylinePointsLikeThrows];
    rewrite exported_points_no_throw; cbn [orb];
    rewrite ?exported_lineOverride_no_throw;
    break_match; reflexivity.
Qed.

Lemma exported_items_no_throw (items : list PolylineItem) :
  existsb normalizePolylineItemLikeThrows
          (map JSON_element (map exportItem items)) = false.
Proof.
  induction items as [| it t IH]; [reflexivity |].
  cbn [map existsb]. rewrite exported_item_no_throw, IH. reflexivity.
Qed.

Lemma roundtrip_items (items : list PolylineItem) :
  Forall canonicalItem items ->
  forall seq,
    normalizeEach seq (map JSON_element (map exportItem items))
    = (map exportedItem items, seq).
Proof.
  induction 1 as [| it t Hit _ IH]; intro seq; [reflexivity |].
  cbn [map normalizeEach].
  rewrite (roundtrip_item seq it Hit), (IH seq). reflexivity.
Qed.

(** Round trip of the canonical JSON export.  When every visible item
    is canonical with finite coordinates, and [JSON.parse] returns for
    the exported text the value that ECMAScript prescribes,
    [normalizePolylines] on the parsed export returns the exported items
    (every field but [source]) and draws no new id; [applyJsonDraft] on
    a refreshed draft then installs exactly these items. *)
Theorem export_roundtrip_finite (st : State) :
  Forall canonicalItem (visiblePolylineItems st) ->
  JSON_parse (exportJson st) = Some (JSON_value (exportObject st)) ->
  (exists doc,
      JSON_parse (exportJson st) = Some doc
      /\ forall seq,
          normalizePolylines seq doc
          = (map exportedItem (visiblePolylineItems st), seq))
  /\ (visiblePolylineItems st <> [] ->
      polylineItems (applyJsonDraft (refreshJsonDraft st))
      = map exportedItem (visiblePolylineItems st)).
Proof.
  intros Hcan Hparse.
  assert (Hn : forall seq,
             normalizePolylines seq (JSON_value (exportObject st))
             = (map exportedItem (visiblePolylineItems st), seq)).
  { intro seq. unfold normalizePolylines, exportObject.
    cbn [JSON_value asRecord optGet get lookupProp String.eqb Ascii.eqb
         Bool.eqb andb].
    apply roundtrip_items. exact Hcan. }
  split.
  - exists (JSON_value (exportObject st)). split; assumption.
  - intro Hne. unfold applyJsonDraft, refreshJsonDraft.
    cbn [jsonDraft with_jsonState with_jsonDraft polylineIdSeq].
    rewrite Hparse.
    assert (Ht : normalizePolylinesThrows (JSON_value (exportObject st))
                 = false).
    { unfold normalizePolylinesThrows, polylinesArray, exportObject.
      cbn [JSON_value asRecord optGet get lookupProp String.eqb Ascii.eqb
           Bool.eqb andb].
      apply exported_items_no_throw. }
    rewrite Ht, Hn.
    destruct (visiblePolylineItems st) as [| it0 rest] eqn:V;
      [contradiction |].
    cbn [map].
    match goal with
    | |- context [if ?c then _ else _] => destruct c; [reflexivity |]
    end.
    match goal with
    | |- polylineItems (with_jsonState ok
                          (initLayerStateFromItems ?f ?s)) = _ =>
        destruct (initLayerStateFromItems_same f s) as [H1 _];
        cbn [polylineItems with_jsonState]; rewrite H1
    end.
    break_match; [break_match |]; reflexivity.
Qed.

(** C3 (evaluation at the failing input).  Apply a JSON draft that
    [JSON.parse] reads as [infiniteRecordDocument]: the one visible item
    has the points [(Infinity, 0)] and [(1, 1)].  Export it and
    normalise the parsed export: whatever [Number] returns for [null],
    the points that come back are not those of the exported item (the
    first coordinate was written as [null]). *)
Theorem export_roundtrip_loses_infinite_point (text : string) :
  JSON_parse text = Some infiniteRecordDocument ->
  let st := run [TypeJsonDraft text; ApplyJson] initialState in
  map it_points (visiblePolylineItems st) = [[(PInf, Fin 0); (Fin 1, Fin 1)]]
  /\ forall seq,
      map it_points
          (fst (normalizePolylines seq (JSON_value (exportObject st))))
      <> map it_points (visiblePolylineItems st).
Proof.
  intros Hparse st.
  assert (Hst : visiblePolylineItems st
                = [ {| it_id := "a"; it_layer := "0";
                       it_type := "POLYLINE";
                       it_points := [(PInf, Fin 0); (Fin 1, Fin 1)];
                       it_visible := Some true;
                       it_entityIndex := None;
                       it_lineOverride := None;
                       it_source := None |} ]).
  { unfold st, run. cbn [fold_left perform].
    unfold applyJsonDraft.
    cbn [jsonDraft with_jsonState with_commandLine with_jsonDraft
         initialState].
    rewrite Hparse. reflexivity. }
  assert (Hexp : JSON_value (exportObject st)
                 = JObj [("polylines",
                          JArr [JObj [("id", JStr "a");
                                      ("layer", JStr "0");
                                      ("type", JStr "POLYLINE");
                                      ("points",
                                       JArr [JArr [JNull; JNum (Fin 0)];
                                             JArr [JNum (Fin 1);
                                                   JNum (Fin 1)]]);
                                      ("visible", JBool true)]]);
                         ("layers", match JSON_value (exportObject st) with
                                    | JObj [_; (_, l)] => l
                                    | _ => JNull
                                    end)]).
  { unfold exportObject. rewrite Hst. reflexivity. }
  split; [rewrite Hst; reflexivity |].
  intro seq. rewrite Hexp, Hst.
  unfold normalizePolylines.
  cbn [asRecord optGet get lookupProp String.eqb Ascii.eqb Bool.eqb andb
       normalizeEach normalizePolylineItemLike
       normalizePolylinePointsLike collectPoints normalizePoint
       finitePair Num.isFinite].
  destruct (Num.isFinite (ToNumber JNull)
            && Num.isFinite (ToNumber (JNum (Fin 0)))) eqn:E.
  - cbn. intros [= H _].
    rewrite H in E. discriminate.
  - cbn. discriminate.
Qed.

(* ------------------------------------------------------------------- *)
(** *** The normaliser builds canonical items *)
(* ------------------------------------------------------------------- *)

Lemma dropWhile_snoc_keeps (A : Type) (f : A -> bool) (l : list A) (c : A) :
  f c = false -> dropWhile f (l ++ [c]) <> [].
Proof.
  intro H. induction l as [| x t IH]; simpl.
  - rewrite H. discriminate.
  - destruct (f x); [exact IH | discriminate].
Qed.

Lemma trim_nonEmpty (c : ascii) (s : string) :
  isWhiteSpace c = false -> nonEmpty (trim (String c s)) = true.
Proof.
  intro H. unfold trim, trimList. cbn [list_ascii_of_string].
  rewrite (dropWhile_head _ isWhiteSpace c _ H). cbn [rev].
  pose proof (dropWhile_snoc_keeps _ isWhiteSpace
                (rev (list_ascii_of_string s)) c H) as Hne.
  destruct (dropWhile isWhiteSpace (rev (list_ascii_of_string s) ++ [c]))
    as [| x t] eqn:E; [contradiction |].
  cbn [rev].
  destruct (rev t) as [| y u]; reflexivity.
Qed.

Lemma nextPolylineId_not_blank (prefix : string) (seq : nat) :
  (exists c s, prefix = String c s /\ isWhiteSpace c = false) ->
  nonEmpty (trim (fst (nextPolylineId prefix seq))) = true.
Proof.
  intros [c [s [-> H]]]. unfold nextPolylineId. cbn [fst].
  cbn [String.append]. apply trim_nonEmpty. exact H.
Qed.

Lemma normalizeLayer_canonical (v : jsval) :
  trim (normalizeLayer v) = normalizeLayer v
  /\ nonEmpty (normalizeLayer v) = true.
Proof.
  assert (Z : trim "0" = "0" /\ nonEmpty "0" = true)
    by (split; reflexivity).
  unfold normalizeLayer.
  repeat break_match;
    first [exact Z | apply trimOr_canonical; reflexivity].
Qed.

Lemma normalizeType_canonical (v : jsval) :
  trim (normalizeType v) = normalizeType v
  /\ nonEmpty (normalizeType v) = true.
Proof.
  assert (Z : trim "POLYLINE" = "POLYLINE" /\ nonEmpty "POLYLINE" = true)
    by (split; reflexivity).
  unfold normalizeType.
  repeat break_match;
    first [exact Z | apply trimOr_canonical; reflexivity].
Qed.

Lemma lowerChar_hex (c : ascii) :
  isHexDigit c = true ->
  isHexDigit (lowerChar c) = true /\ lowerChar (lowerChar c) = lowerChar c.
Proof.
  destruct c as [[] [] [] [] [] [] [] []]; vm_compute;
    first [discriminate | split; reflexivity].
Qed.

Lemma toLowerCase_colorHex (s : string) :
  isColorHex s = true ->
  isColorHex (toLowerCase s) = true
  /\ toLowerCase (toLowerCase s) = toLowerCase s.
Proof.
  unfold isColorHex, toLowerCase.
  rewrite !list_ascii_of_string_of_list_ascii.
  destruct (list_ascii_of_string s) as [| h ds]; [discriminate |].
  intro H. apply andb_true_iff in H. destruct H as [H Hd].
  apply andb_true_iff in H. destruct H as [Hh Hlen].
  apply Ascii.eqb_eq in Hh. subst h.
  rewrite forallb_forall in Hd.
  cbn [map]. change (lowerChar "#"%char) with "#"%char.
  split.
  - rewrite length_map, Hlen. cbn [Ascii.eqb andb].
    change (Ascii.eqb "#" "#") with true. cbn [andb].
    apply forallb_forall. intros c Hc. apply in_map_iff in Hc.
    destruct Hc as [c0 [<- Hc0]]. exact (proj1 (lowerChar_hex c0 (Hd c0 Hc0))).
  - f_equal. f_equal. rewrite map_map. apply map_ext_in.
    intros c Hc. exact (proj2 (lowerChar_hex c (Hd c Hc))).
Qed.

Lemma normalizeColorHex_canonical (v : jsval) (fallback : string) :
  isColorHex fallback = true -> toLowerCase fallback = fallback ->
  isColorHex (normalizeColorHex v fallback) = true
  /\ toLowerCase (normalizeColorHex v fallback)
     = normalizeColorHex v fallback.
Proof.
  intros Hf Hl. unfold normalizeColorHex.
  destruct v; try (split; assumption).
  destruct (isColorHex (trim s)) eqn:E; [| split; assumption].
  apply toLowerCase_colorHex. exact E.
Qed.

Lemma normalizeFiniteNumber_finite (v : jsval) (q : Q) :
  exists r, normalizeFiniteNumber v (Fin q) = Fin r.
Proof.
  unfold normalizeFiniteNumber.
  destruct v as [| | | n | | |];
    try (destruct (ToNumber _) as [r | | |]; simpl; eexists; reflexivity).
  destruct n as [r | | |]; [eexists; reflexivity | | |];
    destruct (ToNumber _) as [r | | |]; simpl; eexists; reflexivity.
Qed.

Lemma max_tenth_canonical (q : Q) :
  Num.max n0_1 (Fin q) = n0_1
  \/ exists r, Num.max n0_1 (Fin q) = Fin r /\ (1 # 10 < r)%Q.
Proof.
  unfold Num.max, n0_1. simpl. qcases.
  - right. exists q. split; [reflexivity | assumption].
  - left. reflexivity.
Qed.

Lemma normalizeLineOverride_canonical (v : jsval)
      (lo : PolylineLineOverride) :
  normalizeLineOverride v = Some lo -> canonicalOverride lo.
Proof.
  unfold normalizeLineOverride.
  destruct (asRecord v) as [r |]; [| discriminate].
  destruct (truthy (get r "type") || truthy (get r "color")
            || truthy (get r "width")) eqn:T; [| discriminate].
  intros [= <-]. unfold canonicalOverride. cbn [lo_type lo_color lo_width].
  split; [| split].
  - apply orb_true_iff in T. destruct T as [T | T].
    + apply orb_true_iff in T. destruct T as [T | T]; rewrite T.
      * left. discriminate.
      * right. left. discriminate.
    + right. right. destruct (get r "width"); try discriminate.
  - intros c. destruct (truthy (get r "color")); [| discriminate].
    intros [= <-]. apply normalizeColorHex_canonical; reflexivity.
  - intros w Hw.
    assert (E : exists x, w = Num.max n0_1 (normalizeFiniteNumber x n1)).
    { destruct (get r "width") eqn:G; try discriminate;
        injection Hw as <-;
        match type of G with _ = ?x => exists x end; reflexivity. }
    destruct E as [x ->].
    destruct (normalizeFiniteNumber_finite x 1) as [q Hq].
    unfold n1. rewrite Hq.
    destruct (max_tenth_canonical q) as [H | [r2 [H H2]]].
    + left. exact H.
    + right. exists r2. split; assumption.
Qed.

Lemma normalizeEntityIndex_canonical (v : jsval) (n : num) :
  normalizeEntityIndex v = Some n ->
  Num.isInteger n = true /\ (n >=? n0) = true.
Proof.
  unfold normalizeEntityIndex.
  destruct v as [| | | m | | |]; try discriminate.
  destruct (Num.isInteger m && (m >=? n0)) eqn:E; [| discriminate].
  intros [= <-]. apply andb_true_iff. exact E.
Qed.

Lemma bareItem_canonical (seq : nat) (r : option jsval) (pl : jsval)
      (it : PolylineItem) (seq' : nat) :
  bareItem seq r pl = (Some it, seq') -> canonicalShape it.
Proof.
  unfold bareItem.
  destruct (normalizePolylinePointsLike pl) as [pts |] eqn:E;
    [| discriminate].
  destruct (nextPolylineId "pl" seq) as [id sq] eqn:N.
  intros [= <- _]. unfold canonicalShape.
  cbn [it_id it_layer it_type it_points it_entityIndex it_lineOverride].
  split; [| split; [| split; [| split; [| split]]]].
  - change id with (fst (id, sq)). rewrite <- N.
    apply nextPolylineId_not_blank. eexists. eexists.
    split; reflexivity.
  - apply normalizeLayer_canonical.
  - apply normalizeType_canonical.
  - exact (normalizePolylinePointsLike_min _ _ E).
  - intros n [=].
  - intros lo [=].
Qed.

Lemma normalizePolylineItemLike_canonical (seq : nat) (pl : jsval)
      (it : PolylineItem) (seq' : nat) :
  normalizePolylineItemLike seq pl = (Some it, seq') -> canonicalShape it.
Proof.
  unfold normalizePolylineItemLike.
  destruct (asRecord pl) as [rv |] eqn:R; [| apply bareItem_canonical].
  destruct (optGet (Some rv) "points") eqn:P;
    try apply bareItem_canonical.
  destruct (normalizePolylinePointsLike (get rv "points")) as [pts |] eqn:E;
    [| discriminate].
  assert (Hid : forall p,
             match get rv "id" with
             | JStr s => if nonEmpty (trim s) then (s, seq)
                         else nextPolylineId "json" seq
             | _ => nextPolylineId "json" seq
             end = p -> nonEmpty (trim (fst p)) = true).
  { assert (J : nonEmpty (trim (fst (nextPolylineId "json" seq))) = true).
    { apply nextPolylineId_not_blank. eexists. eexists.
      split; reflexivity. }
    intros p <-. destruct (get rv "id"); try exact J.
    destruct (nonEmpty (trim s)) eqn:B; [exact B | exact J]. }
  destruct (match get rv "id" with
            | JStr s => if nonEmpty (trim s) then (s, seq)
                        else nextPolylineId "json" seq
            | _ => nextPolylineId "json" seq
            end) as [id sq] eqn:I.
  specialize (Hid (id, sq) eq_refl).
  intros [= <- _]. unfold canonicalShape.
  cbn [it_id it_layer it_type it_points it_entityIndex it_lineOverride].
  split; [| split; [| split; [| split; [| split]]]].
  - exact Hid.
  - apply normalizeLayer_canonical.
  - apply normalizeType_canonical.
  - exact (normalizePolylinePointsLike_min _ _ E).
  - intros n. apply normalizeEntityIndex_canonical.
  - intros lo. apply normalizeLineOverride_canonical.
Qed.

Lemma normalizeEach_canonical (raw : list jsval) :
  forall seq, Forall canonicalShape (fst (normalizeEach seq raw)).
Proof.
  induction raw as [| pl t IH]; intro seq; simpl; [constructor |].
  destruct (normalizePolylineItemLike seq pl) as [item seq1] eqn:E.
  specialize (IH seq1).
  destruct (normalizeEach seq1 t) as [rest seq2]. simpl in *.
  destruct item as [it |]; [| exact IH].
  constructor; [| exact IH].
  exact (normalizePolylineItemLike_canonical _ _ _ _ E).
Qed.

(** Every item that [normalizePolylines] returns is canonical but for
    the finiteness of its coordinates; with finite coordinates it
    satisfies the premise of the round trip. *)
Lemma normalizePolylines_canonical (seq : nat) (input : jsval) :
  Forall canonicalShape (fst (normalizePolylines seq input)).
Proof.
  unfold normalizePolylines. apply normalizeEach_canonical.
Qed.

(* ------------------------------------------------------------------- *)
(** *** The steps that the component passes to [toSvgPoints] *)
(* ------------------------------------------------------------------- *)

Lemma max_one_admissible (x : num) :
  Num.isFinite x = false \/ Num.isInteger x = true ->
  Num.isFinite (Num.max n1 x) = false \/ (Num.max n1 x <=? n1) = true
  \/ Num.isInteger (Num.max n1 x) = true.
Proof.
  intros [H | H].
  - destruct x; try discriminate;
      first [left; reflexivity | right; left; reflexivity].
  - destruct x as [q | | |]; try discriminate.
    unfold Num.max, n1. cbn [Num.lt].
    destruct (Qltb 1 q); right; [right; exact H | left; reflexivity].
Qed.

(** The step computed by [polylineStrokeStep] is 1, infinite, or an
    integer. *)
Lemma polylineStrokeStep_admissible (st : State) :
  Num.isFinite (polylineStrokeStep st) = false
  \/ (polylineStrokeStep st <=? n1) = true
  \/ Num.isInteger (polylineStrokeStep st) = true.
Proof.
  unfold polylineStrokeStep.
  destruct (Num.ofNat (countPoints st) <=? Fin 20000);
    [right; left; reflexivity |].
  destruct (pointMode st) eqn:M; [right; left; reflexivity | |];
    apply max_one_admissible; unfold pointSampleStep; rewrite M.
  - destruct (Num.ofNat (countPoints st) >? Fin 3500);
      [| right; reflexivity].
    right. unfold Num.ofNat.
    rewrite div_Fin by (intro C; discriminate C).
    apply isInteger_inject.
  - left. reflexivity.
Qed.

(* ------------------------------------------------------------------- *)
(** *** Numbers: comparisons *)
(* ------------------------------------------------------------------- *)

Lemma le_Fin (a b : Q) : (Fin a <=? Fin b) = true <-> (a <= b)%Q.
Proof.
  unfold Num.le, Num.lt, Num.eq. split.
  - intro H. apply orb_true_iff in H. destruct H as [H | H].
    + apply Qltb_true in H. lra.
    + apply Qeq_bool_iff in H. lra.
  - intro H. apply orb_true_iff.
    destruct (Qeq_bool a b) eqn:E; [right; reflexivity | left].
    apply Qeq_bool_false in E. apply Qltb_true. lra.
Qed.

Lemma le_Fin_false (a b : Q) : (Fin a <=? Fin b) = false <-> (b < a)%Q.
Proof.
  split.
  - intro H. destruct (Qlt_le_dec b a) as [L | L]; [exact L |].
    apply le_Fin in L. congruence.
  - intro H. destruct (Fin a <=? Fin b) eqn:E; [| reflexivity].
    apply le_Fin in E. lra.
Qed.

Lemma lt_Fin (a b : Q) : (Fin a <? Fin b) = true <-> (a < b)%Q.
Proof. apply Qltb_true. Qed.

(* ------------------------------------------------------------------- *)
(** *** Further properties: layer styles *)
(* ------------------------------------------------------------------- *)

Lemma max_atLeast (m : Q) (v : jsval) (d : Q) :
  atLeast m (Num.max (Fin m) (normalizeFiniteNumber v (Fin d))).
Proof.
  destruct (normalizeFiniteNumber_finite v d) as [r ->].
  unfold atLeast, Num.max, Num.lt.
  destruct (Qltb m r) eqn:E.
  - right. exists r. split; [reflexivity |]. apply Qltb_true. exact E.
  - left. reflexivity.
Qed.

Lemma atLeast_roundtrip (m : Q) (w d : num) :
  atLeast m w -> Num.max (Fin m) (normalizeFiniteNumber (JNum w) d) = w.
Proof.
  intros [-> | [q [-> Hq]]]; cbn [normalizeFiniteNumber];
    unfold Num.max, Num.lt.
  - assert (E : Qltb m m = false) by (apply Qltb_false; lra).
    rewrite E. reflexivity.
  - assert (E : Qltb m q = true) by (apply Qltb_true; exact Hq).
    rewrite E. reflexivity.
Qed.

Lemma atLeast_JSON (m : Q) (w : num) :
  atLeast m w -> JSON_value (JNum w) = JNum w.
Proof. intros [-> | [q [-> _]]]; reflexivity. Qed.

(** X7.  Whenever [normalizeLayerStyle] returns (none of its [Number]
    calls throws), the style it returns has colours that are lower-case
    [#rrggbb], a font family that is not blank, a finite italic angle and
    sizes that are finite and not below their minimum (0.1 for the line
    width, the point size, the width factor and the arrow size, 1 for
    the font and text sizes, 0.01 for the dimension scale, 0 for the
    line gap).  It throws on a value one of whose nine numeric fields
    has no primitive value, such as [{line: {width: {toString: 1}}}]. *)
Theorem normalizeLayerStyle_canonical (v : jsval) :
  (normalizeLayerStyleThrows v = false ->
   canonicalStyle (normalizeLayerStyle v))
  /\ (forall w, numberThrows w = true ->
        get v "line" = JObj [("width", w)] ->
        normalizeLayerStyleThrows v = true).
Proof.
  split.
  - intros _.
    unfold canonicalStyle, normalizeLayerStyle, lowerColorHex.
    cbn [ls_line ls_point_size ls_text ls_dim line_color line_width
         fontFamily italicAngle fontSize widthFactor text_color
         dim_scale textSize arrowSize lineGap defaultLayerStyle bold].
    repeat split.
    + apply normalizeColorHex_canonical; reflexivity.
    + apply normalizeColorHex_canonical; reflexivity.
    + apply max_atLeast.
    + apply max_atLeast.
    + destruct (optGet (asRecord (optGet (asRecord v) "text"))
                       "fontFamily"); try reflexivity.
      destruct (nonEmpty (trim s)) eqn:E; [exact E | reflexivity].
    + destruct (normalizeFiniteNumber_finite
                  (optGet (asRecord (optGet (asRecord v) "text"))
                          "italicAngle") 0) as [r Hr].
      unfold n0. rewrite Hr. reflexivity.
    + apply max_atLeast.
    + apply max_atLeast.
    + apply normalizeColorHex_canonical; reflexivity.
    + apply normalizeColorHex_canonical; reflexivity.
    + apply max_atLeast.
    + apply max_atLeast.
    + apply max_atLeast.
    + apply max_atLeast.
  - intros w Hw Hl. unfold normalizeLayerStyleThrows.
    destruct v as [| | | | | l | props]; try discriminate.
    cbn [asRecord optGet]. rewrite Hl.
    cbn [asRecord optGet get lookupProp String.eqb Ascii.eqb Bool.eqb andb].
    rewrite Hw. reflexivity.
Qed.

Lemma atLeast_Fin (m : Q) (w : num) :
  atLeast m w -> exists q, w = Fin q /\ atLeast m (Fin q).
Proof.
  intros [-> | [q [-> Hq]]].
  - exists m. split; [reflexivity | left; reflexivity].
  - exists q. split; [reflexivity |]. right. exists q. split; [reflexivity | exact Hq].
Qed.

Lemma setKey_nil (A : Type) (k : string) (v : A) :
  setKey k v [] = [(k, v)].
Proof.
  unfold setKey. cbn [lookupKey].
  destruct (arrayIndex k); reflexivity.
Qed.

(** X8.  The export of a layer style reads back as the same style: for
    a style as [normalizeLayerStyle] builds it, [normalizeLayerStyle] on
    the exported record does not throw and returns the style unchanged,
    and the loop of [applyJsonDraft] over the exported entry registers
    that style and selects the layer exactly when it was exported as
    visible.  The layer named [__proto__] is the exception: the loop
    registers nothing for it. *)
Theorem layerStyle_export_roundtrip (layer : string) (s : LayerStyle)
        (visible : bool) :
  canonicalStyle s ->
  let l := normalizeLayer (JStr layer) in
  normalizeLayerStyleThrows (JSON_value (layerStyleValue s visible)) = false
  /\ normalizeLayerStyle (JSON_value (layerStyleValue s visible)) = s
  /\ readLayerConfig [(layer, JSON_value (layerStyleValue s visible))] [] []
     = (if String.eqb l "__proto__" then [] else [(l, s)],
        if visible then [l] else []).
Proof.
  intros (Hlc & Hlw & Hps & Hff & Hia & Hfs & Hwf & Htc & Hds & Hts
          & Has & Hlg) l.
  destruct s as [[lt lc lw] ps [ff ia bd fs wf tc] [ds ts asz lg]].
  cbn [ls_line ls_point_size ls_text ls_dim line_type line_color line_width
       fontFamily italicAngle bold fontSize widthFactor text_color
       dim_scale textSize arrowSize lineGap] in *.
  destruct (atLeast_Fin _ _ Hlw) as (q1 & -> & Hlw').
  destruct (atLeast_Fin _ _ Hps) as (q2 & -> & Hps').
  destruct (atLeast_Fin _ _ Hfs) as (q3 & -> & Hfs').
  destruct (atLeast_Fin _ _ Hwf) as (q4 & -> & Hwf').
  destruct (atLeast_Fin _ _ Hds) as (q5 & -> & Hds').
  destruct (atLeast_Fin _ _ Hts) as (q6 & -> & Hts').
  destruct (atLeast_Fin _ _ Has) as (q7 & -> & Has').
  destruct (atLeast_Fin _ _ Hlg) as (q8 & -> & Hlg').
  apply isFinite_Fin in Hia. destruct Hia as [q9 ->].
  destruct Hlc as [Hlc1 Hlc2]. destruct Htc as [Htc1 Htc2].
  assert (E : normalizeLayerStyle
                (JSON_value
                   (layerStyleValue
                      {| ls_line := {| line_type := lt; line_color := lc;
                                       line_width := Fin q1 |};
                         ls_point_size := Fin q2;
                         ls_text := {| fontFamily := ff;
                                       italicAngle := Fin q9; bold := bd;
                                       fontSize := Fin q3;
                                       widthFactor := Fin q4;
                                       text_color := tc |};
                         ls_dim := {| dim_scale := Fin q5;
                                      textSize := Fin q6;
                                      arrowSize := Fin q7;
                                      lineGap := Fin q8 |} |} visible))
              = {| ls_line := {| line_type := lt; line_color := lc;
                                 line_width := Fin q1 |};
                   ls_point_size := Fin q2;
                   ls_text := {| fontFamily := ff;
                                 italicAngle := Fin q9; bold := bd;
                                 fontSize := Fin q3;
                                 widthFactor := Fin q4;
                                 text_color := tc |};
                   ls_dim := {| dim_scale := Fin q5;
                                textSize := Fin q6;
                                arrowSize := Fin q7;
                                lineGap := Fin q8 |} |}).
  { unfold normalizeLayerStyle, layerStyleValue.
    cbn [JSON_value Num.isFinite ls_line ls_point_size ls_text ls_dim
         line_type line_color line_width fontFamily italicAngle bold
         fontSize widthFactor text_color dim_scale textSize arrowSize
         lineGap defaultLayerStyle
         asRecord optGet get lookupProp String.eqb Ascii.eqb Bool.eqb
         andb nullish truthy].
    rewrite (proj2 (roundtrip_lineType lt)).
    rewrite (proj2 (roundtrip_color lc _ Hlc1 Hlc2)).
    rewrite (proj2 (roundtrip_color tc _ Htc1 Htc2)).
    rewrite Hff.
    unfold n0_1, n1, n0.
    rewrite (atLeast_roundtrip _ _ _ Hlw'), (atLeast_roundtrip _ _ _ Hps'),
      (atLeast_roundtrip _ _ _ Hfs'), (atLeast_roundtrip _ _ _ Hwf'),
      (atLeast_roundtrip _ _ _ Hds'), (atLeast_roundtrip _ _ _ Hts'),
      (atLeast_roundtrip _ _ _ Has'), (atLeast_roundtrip _ _ _ Hlg').
    destruct bd; reflexivity. }
  split; [reflexivity |]. split; [exact E |].
  cbn [readLayerConfig]. rewrite E, setKey_nil. fold l.
  unfold layerStyleValue.
  cbn [JSON_value Num.isFinite ls_line ls_point_size ls_text ls_dim
       line_type line_color line_width fontFamily italicAngle bold
       fontSize widthFactor text_color dim_scale textSize arrowSize
       lineGap asRecord get lookupProp Ascii.eqb Bool.eqb
       andb nullish truthy app].
  destruct visible; reflexivity.
Qed.

(* ------------------------------------------------------------------- *)
(** *** Further properties: applying a JSON draft *)
(* ------------------------------------------------------------------- *)

Lemma ensureLayerStyles_only (layers : list string) :
  forall st, exists ls,
    fold_left (fun s l => ensureLayerStyle l s) layers st
    = with_layerStyles ls st.
Proof.
  induction layers as [| l t IH]; intro st; cbn [fold_left].
  - exists (layerStyles st). destruct st; reflexivity.
  - unfold ensureLayerStyle at 2.
    destruct (lookupKey (normalizeLayer (JStr l)) (layerStyles st));
      [apply IH |].
    destruct (inheritedName (normalizeLayer (JStr l))); [apply IH |].
    + destruct (IH (with_layerStyles
                      (setKey (normalizeLayer (JStr l)) defaultLayerStyle
                              (layerStyles st)) st)) as [ls E].
      exists ls. rewrite E. reflexivity.
Qed.

(** [initLayerStateFromItems] writes the style registry and the layer
    filter, nothing else. *)
Lemma initLayerStateFromItems_only (force : bool) (st : State) :
  exists ls sl,
    initLayerStateFromItems force st
    = with_selectedLayers sl (with_layerStyles ls st).
Proof.
  unfold initLayerStateFromItems.
  destruct (ensureLayerStyles_only (map fst (polylineLayerCounts st)) st)
    as [ls E].
  rewrite E. exists ls.
  destruct (force && _ && _).
  - eexists. reflexivity.
  - exists (selectedLayers st). destruct st; reflexivity.
Qed.

(** X9.  [applyJsonDraft] ends with the status [fail] and the document
    as it was when [JSON.parse] throws, when the normalisation of the
    polylines throws, or when no polyline survives it.  Otherwise it
    installs the normalised items, clears the selection and the DXF
    bounding box and leaves the viewport and the draft text as they
    were; it then ends with the status [ok], unless the normalisation of
    a layer style throws: then the status is [fail] although the items
    were replaced, and the style registry and the layer filter are left
    empty. *)
Theorem applyJsonDraft_outcome (st : State) :
  (JSON_parse (jsonDraft st) = None ->
   applyJsonDraft st = with_jsonState fail st)
  /\ (forall obj,
         JSON_parse (jsonDraft st) = Some obj ->
         normalizePolylinesThrows obj = true
         \/ fst (normalizePolylines (polylineIdSeq st) obj) = [] ->
         jsonState (applyJsonDraft st) = fail
         /\ sameDocument st (applyJsonDraft st))
  /\ (forall obj,
         JSON_parse (jsonDraft st) = Some obj ->
         normalizePolylinesThrows obj = false ->
         fst (normalizePolylines (polylineIdSeq st) obj) <> [] ->
         let st' := applyJsonDraft st in
         let layersThrow :=
           hasLayerConfig obj
           && readLayerConfigThrows
                (objectEntries (optGet (asRecord obj) "layers")) in
         polylineItems st'
         = fst (normalizePolylines (polylineIdSeq st) obj)
         /\ polylineIdSeq st'
            = snd (normalizePolylines (polylineIdSeq st) obj)
         /\ selected st' = None /\ selectedItemId st' = None
         /\ selectedEntityIndex st' = None /\ bboxBounds st' = None
         /\ viewBounds st' = viewBounds st
         /\ jsonDraft st' = jsonDraft st
         /\ jsonState st' = (if layersThrow then fail else ok)
         /\ (layersThrow = true ->
             layerStyles st' = [] /\ selectedLayers st' = [])).
Proof.
  split; [| split].
  - intro H. unfold applyJsonDraft. cbn [jsonDraft with_jsonState].
    rewrite H. destruct st; reflexivity.
  - intros obj H Hc. unfold applyJsonDraft.
    cbn [jsonDraft with_jsonState polylineIdSeq]. rewrite H.
    destruct (normalizePolylinesThrows obj); [repeat split |].
    destruct Hc as [Hc | Hnil]; [discriminate |].
    destruct (normalizePolylines (polylineIdSeq st) obj) as [next seq'].
    cbn [fst] in Hnil. subst next. repeat split.
  - intros obj H Ht Hne st' layersThrow. unfold st', applyJsonDraft.
    cbn [jsonDraft with_jsonState polylineIdSeq].
    rewrite H, Ht.
    destruct (normalizePolylines (polylineIdSeq st) obj) as [next seq'].
    cbn [fst snd] in *.
    destruct next as [| it0 rest]; [contradiction |].
    fold layersThrow. destruct layersThrow.
    + repeat split; intros _; reflexivity.
    + match goal with
      | |- context [initLayerStateFromItems ?f ?s] =>
          destruct (initLayerStateFromItems_only f s) as (ls & sl & E);
          rewrite E
      end.
      destruct (hasLayerConfig obj);
        [destruct (readLayerConfig _ _ _) |];
        repeat split; intros; try reflexivity; discriminate.
Qed.

(* ------------------------------------------------------------------- *)
(** *** Further properties: editing points *)
(* ------------------------------------------------------------------- *)

Lemma find_updateItem (id : string) (f : PolylineItem -> PolylineItem)
      (items : list PolylineItem) (it : PolylineItem) :
  (forall x, it_id (f x) = it_id x) ->
  find (fun x => String.eqb (it_id x) id) items = Some it ->
  find (fun x => String.eqb (it_id x) id) (updateItem id f items)
  = Some (f it).
Proof.
  intros Hid. induction items as [| x t IH]; cbn [find updateItem];
    [discriminate |].
  destruct (String.eqb (it_id x) id) eqn:E.
  - intros [= <-]. cbn [find]. rewrite Hid, E. reflexivity.
  - intro H. cbn [find]. rewrite E. apply IH. exact H.
Qed.

Lemma find_updateItem_other (id id' : string)
      (f : PolylineItem -> PolylineItem) (items : list PolylineItem) :
  (forall x, it_id (f x) = it_id x) ->
  String.eqb id id' = false ->
  find (fun x => String.eqb (it_id x) id') (updateItem id f items)
  = find (fun x => String.eqb (it_id x) id') items.
Proof.
  intros Hid Hne. induction items as [| x t IH]; cbn [find updateItem];
    [reflexivity |].
  destruct (String.eqb (it_id x) id) eqn:E.
  - cbn [find]. rewrite Hid.
    apply String.eqb_eq in E. rewrite E, Hne. reflexivity.
  - cbn [find]. rewrite IH. reflexivity.
Qed.

Lemma updateItem_Forall (P : PolylineItem -> Prop) (id : string)
      (f : PolylineItem -> PolylineItem) (items : list PolylineItem) :
  Forall P items -> (forall x, P x -> P (f x)) ->
  Forall P (updateItem id f items).
Proof.
  intros H Hf. induction H as [| x t Hx Ht IH]; cbn [updateItem];
    [constructor |].
  destruct (String.eqb (it_id x) id); constructor; auto.
Qed.

Lemma nth_error_setNth (A : Type) (i : nat) (v : A) (l : list A) :
  (i < List.length l)%nat -> nth_error (setNth i v l) i = Some v.
Proof.
  revert i. induction l as [| h t IH]; intros i H; simpl in H; [lia |].
  destruct i; [reflexivity |]. cbn [setNth nth_error]. apply IH. lia.
Qed.

Lemma nth_error_setNth_other (A : Type) (i j : nat) (v : A) (l : list A) :
  i <> j -> nth_error (setNth i v l) j = nth_error l j.
Proof.
  revert i j. induction l as [| h t IH]; intros i j H;
    [destruct i; reflexivity |].
  destruct i, j; cbn [setNth nth_error]; try reflexivity;
    [contradiction | apply IH; congruence].
Qed.

Lemma forallb_setNth (A : Type) (P : A -> bool) (i : nat) (v : A)
      (l : list A) :
  forallb P l = true -> P v = true -> forallb P (setNth i v l) = true.
Proof.
  revert i. induction l as [| h t IH]; intros i H Hv;
    [destruct i; reflexivity |].
  simpl in H. apply andb_true_iff in H. destruct H as [Hh Ht].
  destruct i; cbn [setNth forallb].
  - rewrite Hv, Ht. reflexivity.
  - rewrite Hh, (IH i Ht Hv). reflexivity.
Qed.

Lemma selectedPointOf_written (st : State) (id : string) (i : nat)
      (p q : Point) :
  selectedPointOf st = Some (id, i, p) ->
  selectedPointOf (writeSelectedPoint st id i q) = Some (id, i, q).
Proof.
  intro H. pose proof H as H'. unfold selectedPointOf in H.
  destruct (selected st) as [[id0 i0] |] eqn:S; [| discriminate].
  destruct (findItemById st id0) as [it |] eqn:F; [| discriminate].
  destruct (nth_error (it_points it) i0) as [p0 |] eqn:N; [| discriminate].
  injection H as -> -> ->.
  unfold selectedPointOf, writeSelectedPoint, findItemById.
  cbn [selected with_items polylineItems]. rewrite S.
  unfold findItemById in F.
  rewrite (find_updateItem
             id (fun it => setPoints (setNth i q (it_points it)) it)
             _ it (fun x => eq_refl) F).
  cbn [it_points setPoints].
  rewrite nth_error_setNth; [reflexivity |].
  apply nth_error_Some. rewrite N. discriminate.
Qed.

(** X10.  [nudgeSelectedPoint] moves the selected point by
    [(dx, dy) * step * mult], where [step] is [Number(pointNudgeStep)],
    and only when that step is finite and positive and both new
    coordinates are finite; in every other case it changes nothing.  It
    never touches another point or another item, and it keeps finite
    coordinates finite. *)
Theorem nudgeSelectedPoint_moves_selected (dx dy mult : num) (st : State)
        (id : string) (i : nat) (p : Point) :
  selectedPointOf st = Some (id, i, p) ->
  let st' := nudgeSelectedPoint dx dy mult st in
  (st' = st
   \/ exists s,
       ToNumber (pointNudgeStep st) = Fin s /\ (0 < s)%Q
       /\ pointFinite (fst p + dx * Fin s * mult,
                       snd p + dy * Fin s * mult) = true
       /\ selectedPointOf st'
          = Some (id, i, (fst p + dx * Fin s * mult,
                          snd p + dy * Fin s * mult)))
  /\ (forall id', String.eqb id id' = false ->
                  findItemById st' id' = findItemById st id')
  /\ (forall it it' j,
         findItemById st id = Some it -> findItemById st' id = Some it' ->
         List.length (it_points it') = List.length (it_points it)
         /\ (j <> i -> nth_error (it_points it') j
                       = nth_error (it_points it) j))
  /\ (finiteItems (polylineItems st) -> finiteItems (polylineItems st')).
Proof.
  intros Hsel st'. unfold st', nudgeSelectedPoint. rewrite Hsel.
  set (raw := ToNumber (pointNudgeStep st)).
  set (step := Num.max n0 (if truthy (JNum raw) then raw else n0)).
  destruct (negb (Num.isFinite step) || (step <=? n0)) eqn:G.
  { split; [left; reflexivity |]. split; [reflexivity |].
    split; [| exact (fun H => H)].
    intros it it' j H H'. rewrite H in H'. injection H' as <-.
    split; reflexivity. }
  apply orb_false_iff in G. destruct G as [Gf Gp].
  apply negb_false_iff in Gf.
  assert (Hstep : exists s, raw = Fin s /\ step = Fin s /\ (0 < s)%Q).
  { unfold step in *. destruct raw as [r | | |]; cbn [truthy] in *;
      try discriminate.
    destruct (Qeq_bool r 0) eqn:Z; cbn [negb] in *.
    - exfalso. unfold n0, Num.max, Num.lt in Gp.
      assert (E : Qltb 0 0 = false) by (apply Qltb_false; lra).
      rewrite E in Gp. discriminate.
    - unfold n0, Num.max, Num.lt in *.
      destruct (Qltb 0 r) eqn:L.
      + exists r. repeat split. apply Qltb_true. exact L.
      + exfalso. unfold Num.le, Num.lt, Num.eq in Gp.
        assert (E : Qltb 0 0 = false) by (apply Qltb_false; lra).
        rewrite E in Gp. discriminate. }
  destruct Hstep as (s & Hraw & Hs & Hpos). rewrite Hs.
  destruct (negb (Num.isFinite (fst p + dx * Fin s * mult))
            || negb (Num.isFinite (snd p + dy * Fin s * mult))) eqn:N.
  { split; [left; reflexivity |]. split; [reflexivity |].
    split; [| exact (fun H => H)].
    intros it it' j H H'. rewrite H in H'. injection H' as <-.
    split; reflexivity. }
  apply orb_false_iff in N. destruct N as [Nx Ny].
  apply negb_false_iff in Nx, Ny.
  split; [| split; [| split]].
  - right. exists s. split; [exact Hraw |]. split; [exact Hpos |].
    split.
    + unfold pointFinite. cbn [fst snd]. rewrite Nx, Ny. reflexivity.
    + apply (selectedPointOf_written st id i p). exact Hsel.
  - intros id' Hne. unfold writeSelectedPoint, findItemById.
    cbn [polylineItems with_items].
    apply find_updateItem_other; [reflexivity | exact Hne].
  - intros it it' j H H'.
    unfold writeSelectedPoint, findItemById in H'.
    cbn [polylineItems with_items] in H'.
    unfold findItemById in H.
    rewrite (find_updateItem
               id (fun it => setPoints (setNth i _ (it_points it)) it)
               _ it (fun x => eq_refl) H) in H'.
    injection H' as <-. cbn [it_points setPoints].
    split; [apply setNth_length |].
    intro Hj. apply nth_error_setNth_other. congruence.
  - intro Hfin. unfold writeSelectedPoint. cbn [polylineItems with_items].
    apply updateItem_Forall; [exact Hfin |].
    intros x Hx. cbn [it_points setPoints].
    apply forallb_setNth; [exact Hx |].
    unfold pointFinite. cbn [fst snd]. rewrite Nx, Ny. reflexivity.
Qed.


Lemma updateItem_twice (id : string) (f g : PolylineItem -> PolylineItem)
      (items : list PolylineItem) :
  (forall x, it_id (f x) = it_id x) ->
  updateItem id g (updateItem id f items)
  = updateItem id (fun x => g (f x)) items.
Proof.
  intro Hid. induction items as [| x t IH]; [reflexivity |].
  cbn [updateItem]. destruct (String.eqb (it_id x) id) eqn:E.
  - cbn [updateItem]. rewrite Hid, E. reflexivity.
  - cbn [updateItem]. rewrite E, IH. reflexivity.
Qed.





(** X13.  While a polyline is dragged, a pointer move replaces the
    points of the dragged item by the points saved at the start of the
    gesture, each translated by the pointer displacement since the
    start: the number of points is that of the saved points, other items
    are not touched, and moves do not accumulate (a second move gives
    what it gives without the first). *)
Theorem polyline_drag_translates_saved_points (svg : option SvgElement)
        (ev : PointerEvent) (st : State) (d : DragPolyline)
        (it : PolylineItem) (px py : num) :
  panning st = None ->
  draggingPolyline st = Some d ->
  findItemById st (dp_id d) = Some it ->
  clientToModel svg ev = Some (px, py) ->
  let st' := onPointerMove svg ev st in
  let dx := px -~ fst (dp_start d) in
  let dy := py -~ snd (dp_start d) in
  findItemById st' (dp_id d)
  = Some (setPoints (map (fun p => (fst p +~ dx, snd p +~ dy))
                         (dp_basePoints d)) it)
  /\ (forall id', String.eqb (dp_id d) id' = false ->
                  findItemById st' id' = findItemById st id')
  /\ (forall svg2 ev2 p2,
         clientToModel svg2 ev2 = Some p2 ->
         onPointerMove svg2 ev2 st' = onPointerMove svg2 ev2 st)
  /\ viewBounds st' = viewBounds st.
Proof.
  intros Hpan Hd Hf Hp st' dx dy.
  assert (E : st'
              = with_items
                  (updateItem (dp_id d)
                     (setPoints (map (fun p => (fst p +~ dx, snd p +~ dy))
                                     (dp_basePoints d)))
                     (polylineItems st)) st).
  { unfold st', onPointerMove. rewrite Hpan, Hd, Hp, Hf.
    f_equal. f_equal. f_equal. apply map_ext. intros [x y]. reflexivity. }
  rewrite E. split; [| split; [| split]].
  - unfold findItemById. cbn [polylineItems with_items].
    apply find_updateItem; [intro; reflexivity | exact Hf].
  - intros id' Hne. unfold findItemById. cbn [polylineItems with_items].
    apply find_updateItem_other; [reflexivity | exact Hne].
  - intros svg2 ev2 [qx qy] Hp2. unfold onPointerMove.
    cbn [panning draggingPolyline with_items polylineItems].
    rewrite Hpan, Hd, Hp2.
    unfold findItemById in *. cbn [polylineItems with_items].
    rewrite (find_updateItem
               (dp_id d)
               (setPoints (map (fun p => (fst p +~ dx, snd p +~ dy))
                               (dp_basePoints d)))
               _ it (fun x => eq_refl) Hf), Hf.
    rewrite updateItem_twice by reflexivity.
    reflexivity.
  - reflexivity.
Qed.

(** X14.  While a point is dragged, pointer moves only record the latest
    position and request one animation frame; the items change when the
    frame runs.  A second move before the frame replaces the first, and
    the frame writes the recorded position to the dragged point, or
    nothing when the item or the index no longer exists. *)
Theorem point_drag_writes_latest_position (svg : option SvgElement)
        (ev : PointerEvent) (st : State) (id : string) (i : nat)
        (px py : num) :
  panning st = None -> draggingPolyline st = None ->
  dragging st = Some (id, i) -> polylineItems st <> [] ->
  clientToModel svg ev = Some (px, py) ->
  let st1 := onPointerMove svg ev st in
  polylineItems st1 = polylineItems st
  /\ dragRaf st1 = true
  /\ (forall svg0 ev0 p0,
         clientToModel svg0 ev0 = Some p0 ->
         onPointerMove svg ev (onPointerMove svg0 ev0 st) = st1)
  /\ dragRaf (dragFrame st1) = false
  /\ latestDrag (dragFrame st1) = None
  /\ (forall it,
         findItemById st id = Some it ->
         (i < List.length (it_points it))%nat ->
         findItemById (dragFrame st1) id
         = Some (setPoints (setNth i (px, py) (it_points it)) it))
  /\ ((findItemById st id = None
       \/ exists it, findItemById st id = Some it
                     /\ (List.length (it_points it) <= i)%nat) ->
      polylineItems (dragFrame st1) = polylineItems st).
Proof.
  intros Hpan Hdp Hdr Hne Hp st1.
  assert (E : st1
              = with_dragRaf true
                  (with_latestDrag
                     (Some {| ld_id := id; ld_ptIndex := i;
                              ld_x := px; ld_y := py |}) st)).
  { unfold st1, onPointerMove. rewrite Hpan, Hdp, Hdr, Hp.
    destruct (polylineItems st) as [| x t] eqn:I; [contradiction |].
    cbn [dragRaf with_latestDrag].
    destruct (dragRaf st) eqn:R; [| reflexivity].
    destruct st; cbn in R; subst; reflexivity. }
  rewrite E. split; [reflexivity |]. split; [reflexivity |].
  split.
  { intros svg0 ev0 [qx qy] Hp0. unfold onPointerMove at 2.
    rewrite Hpan, Hdp, Hdr, Hp0.
    destruct (polylineItems st) as [| x t] eqn:I; [contradiction |].
    cbn [dragRaf with_latestDrag].
    destruct (dragRaf st) eqn:R;
      unfold onPointerMove;
      cbn [panning draggingPolyline dragging polylineItems dragRaf
           with_latestDrag with_dragRaf];
      rewrite Hpan, Hdp, Hdr, Hp, I; cbn [dragRaf with_latestDrag];
      rewrite ?R; try reflexivity.
    destruct st; cbn in R; subst; reflexivity. }
  unfold dragFrame.
  cbn [latestDrag dragRaf with_dragRaf with_latestDrag ld_id ld_ptIndex
       ld_x ld_y].
  unfold findItemById.
  cbn [polylineItems with_dragRaf with_latestDrag].
  split; [repeat break_match; reflexivity |].
  split; [repeat break_match; reflexivity |].
  split.
  - intros it Hf Hi. unfold findItemById in Hf. rewrite Hf.
    destruct (nth_error (it_points it) i) eqn:N.
    + cbn [polylineItems with_items].
      exact (find_updateItem
               id (fun it => setPoints (setNth i (px, py) (it_points it)) it)
               _ it (fun x => eq_refl) Hf).
    + apply nth_error_None in N. lia.
  - intros [Hf | [it [Hf Hi]]]; unfold findItemById in Hf; rewrite Hf;
      [reflexivity |].
    apply nth_error_None in Hi. rewrite Hi. reflexivity.
Qed.

(* ------------------------------------------------------------------- *)
(** *** Further properties: DXF import and export *)
(* ------------------------------------------------------------------- *)

Lemma finiteField_finite (cr : option jsval) (k : string) :
  Num.isFinite (finiteField cr k) = true ->
  exists q, finiteField cr k = Fin q.
Proof. intro H. apply isFinite_Fin. exact H. Qed.

Lemma cornerPoints_finite (corners : list jsval) :
  forallb pointFinite (cornerPoints corners) = true.
Proof.
  induction corners as [| c t IH]; [reflexivity |].
  cbn [cornerPoints].
  destruct (Num.isFinite (finiteField (asRecord c) "x")
            && Num.isFinite (finiteField (asRecord c) "y")) eqn:E;
    [| exact IH].
  cbn [forallb]. unfold pointFinite at 1. cbn [fst snd].
  rewrite E, IH. reflexivity.
Qed.

(** X15.  The fallback geometry that [polylinePointsFromEntity] takes
    from a DXF entity has finite coordinates only.  For a [SOLID] it is
    a closed ring: the finite corners, at least three, followed by the
    first corner again.  For a [DIMENSION] it is the two measure points.
    Any other entity, and a [SOLID] with fewer than three finite corners,
    gives nothing. *)
Theorem polylinePointsFromEntity_shapes (entity : jsval) (pts : Polyline) :
  polylinePointsFromEntity entity = Some pts ->
  forallb pointFinite pts = true
  /\ ((get entity "type" = JStr "SOLID"
       /\ (4 <= List.length pts)%nat
       /\ List.last pts (n0, n0) = hd (n0, n0) pts
       /\ exists corners,
           get entity "corners" = JArr corners
           /\ pts = (cornerPoints corners
                     ++ [hd (n0, n0) (cornerPoints corners)])%list)
      \/ (get entity "type" = JStr "DIMENSION"
          /\ List.length pts = 2%nat)).
Proof.
  unfold polylinePointsFromEntity.
  destruct (asRecord entity) as [er |] eqn:R; [| discriminate].
  assert (Her : er = entity)
    by (destruct entity; cbn in R; congruence).
  subst er.
  destruct (get entity "type") as [| | | | ty | |]; try discriminate.
  destruct (String.eqb ty "SOLID") eqn:S.
  - apply String.eqb_eq in S. subst ty.
    destruct (get entity "corners") as [| | | | | l |] eqn:C;
      cbn [cornerPoints]; try discriminate.
    pose proof (cornerPoints_finite l) as Hfin.
    destruct (cornerPoints l) as [| p0 t] eqn:P; [discriminate |].
    destruct (List.length (p0 :: t) <? 3)%nat eqn:L; [discriminate |].
    apply Nat.ltb_ge in L. intros [= <-].
    change (p0 :: t ++ [p0])%list with ((p0 :: t) ++ [p0])%list.
    split.
    + rewrite forallb_app, Hfin. cbn [forallb].
      cbn [forallb] in Hfin. apply andb_true_iff in Hfin.
      rewrite (proj1 Hfin). reflexivity.
    + left. split; [reflexivity |].
      split; [rewrite length_app; cbn [List.length] in *; lia |].
      split; [rewrite last_last; reflexivity |].
      exists l. split; [reflexivity |]. rewrite P. reflexivity.
  - destruct (String.eqb ty "DIMENSION") eqn:D; [| discriminate].
    apply String.eqb_eq in D. subst ty.
    destruct (negb (Num.isFinite _) || negb (Num.isFinite _)
              || negb (Num.isFinite _) || negb (Num.isFinite _)) eqn:G;
      [discriminate |].
    intros [= <-].
    apply orb_false_iff in G. destruct G as [G G4].
    apply orb_false_iff in G. destruct G as [G G3].
    apply orb_false_iff in G. destruct G as [G1 G2].
    apply negb_false_iff in G1, G2, G3, G4.
    split.
    + cbn [forallb]. unfold pointFinite. cbn [fst snd].
      rewrite G1, G2, G3, G4. reflexivity.
    + right. split; reflexivity.
Qed.

Lemma hexDigit_lower_hex (d : Z) :
  (0 <= d < 16)%Z ->
  isHexDigit (hexDigit d) = true /\ lowerChar (hexDigit d) = hexDigit d.
Proof.
  intro H.
  assert (C : (d = 0 \/ d = 1 \/ d = 2 \/ d = 3 \/ d = 4 \/ d = 5 \/ d = 6
               \/ d = 7 \/ d = 8 \/ d = 9 \/ d = 10 \/ d = 11 \/ d = 12
               \/ d = 13 \/ d = 14 \/ d = 15)%Z) by lia.
  repeat (destruct C as [-> | C]; [split; reflexivity |]).
  subst d. split; reflexivity.
Qed.

Lemma to2_digits (q : Q) :
  exists a b, to2 q = String a (String b EmptyString)
              /\ isHexDigit a = true /\ isHexDigit b = true
              /\ lowerChar a = a /\ lowerChar b = b.
Proof.
  unfold to2.
  set (c := Z.max 0 (Z.min 255 (Qfloor (q + (1 # 2))))).
  assert (Hc : (0 <= c <= 255)%Z) by (unfold c; lia).
  destruct (hexDigit_lower_hex (c / 16)) as [A1 A2].
  { split; [apply Z.div_pos; lia | apply Z.div_lt_upper_bound; lia]. }
  destruct (hexDigit_lower_hex (c mod 16)) as [B1 B2].
  { apply Z.mod_pos_bound. lia. }
  eexists _, _. split; [reflexivity |]. repeat split; assumption.
Qed.

(** X16.  A colour that [rgbToHex] returns is a lower-case [#rrggbb]:
    [normalizeColorHex] accepts it and returns it unchanged, so a line
    colour taken from a DXF file survives the JSON export and
    re-import.  Fewer than three components, or a component that does
    not convert to a finite number, give no colour. *)
Theorem rgbToHex_is_color_hex (v : jsval) :
  (forall c fallback,
      rgbToHex v = Some c ->
      isColorHex c = true /\ toLowerCase c = c
      /\ normalizeColorHex (JStr c) fallback = c)
  /\ (forall l, v = JArr l -> (List.length l < 3)%nat -> rgbToHex v = None)
  /\ (forall r g b t,
         v = JArr (r :: g :: b :: t) ->
         Num.isFinite (ToNumber r) && Num.isFinite (ToNumber g)
         && Num.isFinite (ToNumber b) = false ->
         rgbToHex v = None).
Proof.
  split; [| split].
  - intros c fallback H.
    assert (Hc : isColorHex c = true /\ toLowerCase c = c).
    { unfold rgbToHex in H.
      destruct v as [| | | | | l |]; try discriminate.
      destruct l as [| r [| g [| b t]]]; try discriminate.
      destruct (ToNumber r) as [qr | | |]; try discriminate.
      destruct (ToNumber g) as [qg | | |]; try discriminate.
      destruct (ToNumber b) as [qb | | |]; try discriminate.
      assert (Ec : c = "#" ++ to2 qr ++ to2 qg ++ to2 qb) by congruence.
      subst c. clear H.
      destruct (to2_digits qr) as (a1 & a2 & -> & ? & ? & ? & ?).
      destruct (to2_digits qg) as (b1 & b2 & -> & ? & ? & ? & ?).
      destruct (to2_digits qb) as (c1 & c2 & -> & ? & ? & ? & ?).
      unfold isColorHex, toLowerCase.
      cbn [append list_ascii_of_string map forallb List.length Nat.eqb
           string_of_list_ascii andb].
      split.
      - repeat match goal with
               | H : isHexDigit _ = true |- _ => rewrite H; clear H
               end.
        reflexivity.
      - repeat match goal with
               | H : lowerChar _ = _ |- _ => rewrite H; clear H
               end.
        reflexivity. }
    destruct Hc as [H1 H2]. split; [exact H1 |]. split; [exact H2 |].
    exact (proj2 (roundtrip_color c fallback H1 H2)).
  - intros l -> Hl. unfold rgbToHex.
    destruct l as [| r [| g [| b t]]]; try reflexivity.
    simpl in Hl. lia.
  - intros r g b t -> H. unfold rgbToHex.
    destruct (ToNumber r), (ToNumber g), (ToNumber b);
      try reflexivity; discriminate.
Qed.







Lemma fitToContent_only (svg : option SvgElement) (st : State) :
  exists b, fitToContent svg st = with_viewBounds b st.
Proof.
  assert (S : forall bounds pr,
             exists b, setViewToContentBounds svg bounds pr st
                       = with_viewBounds b st).
  { intros bounds pr. unfold setViewToContentBounds.
    destruct (contentBoundsView svg bounds pr) as [r |].
    - exists r. reflexivity.
    - exists (viewBounds st). destruct st; reflexivity. }
  assert (V : exists b, fitToVisiblePoints svg st = with_viewBounds b st).
  { unfold fitToVisiblePoints.
    destruct (flat_map it_points (visiblePolylineItems st)).
    - exists defaultBounds. reflexivity.
    - apply S. }
  unfold fitToContent.
  destruct (bboxBounds st); [| exact V].
  destruct (_ && _); [apply S | exact V].
Qed.

(** X18.  After a DXF file is loaded, the JSON draft is the export of
    the loaded document, the point mode is [sampled] exactly when more
    than 3500 visible points were loaded (and [all] otherwise), the
    bounding box kept from the parser has four finite edges, the
    selection is empty and the command line and the statuses are
    reset. *)
Theorem loadParsedDxf_resets (svg : option SvgElement)
        (polyResult denorm : jsval) (name : string) (st : State) :
  let st' := loadParsedDxf svg polyResult denorm name st in
  jsonDraft st' = exportJson st'
  /\ pointMode st'
     = (if Num.ofNat (countPoints st') >? Fin 3500 then pm_sampled
        else pm_all)
  /\ (forall b, bboxBounds st' = Some b -> boundsFinite b = true)
  /\ selected st' = None /\ selectedItemId st' = None
  /\ selectedEntityIndex st' = None
  /\ fileName st' = Some name
  /\ commandLine st' = EmptyString
  /\ commandState st' = idle /\ jsonState st' = idle
  /\ copyState st' = idle.
Proof.
  intro st'. unfold st', loadParsedDxf.
  destruct (dxfItems (polylineIdSeq st) 0 _ _) as [items seq'].
  match goal with
  | |- context [fitToContent svg ?s] =>
      destruct (fitToContent_only svg s) as [b E]; rewrite E
  end.
  match goal with
  | |- context [initLayerStateFromItems true ?s] =>
      destruct (initLayerStateFromItems_only true s) as (ls & sl & E2);
      rewrite E2
  end.
  split; [reflexivity |]. split; [reflexivity |].
  split; [| repeat split; reflexivity].
  intros bb. cbn [bboxBounds with_viewBounds with_pointMode
                  with_commandState with_commandLine with_jsonState
                  with_jsonDraft with_copyState with_selectedEntityIndex
                  with_selectedItemId with_selected with_fileName
                  with_entityVisibleOverrides with_parsedDxf
                  with_selectedLayers with_layerStyles with_items
                  with_polylineIdSeq with_bboxBounds].
  unfold asBoxBounds.
  repeat break_match; try discriminate.
  intros [= <-]. assumption.
Qed.

(* ------------------------------------------------------------------- *)
(** *** Further properties: sampling *)
(* ------------------------------------------------------------------- *)

Lemma toSvgCoords_returns (pl : Polyline) (step : num) :
  Num.isFinite step = false \/ (step <=? n1) = true
  \/ Num.isInteger step = true ->
  exists pts, toSvgCoords pl step = Returned pts.
Proof.
  intro Hstep. unfold toSvgCoords.
  destruct (negb (Num.isFinite step) || (step <=? n1)) eqn:B;
    [eexists; reflexivity |].
  apply orb_false_iff in B. destruct B as [Bf Ble].
  apply negb_false_iff in Bf.
  destruct Hstep as [H | [H | Hint]]; try congruence.
  destruct step as [s | | |]; try discriminate.
  assert (Hs1 : (1 < s)%Q) by (apply le_Fin_false; exact Ble).
  destruct (sampleLoop_returns pl s Hint Hs1 (S (List.length pl))
              0%Q []) as [more [Hr _]].
  - reflexivity.
  - lra.
  - lia.
  - change (Qfloor 0) with 0%Z. lia.
  - unfold n0. rewrite Hr.
    repeat break_match; eexists; reflexivity.
Qed.

(** X19.  The projection that draws the strokes,
    [toSvgPoints(it.points, polylineStrokeStep)], returns in every state
    and for every polyline: the step that [polylineStrokeStep] computes
    is never a fraction above 1.  With at most 20000 visible points, or
    with the point mode [all] or [hidden], it emits every vertex. *)
Theorem stroke_projection_returns (st : State) (pl : Polyline) :
  (exists text, toSvgPoints pl (polylineStrokeStep st) = Returned text)
  /\ ((Num.ofNat (countPoints st) <=? Fin 20000) = true
      \/ pointMode st = pm_all \/ pointMode st = pm_hidden ->
      toSvgCoords pl (polylineStrokeStep st) = Returned (map svgCoord pl)).
Proof.
  split.
  - destruct (toSvgCoords_returns pl (polylineStrokeStep st)
                (polylineStrokeStep_admissible st)) as [pts E].
    unfold toSvgPoints. rewrite E. eexists. reflexivity.
  - intro H.
    assert (E : polylineStrokeStep st = n1 \/ polylineStrokeStep st = PInf).
    { unfold polylineStrokeStep.
      destruct (Num.ofNat (countPoints st) <=? Fin 20000) eqn:L;
        [left; reflexivity |].
      destruct H as [H | [H | H]].
      - congruence.
      - rewrite H. left. reflexivity.
      - rewrite H. right. unfold pointSampleStep. rewrite H. reflexivity. }
    unfold toSvgCoords. destruct E as [-> | ->]; reflexivity.
Qed.

(** X20.  [pointSampleStep] is [Infinity] in the point mode [hidden] and
    1 in the mode [all].  In the mode [sampled] it is the least positive
    integer [z] such that the number of visible points is at most
    [3500 * z]: 1 up to 3500 points, and above that the quotient rounded
    up. *)
Theorem pointSampleStep_is_least_step (st : State) :
  (pointMode st = pm_hidden -> pointSampleStep st = PInf)
  /\ (pointMode st = pm_all -> pointSampleStep st = n1)
  /\ (pointMode st = pm_sampled ->
      exists z : Z,
        pointSampleStep st = Fin (inject_Z z)
        /\ (1 <= z)%Z
        /\ (Z.of_nat (countPoints st) <= 3500 * z)%Z
        /\ (1 < z -> 3500 * (z - 1) < Z.of_nat (countPoints st))%Z).
Proof.
  unfold pointSampleStep.
  split; [intros ->; reflexivity |]. split; [intros ->; reflexivity |].
  intros ->. unfold Num.ofNat, Num.gt.
  set (t := Z.of_nat (countPoints st)).
  destruct (Fin 3500 <? Fin (inject_Z t)) eqn:G.
  - apply lt_Fin in G.
    rewrite div_Fin by (intro C; discriminate C).
    cbn [Num.ceil].
    set (z := Qceiling (inject_Z t / 3500)).
    pose proof (Qle_ceiling (inject_Z t / 3500)) as C1.
    pose proof (Qceiling_lt (inject_Z t / 3500)) as C2.
    fold z in C1, C2.
    assert (D : (inject_Z t / 3500 == inject_Z t * (1 # 3500))%Q)
      by reflexivity.
    rewrite D in C1, C2.
    assert (Z1 : (inject_Z 1 < inject_Z z)%Q)
      by (change (inject_Z 1) with 1%Q; lra).
    rewrite <- Zlt_Qlt in Z1.
    exists z. split; [reflexivity |]. split; [lia |]. split.
    + rewrite Zle_Qle, inject_Z_mult.
      change (inject_Z 3500) with 3500%Q. lra.
    + intros _. rewrite Zlt_Qlt, inject_Z_mult.
      change (inject_Z 3500) with 3500%Q.
      unfold Z.sub in *. rewrite inject_Z_plus in *.
      change (inject_Z (-1)) with (-1)%Q in *. lra.
  - exists 1%Z. split; [reflexivity |]. split; [lia |]. split; [| lia].
    apply Qltb_false in G.
    change 3500%Q with (inject_Z 3500) in G.
    rewrite <- Zle_Qle in G. lia.
Qed.

(* ------------------------------------------------------------------- *)
(** *** Further properties: the layer filter *)
(* ------------------------------------------------------------------- *)

Lemma layerFilterHas_In (st : State) (l : string) :
  layerFilterHas st l = true <-> In l (selectedLayers st).
Proof.
  unfold layerFilterHas. rewrite existsb_exists. split.
  - intros [x [Hin E]]. apply String.eqb_eq in E. subst x. exact Hin.
  - intro H. exists l. split; [exact H | apply String.eqb_refl].
Qed.

Lemma removeFirstString_In (l l' : string) (ls : list string) :
  l' <> l -> (In l' (removeFirstString l ls) <-> In l' ls).
Proof.
  intro Hne. induction ls as [| h t IH]; [reflexivity |].
  cbn [removeFirstString]. destruct (String.eqb h l) eqn:E.
  - apply String.eqb_eq in E. subst h. cbn [In]. split; [auto |].
    intros [H | H]; [congruence | exact H].
  - cbn [In]. rewrite IH. reflexivity.
Qed.

Lemma removeFirstString_NoDup (l : string) (ls : list string) :
  NoDup ls ->
  NoDup (removeFirstString l ls) /\ ~ In l (removeFirstString l ls).
Proof.
  induction 1 as [| h t Hh Ht IH]; [split; [constructor | intros []] |].
  cbn [removeFirstString]. destruct (String.eqb h l) eqn:E.
  - apply String.eqb_eq in E. subst h. split; assumption.
  - destruct IH as [IH1 IH2].
    assert (Hne : h <> l)
      by (intro C; subst h; rewrite String.eqb_refl in E; discriminate).
    split.
    + constructor; [| exact IH1].
      intro C. apply Hh. apply (removeFirstString_In l h t Hne). exact C.
    + cbn [In]. intros [C | C]; [congruence | exact (IH2 C)].
Qed.

(** X21.  [setLayerVisible] adds the normalised layer name to the layer
    filter or removes its first occurrence.  After showing a layer, the
    filter has it, and every item of that layer whose own flag is not
    [false] is visible.  After hiding a layer of a filter without
    duplicates, the filter has it no more and no item of that layer is
    visible.  Other layers keep their status, a filter without
    duplicates stays without duplicates, and the items are not
    touched. *)
Theorem setLayerVisible_filters_layer (layer : string) (visible : bool)
        (st : State) :
  let l := normalizeLayer (JStr layer) in
  let st' := setLayerVisible layer visible st in
  polylineItems st' = polylineItems st
  /\ (NoDup (selectedLayers st) -> NoDup (selectedLayers st'))
  /\ (forall l', l' <> l -> layerFilterHas st' l' = layerFilterHas st l')
  /\ (visible = true ->
      layerFilterHas st' l = true
      /\ forall it, In it (polylineItems st) -> it_layer it = l ->
                    visibleOrTrue it = true ->
                    In it (visiblePolylineItems st'))
  /\ (visible = false -> NoDup (selectedLayers st) ->
      layerFilterHas st' l = false
      /\ forall it, In it (visiblePolylineItems st') -> it_layer it <> l).
Proof.
  intros l st'.
  assert (Hl : forall x, layerFilterHas st x = true <-> In x (selectedLayers st))
    by (intro x; apply layerFilterHas_In).
  assert (Hitems : polylineItems st' = polylineItems st).
  { unfold st', setLayerVisible. repeat break_match; reflexivity. }
  assert (Hsel : selectedLayers st'
                 = if visible
                   then if layerFilterHas st l then selectedLayers st
                        else (selectedLayers st ++ [l])%list
                   else if layerFilterHas st l
                        then removeFirstString l (selectedLayers st)
                        else selectedLayers st).
  { unfold st', setLayerVisible, layerFilterHas. fold l.
    repeat break_match; reflexivity. }
  assert (Hin : forall x, layerFilterHas st' x = true
                          <-> In x (selectedLayers st'))
    by (intro x; apply layerFilterHas_In).
  split; [exact Hitems |].
  split.
  { intro Hnd. rewrite Hsel.
    destruct visible, (layerFilterHas st l) eqn:P; try exact Hnd.
    - apply NoDup_app; [exact Hnd | repeat constructor; intros [] | ].
      intros x Hx [Hx' | []]. subst x.
      apply Hl in Hx. congruence.
    - exact (proj1 (removeFirstString_NoDup l _ Hnd)). }
  split.
  { intros l' Hne.
    destruct (layerFilterHas st' l') eqn:A, (layerFilterHas st l') eqn:B;
      try reflexivity; exfalso.
    - apply Hin in A. rewrite Hsel in A.
      assert (In l' (selectedLayers st)).
      { destruct visible, (layerFilterHas st l); try exact A.
        - apply in_app_or in A. destruct A as [A | [A | []]];
            [exact A | congruence].
        - apply (removeFirstString_In l l' _ Hne). exact A. }
      apply Hl in H. congruence.
    - apply Hl in B.
      assert (In l' (selectedLayers st')).
      { rewrite Hsel. destruct visible, (layerFilterHas st l); try exact B.
        - apply in_or_app. left. exact B.
        - apply (removeFirstString_In l l' _ Hne). exact B. }
      apply Hin in H. congruence. }
  split.
  { intros ->.
    assert (Has : layerFilterHas st' l = true).
    { apply Hin. rewrite Hsel. destruct (layerFilterHas st l) eqn:P.
      - apply Hl. exact P.
      - apply in_or_app. right. left. reflexivity. }
    split; [exact Has |].
    intros it Hit Hlayer Hv. unfold visiblePolylineItems.
    apply filter_In. rewrite Hitems. split; [exact Hit |].
    rewrite Hlayer, Has, Hv. reflexivity. }
  intros -> Hnd.
  assert (Hno : layerFilterHas st' l = false).
  { destruct (layerFilterHas st' l) eqn:A; [| reflexivity]. exfalso.
    apply Hin in A. rewrite Hsel in A.
    destruct (layerFilterHas st l) eqn:P.
    - exact (proj2 (removeFirstString_NoDup l _ Hnd) A).
    - apply Hl in A. congruence. }
  split; [exact Hno |].
  intros it Hit Hlayer. unfold visiblePolylineItems in Hit.
  apply filter_In in Hit. destruct Hit as [_ Hit].
  rewrite Hlayer, Hno in Hit. discriminate.
Qed.

(* ------------------------------------------------------------------- *)
(** *** Further properties: the words of the command line *)
(* ------------------------------------------------------------------- *)

Lemma chars_tokenOf (cur : list ascii) :
  list_ascii_of_string (tokenOf cur) = rev cur.
Proof. unfold tokenOf. apply list_ascii_of_string_of_list_ascii. Qed.

Lemma forallb_rev_true (A : Type) (f : A -> bool) (l : list A) :
  forallb f l = true -> forallb f (rev l) = true.
Proof.
  rewrite !forallb_forall. intros H x Hx. apply H. apply in_rev. exact Hx.
Qed.

Lemma splitRuns_tokens (l : list ascii) :
  forall (cur : list ascii) (prevWs : bool),
    forallb notWhiteSpace cur = true ->
    Forall (fun t => forallb notWhiteSpace (list_ascii_of_string t) = true)
           (splitRuns l cur prevWs).
Proof.
  induction l as [| c t IH]; intros cur prevWs Hcur; cbn [splitRuns].
  - constructor; [| constructor].
    rewrite chars_tokenOf. apply forallb_rev_true. exact Hcur.
  - destruct (isWhiteSpace c) eqn:W.
    + destruct prevWs; [apply IH; exact Hcur |].
      constructor; [| apply IH; reflexivity].
      rewrite chars_tokenOf. apply forallb_rev_true. exact Hcur.
    + apply IH. cbn [forallb]. unfold notWhiteSpace at 1.
      rewrite W, Hcur. reflexivity.
Qed.

Lemma splitRuns_concat (l : list ascii) :
  forall (cur : list ascii) (prevWs : bool),
    List.concat (map list_ascii_of_string (splitRuns l cur prevWs))
    = (rev cur ++ filter notWhiteSpace l)%list.
Proof.
  induction l as [| c t IH]; intros cur prevWs; cbn [splitRuns].
  - cbn [map List.concat filter]. rewrite chars_tokenOf. reflexivity.
  - cbn [filter]. unfold notWhiteSpace at 1.
    destruct (isWhiteSpace c) eqn:W; cbn [negb].
    + destruct prevWs; [apply IH |].
      cbn [map List.concat]. rewrite chars_tokenOf, IH. reflexivity.
    + rewrite IH. cbn [rev]. rewrite <- app_assoc. reflexivity.
Qed.

Lemma filter_dropWhile_ws (l : list ascii) :
  filter notWhiteSpace (dropWhile isWhiteSpace l) = filter notWhiteSpace l.
Proof.
  induction l as [| c t IH]; [reflexivity |].
  cbn [dropWhile]. destruct (isWhiteSpace c) eqn:W; [| reflexivity].
  cbn [filter]. unfold notWhiteSpace at 2. rewrite W. exact IH.
Qed.

Lemma filter_trimList (l : list ascii) :
  filter notWhiteSpace (trimList l) = filter notWhiteSpace l.
Proof.
  unfold trimList.
  rewrite filter_rev, filter_dropWhile_ws, filter_rev, rev_involutive.
  apply filter_dropWhile_ws.
Qed.

Lemma concat_filter_nonEmpty (ts : list string) :
  List.concat (map list_ascii_of_string (filter nonEmpty ts))
  = List.concat (map list_ascii_of_string ts).
Proof.
  induction ts as [| t r IH]; [reflexivity |].
  cbn [filter]. destruct t as [| c s]; cbn [nonEmpty map List.concat].
  - exact IH.
  - rewrite IH. reflexivity.
Qed.

(** X22.  The words that [runCommand] reads from the command line are
    never empty and hold no white space, and read together they are the
    characters of the line that are not white space, in order: leading,
    trailing and repeated white space only separates words. *)
Theorem commandParts_are_the_words (line : string) :
  Forall (fun t =>
            nonEmpty t = true
            /\ forallb notWhiteSpace (list_ascii_of_string t) = true)
         (commandParts line)
  /\ List.concat (map list_ascii_of_string (commandParts line))
     = filter notWhiteSpace (list_ascii_of_string line).
Proof.
  unfold commandParts, splitWhitespace. split.
  - apply Forall_forall. intros t Hin. apply filter_In in Hin.
    destruct Hin as [Hin Hne]. split; [exact Hne |].
    pose proof (splitRuns_tokens (list_ascii_of_string (trim line)) []
                                 false eq_refl) as H.
    rewrite Forall_forall in H. apply H. exact Hin.
  - rewrite concat_filter_nonEmpty, splitRuns_concat. cbn [rev app].
    unfold trim. rewrite list_ascii_of_string_of_list_ascii.
    apply filter_trimList.
Qed.

(* ------------------------------------------------------------------- *)
(** *** Further properties: the layer style registry *)
(* ------------------------------------------------------------------- *)

Lemma lookupKey_replaceKey (A : Type) (k : string) (v x : A)
      (m : list (string * A)) :
  lookupKey k m = Some x -> lookupKey k (replaceKey k v m) = Some v.
Proof.
  induction m as [| [k' v'] t IH]; cbn [replaceKey lookupKey];
    [discriminate |].
  destruct (String.eqb k k') eqn:E; cbn [lookupKey]; rewrite E;
    [reflexivity | exact IH].
Qed.

Lemma lookupKey_replaceKey_other (A : Type) (k k' : string) (v : A)
      (m : list (string * A)) :
  String.eqb k' k = false ->
  lookupKey k' (replaceKey k v m) = lookupKey k' m.
Proof.
  intro Hne. induction m as [| [k0 v0] t IH]; cbn [replaceKey lookupKey];
    [reflexivity |].
  destruct (String.eqb k k0) eqn:E; cbn [lookupKey].
  - apply String.eqb_eq in E. subst k0. rewrite Hne. reflexivity.
  - rewrite IH. reflexivity.
Qed.

Lemma lookupKey_insertIndex (A : Type) (i : Z) (k : string) (v : A)
      (m : list (string * A)) :
  lookupKey k m = None -> lookupKey k (insertIndex i k v m) = Some v.
Proof.
  induction m as [| [k' v'] t IH]; cbn [insertIndex lookupKey].
  - rewrite String.eqb_refl. reflexivity.
  - destruct (String.eqb k k') eqn:E; [discriminate |]. intro H.
    destruct (arrayIndex k') as [j |];
      [destruct (j <? i)%Z |]; cbn [lookupKey];
      rewrite ?E, ?String.eqb_refl; auto.
Qed.

Lemma lookupKey_insertIndex_other (A : Type) (i : Z) (k k' : string)
      (v : A) (m : list (string * A)) :
  String.eqb k' k = false ->
  lookupKey k' (insertIndex i k v m) = lookupKey k' m.
Proof.
  intro Hne. induction m as [| [k0 v0] t IH]; cbn [insertIndex lookupKey].
  - rewrite Hne. reflexivity.
  - destruct (arrayIndex k0) as [j |];
      [destruct (j <? i)%Z |]; cbn [lookupKey];
      rewrite ?Hne, ?IH; reflexivity.
Qed.

Lemma lookupKey_app (A : Type) (k : string) (m1 m2 : list (string * A)) :
  lookupKey k (m1 ++ m2)
  = match lookupKey k m1 with
    | Some v => Some v
    | None => lookupKey k m2
    end.
Proof.
  induction m1 as [| [k' v'] t IH]; cbn [app lookupKey]; [reflexivity |].
  destruct (String.eqb k k'); [reflexivity | exact IH].
Qed.

Lemma lookupKey_setKey (A : Type) (k : string) (v : A)
      (m : list (string * A)) :
  lookupKey k (setKey k v m) = Some v.
Proof.
  unfold setKey. destruct (lookupKey k m) as [x |] eqn:E.
  - exact (lookupKey_replaceKey A k v x m E).
  - destruct (arrayIndex k) as [i |].
    + apply lookupKey_insertIndex. exact E.
    + rewrite lookupKey_app, E. cbn [lookupKey].
      rewrite String.eqb_refl. reflexivity.
Qed.

Lemma lookupKey_setKey_other (A : Type) (k k' : string) (v : A)
      (m : list (string * A)) :
  String.eqb k' k = false ->
  lookupKey k' (setKey k v m) = lookupKey k' m.
Proof.
  intro Hne. unfold setKey. destruct (lookupKey k m) as [x |].
  - apply lookupKey_replaceKey_other. exact Hne.
  - destruct (arrayIndex k) as [i |].
    + apply lookupKey_insertIndex_other. exact Hne.
    + rewrite lookupKey_app. cbn [lookupKey]. rewrite Hne.
      destruct (lookupKey k' m); reflexivity.
Qed.

Lemma normalizeLayer_fixed (v : jsval) :
  normalizeLayer (JStr (normalizeLayer v)) = normalizeLayer v.
Proof.
  destruct (normalizeLayer_canonical v) as [H1 H2].
  cbn [normalizeLayer]. apply trimOr_fixed; assumption.
Qed.

Lemma ensureLayerStyle_registers (l : string) (st : State) :
  (inheritedName (normalizeLayer (JStr l)) = false ->
   lookupKey (normalizeLayer (JStr l)) (layerStyles (ensureLayerStyle l st))
   <> None)
  /\ (forall k s, lookupKey k (layerStyles st) = Some s ->
                  lookupKey k (layerStyles (ensureLayerStyle l st)) = Some s)
  /\ (forall k s, lookupKey k (layerStyles (ensureLayerStyle l st)) = Some s ->
                  lookupKey k (layerStyles st) = Some s
                  \/ (inheritedName k = false /\ s = defaultLayerStyle)).
Proof.
  unfold ensureLayerStyle.
  destruct (lookupKey (normalizeLayer (JStr l)) (layerStyles st)) eqn:E.
  - split; [intros _; rewrite E; discriminate |]. split; [auto |].
    intros k s H. left. exact H.
  - destruct (inheritedName (normalizeLayer (JStr l))) eqn:I.
    + split; [discriminate |]. split; [auto |]. intros k s H. left. exact H.
    + cbn [layerStyles with_layerStyles].
      split; [intros _; rewrite lookupKey_setKey; discriminate |]. split.
      * intros k s H.
        destruct (String.eqb k (normalizeLayer (JStr l))) eqn:K.
        -- apply String.eqb_eq in K. subst k. congruence.
        -- rewrite lookupKey_setKey_other by exact K. exact H.
      * intros k s H.
        destruct (String.eqb k (normalizeLayer (JStr l))) eqn:K.
        -- apply String.eqb_eq in K. subst k.
           rewrite lookupKey_setKey in H. injection H as <-.
           right. split; [exact I | reflexivity].
        -- rewrite lookupKey_setKey_other in H by exact K. left. exact H.
Qed.

Lemma ensureLayerStyles_register (layers : list string) :
  forall st,
    let st' := fold_left (fun s l => ensureLayerStyle l s) layers st in
    (forall l, In l layers ->
               inheritedName (normalizeLayer (JStr l)) = false ->
               lookupKey (normalizeLayer (JStr l)) (layerStyles st') <> None)
    /\ (forall k s, lookupKey k (layerStyles st) = Some s ->
                    lookupKey k (layerStyles st') = Some s)
    /\ (forall k s, lookupKey k (layerStyles st') = Some s ->
                    lookupKey k (layerStyles st) = Some s
                    \/ (inheritedName k = false /\ s = defaultLayerStyle)).
Proof.
  induction layers as [| l t IH]; intro st; cbn [fold_left].
  - split; [intros l [] |]. split; [auto |]. intros k s H. left. exact H.
  - destruct (IH (ensureLayerStyle l st)) as (I1 & I2 & I3).
    destruct (ensureLayerStyle_registers l st) as (E1 & E2 & E3).
    split; [| split].
    + intros l' [-> | Hin] Hnot; [| apply I1; assumption].
      destruct (lookupKey (normalizeLayer (JStr l'))
                          (layerStyles (ensureLayerStyle l' st)))
        as [s |] eqn:L; [| exfalso; exact (E1 Hnot eq_refl)].
      rewrite (I2 _ _ L). discriminate.
    + intros k s H. apply I2. apply E2. exact H.
    + intros k s H. destruct (I3 k s H) as [H' | H']; [| right; exact H'].
      destruct (E3 k s H') as [H'' | H''];
        [left; exact H'' | right; exact H''].
Qed.

(** X23.  [initLayerStateFromItems] registers a style for every layer
    that [polylineLayerCounts] lists, under the normalised layer name,
    unless that name is the name of a property of [Object.prototype]
    ([constructor], [toString], [__proto__] and the like): for such a
    layer nothing is stored.  A style that was registered before is
    kept as it is, and a style that was not is the default style.  The
    layer filter is replaced, by all the listed layers, only when it was
    empty and the caller asked for it.  The items are not touched. *)
Theorem initLayerStateFromItems_registers (force : bool) (st : State) :
  let st' := initLayerStateFromItems force st in
  let layers := map fst (polylineLayerCounts st) in
  (forall l, In l layers ->
             inheritedName (normalizeLayer (JStr l)) = false ->
             lookupKey (normalizeLayer (JStr l)) (layerStyles st') <> None)
  /\ (forall k, inheritedName k = true ->
                lookupKey k (layerStyles st') = lookupKey k (layerStyles st))
  /\ (forall k s, lookupKey k (layerStyles st) = Some s ->
                  lookupKey k (layerStyles st') = Some s)
  /\ (forall k s, lookupKey k (layerStyles st') = Some s ->
                  lookupKey k (layerStyles st) = Some s
                  \/ s = defaultLayerStyle)
  /\ selectedLayers st'
     = (if force && negb (match layers with [] => true | _ => false end)
           && match selectedLayers st with [] => true | _ => false end
        then layers else selectedLayers st)
  /\ polylineItems st' = polylineItems st.
Proof.
  intros st' layers.
  destruct (ensureLayerStyles_register layers st) as (R1 & R2 & R3).
  destruct (ensureLayerStyles_only layers st) as [ls E].
  assert (S : st' = if force && (0 <? List.length layers)%nat
                        && (List.length (selectedLayers st) =? 0)%nat
                    then with_selectedLayers layers
                           (fold_left (fun s l => ensureLayerStyle l s)
                                      layers st)
                    else fold_left (fun s l => ensureLayerStyle l s)
                                   layers st).
  { unfold st', initLayerStateFromItems. fold layers. rewrite E.
    reflexivity. }
  assert (L : layerStyles st'
              = layerStyles (fold_left (fun s l => ensureLayerStyle l s)
                                       layers st)).
  { rewrite S. destruct (_ && _ && _); reflexivity. }
  rewrite L. split; [exact R1 |]. split.
  { intros k Hk.
    destruct (lookupKey k (layerStyles
                             (fold_left (fun s l => ensureLayerStyle l s)
                                        layers st))) as [s |] eqn:Q.
    - destruct (R3 k s Q) as [H | [H _]]; [symmetry; exact H | congruence].
    - destruct (lookupKey k (layerStyles st)) as [s |] eqn:Q0;
        [| reflexivity].
      rewrite (R2 k s Q0) in Q. discriminate. }
  split; [exact R2 |]. split.
  { intros k s H. destruct (R3 k s H) as [H' | [_ H']];
      [left; exact H' | right; exact H']. }
  rewrite S, E. split.
  - destruct force, layers as [| l0 t], (selectedLayers st) as [| s0 r] eqn:Q;
      cbn; try rewrite Q; reflexivity.
  - destruct (_ && _ && _); reflexivity.
Qed.

(* ------------------------------------------------------------------- *)
(** *** Further properties: the layer list *)
(* ------------------------------------------------------------------- *)

Lemma lookupKey_In (A : Type) (k : string) (v : A) (m : list (string * A)) :
  lookupKey k m = Some v -> In (k, v) m.
Proof.
  induction m as [| [k' v'] t IH]; cbn [lookupKey]; [discriminate |].
  destruct (String.eqb k k') eqn:E.
  - apply String.eqb_eq in E. subst k'. intros [= ->]. left. reflexivity.
  - intro H. right. apply IH. exact H.
Qed.

Lemma In_lookupKey (A : Type) (k : string) (v : A) (m : list (string * A)) :
  NoDup (map fst m) -> In (k, v) m -> lookupKey k m = Some v.
Proof.
  induction m as [| [k' v'] t IH]; cbn [map fst]; intros Hnd Hin;
    [destruct Hin |].
  inversion Hnd as [| x xs Hx Hnd' Heq]. subst.
  cbn [lookupKey]. destruct Hin as [Heq | Hin].
  - injection Heq as -> ->. rewrite String.eqb_refl. reflexivity.
  - destruct (String.eqb k k') eqn:E; [| apply IH; assumption].
    apply String.eqb_eq in E. subst k'. exfalso. apply Hx.
    change k with (fst (k, v)). apply in_map. exact Hin.
Qed.

Lemma bumpCount_spec (l : string) (m : list (string * nat)) :
  NoDup (map fst m) ->
  NoDup (map fst (bumpCount l m))
  /\ lookupKey l (bumpCount l m)
     = Some (S (match lookupKey l m with Some n => n | None => 0%nat end))
  /\ (forall k, String.eqb k l = false ->
                lookupKey k (bumpCount l m) = lookupKey k m)
  /\ (forall k, In k (map fst (bumpCount l m)) <-> k = l \/ In k (map fst m)).
Proof.
  induction m as [| [k0 n0'] t IH]; intro Hnd.
  - cbn [bumpCount lookupKey map fst]. rewrite String.eqb_refl.
    split; [repeat constructor; intros [] |]. split; [reflexivity |].
    split; [intros k Hk; rewrite Hk; reflexivity |].
    intro k. cbn [In]. split; [intros [H | []]; left; auto |].
    intros [H | []]. left. auto.
  - cbn [map fst] in Hnd. inversion Hnd as [| x xs Hx Hnd' Heq]. subst.
    destruct (IH Hnd') as (I1 & I2 & I3 & I4).
    cbn [bumpCount]. destruct (String.eqb k0 l) eqn:E.
    + apply String.eqb_eq in E. subst k0.
      cbn [map fst lookupKey]. rewrite String.eqb_refl.
      split; [exact Hnd |]. split; [reflexivity |].
      split; [intros k Hk; rewrite Hk; reflexivity |].
      intro k. cbn [In]. split; [auto |]. intros [H | H]; [left; auto | exact H].
    + assert (E' : String.eqb l k0 = false)
        by (rewrite String.eqb_sym; exact E).
      cbn [map fst lookupKey]. rewrite E'.
      split.
      * constructor; [| exact I1]. intro C. apply I4 in C.
        destruct C as [C | C]; [| exact (Hx C)].
        subst k0. rewrite String.eqb_refl in E. discriminate.
      * split; [exact I2 |]. split.
        -- intros k Hk. destruct (String.eqb k k0); [reflexivity |].
           apply I3. exact Hk.
        -- intro k. cbn [In]. rewrite I4.
           split; intros [H | [H | H]]; auto.
Qed.

Lemma layerCounts_fold (items : list PolylineItem) :
  forall m,
    NoDup (map fst m) ->
    let m' := fold_left (fun m it => bumpCount (it_layer it) m) items m in
    NoDup (map fst m')
    /\ (forall l,
           match lookupKey l m' with Some n => n | None => 0%nat end
           = (match lookupKey l m with Some n => n | None => 0%nat end
              + itemsOnLayer l items)%nat)
    /\ (forall l n, lookupKey l m' = Some n ->
                    lookupKey l m <> None
                    \/ exists it, In it items /\ it_layer it = l).
Proof.
  induction items as [| it t IH]; intros m Hnd; cbn [fold_left].
  - split; [exact Hnd |]. split.
    + intro l. unfold itemsOnLayer. cbn. lia.
    + intros l n H. left. rewrite H. discriminate.
  - destruct (bumpCount_spec (it_layer it) m Hnd) as (B1 & B2 & B3 & B4).
    destruct (IH (bumpCount (it_layer it) m) B1) as (I1 & I2 & I3).
    split; [exact I1 |]. split.
    + intro l. rewrite I2. unfold itemsOnLayer. cbn [filter].
      destruct (String.eqb (it_layer it) l) eqn:E.
      * apply String.eqb_eq in E. subst l. rewrite B2.
        cbn [List.length]. lia.
      * rewrite B3 by (rewrite String.eqb_sym; exact E). reflexivity.
    + intros l n H. destruct (I3 l n H) as [H' | [x [Hx Hl]]].
      * destruct (String.eqb l (it_layer it)) eqn:E.
        -- apply String.eqb_eq in E. right. exists it.
           split; [left; reflexivity | congruence].
        -- left. rewrite <- (B3 l E). exact H'.
      * right. exists x. split; [right; exact Hx | exact Hl].
Qed.

Lemma insertByCount_perm (e : string * nat) (sorted : list (string * nat)) :
  Permutation (e :: sorted) (insertByCount e sorted).
Proof.
  induction sorted as [| h t IH]; cbn [insertByCount]; [reflexivity |].
  destruct (snd h <? snd e)%nat; [reflexivity |].
  rewrite perm_swap. apply perm_skip. exact IH.
Qed.

Lemma insertByCount_sorted (e : string * nat)
      (sorted : list (string * nat)) :
  countsDescending sorted -> countsDescending (insertByCount e sorted).
Proof.
  unfold countsDescending.
  induction 1 as [| h t Ht IH Hh]; cbn [insertByCount].
  - constructor; constructor.
  - destruct (snd h <? snd e)%nat eqn:L.
    + apply Nat.ltb_lt in L. constructor.
      * constructor; assumption.
      * constructor; [lia |].
        rewrite Forall_forall in *. intros x Hx.
        specialize (Hh x Hx). lia.
    + apply Nat.ltb_ge in L. constructor; [exact IH |].
      apply (Permutation_Forall (insertByCount_perm e t)).
      constructor; assumption.
Qed.

Lemma sortByCountDesc_spec (m : list (string * nat)) :
  Permutation m (sortByCountDesc m) /\ countsDescending (sortByCountDesc m).
Proof.
  unfold sortByCountDesc.
  assert (G : forall acc,
             countsDescending acc ->
             Permutation (acc ++ m)
                         (fold_left (fun acc e => insertByCount e acc) m acc)
             /\ countsDescending
                  (fold_left (fun acc e => insertByCount e acc) m acc)).
  { induction m as [| e t IH]; intros acc Hacc; cbn [fold_left].
    - rewrite app_nil_r. split; [reflexivity | exact Hacc].
    - destruct (IH (insertByCount e acc) (insertByCount_sorted e acc Hacc))
        as [P S].
      split; [| exact S].
      rewrite <- P. rewrite <- (insertByCount_perm e acc).
      symmetry. apply Permutation_middle. }
  destruct (G [] ltac:(constructor)) as [P S].
  split; assumption.
Qed.

Lemma In_firstn (A : Type) (n : nat) (l : list A) (x : A) :
  In x (firstn n l) -> In x l.
Proof.
  intro H. rewrite <- (firstn_skipn n l). apply in_or_app. left. exact H.
Qed.

Lemma firstn_StronglySorted (A : Type) (R : A -> A -> Prop) (n : nat)
      (l : list A) :
  StronglySorted R l -> StronglySorted R (firstn n l).
Proof.
  intro H. revert n. induction H as [| a l Hl IH Ha]; intro n.
  - rewrite firstn_nil. constructor.
  - destruct n; cbn [firstn]; [constructor |].
    constructor; [apply IH |].
    rewrite Forall_forall in *. intros x Hx. apply Ha.
    exact (In_firstn _ n l x Hx).
Qed.

Lemma firstn_NoDup_map (A B : Type) (f : A -> B) (n : nat) (l : list A) :
  NoDup (map f l) -> NoDup (map f (firstn n l)).
Proof.
  revert n. induction l as [| a t IH]; intros n H.
  - rewrite firstn_nil. constructor.
  - destruct n; cbn [firstn map]; [constructor |].
    cbn [map] in H. inversion H as [| x xs Hx Hnd Heq]. subst.
    constructor; [| apply IH; exact Hnd].
    intro C. apply Hx. apply in_map_iff in C.
    destruct C as [y [Hy Hin]]. apply in_map_iff.
    exists y. split; [exact Hy | exact (In_firstn _ n t y Hin)].
Qed.

(** X24.  [polylineLayerCounts] lists each layer at most once, with the
    number of items that are on it, which is at least 1, in order of
    decreasing count, and lists at most 200 layers.  When the items are
    on at most 200 layers, the layer of every item is listed. *)
Theorem polylineLayerCounts_counts_items (st : State) :
  let counts := polylineLayerCounts st in
  NoDup (map fst counts)
  /\ countsDescending counts
  /\ (List.length counts <= 200)%nat
  /\ (forall l n, In (l, n) counts ->
                  n = itemsOnLayer l (polylineItems st) /\ (1 <= n)%nat)
  /\ ((List.length (layerCountTable st) <= 200)%nat ->
      forall it, In it (polylineItems st) ->
                 In (it_layer it, itemsOnLayer (it_layer it)
                                               (polylineItems st)) counts).
Proof.
  intro counts.
  destruct (layerCounts_fold (polylineItems st) [] ltac:(constructor))
    as (T1 & T2 & T3).
  fold (layerCountTable st) in T1, T2, T3.
  destruct (sortByCountDesc_spec (layerCountTable st)) as [P S].
  assert (Hnd : NoDup (map fst (sortByCountDesc (layerCountTable st)))).
  { apply (Permutation_NoDup (l := map fst (layerCountTable st)));
      [apply Permutation_map; exact P | exact T1]. }
  assert (Hin : forall l n,
             In (l, n) (layerCountTable st) ->
             n = itemsOnLayer l (polylineItems st) /\ (1 <= n)%nat).
  { intros l n H.
    pose proof (In_lookupKey _ l n _ T1 H) as L.
    pose proof (T2 l) as C. rewrite L in C. cbn [lookupKey] in C.
    split; [lia |].
    destruct (T3 l n L) as [C' | [it [Hit Hl]]];
      [cbn [lookupKey] in C'; contradiction |].
    rewrite C. unfold itemsOnLayer. cbn [plus].
    assert (In it (filter (fun x => String.eqb (it_layer x) l)
                          (polylineItems st))).
    { apply filter_In. split; [exact Hit |].
      rewrite Hl. apply String.eqb_refl. }
    destruct (filter _ _); [contradiction | cbn [List.length]; lia]. }
  unfold counts, polylineLayerCounts. fold (layerCountTable st).
  split; [apply firstn_NoDup_map; exact Hnd |].
  split; [apply firstn_StronglySorted; exact S |].
  split; [apply firstn_le_length |].
  split.
  - intros l n H. apply Hin.
    apply (Permutation_in _ (Permutation_sym P)).
    exact (In_firstn _ _ _ _ H).
  - intros Hlen it Hit.
    rewrite firstn_all2
      by (rewrite <- (Permutation_length P); exact Hlen).
    apply (Permutation_in _ P).
    apply lookupKey_In.
    pose proof (T2 (it_layer it)) as C. cbn [lookupKey plus] in C.
    assert (Hpos : (1 <= itemsOnLayer (it_layer it) (polylineItems st))%nat).
    { unfold itemsOnLayer.
      assert (In it (filter (fun x => String.eqb (it_layer x) (it_layer it))
                            (polylineItems st))).
      { apply filter_In. split; [exact Hit | apply String.eqb_refl]. }
      destruct (filter _ _); [contradiction | cbn [List.length]; lia]. }
    destruct (lookupKey (it_layer it) (layerCountTable st)) as [n |];
      [rewrite C; reflexivity | lia].
Qed.

Lemma polylineLayerCounts_keys (st : State) :
  NoDup (map fst (polylineLayerCounts st))
  /\ ((List.length (layerCountTable st) <= 200)%nat ->
      forall it, In it (polylineItems st) ->
                 In (it_layer it) (map fst (polylineLayerCounts st))).
Proof.
  destruct (layerCounts_fold (polylineItems st) [] ltac:(constructor))
    as (T1 & T2 & _).
  fold (layerCountTable st) in T1, T2.
  destruct (sortByCountDesc_spec (layerCountTable st)) as [P _].
  unfold polylineLayerCounts. fold (layerCountTable st). split.
  - apply firstn_NoDup_map.
    apply (Permutation_NoDup (l := map fst (layerCountTable st)));
      [apply Permutation_map; exact P | exact T1].
  - intros Hlen it Hit.
    rewrite firstn_all2
      by (rewrite <- (Permutation_length P); exact Hlen).
    apply (Permutation_in _ (Permutation_map fst P)).
    pose proof (T2 (it_layer it)) as C. cbn [lookupKey plus] in C.
    assert (Hpos : (1 <= itemsOnLayer (it_layer it) (polylineItems st))%nat).
    { unfold itemsOnLayer.
      assert (In it (filter (fun x => String.eqb (it_layer x) (it_layer it))
                            (polylineItems st))).
      { apply filter_In. split; [exact Hit | apply String.eqb_refl]. }
      destruct (filter _ _); [contradiction | cbn [List.length]; lia]. }
    destruct (lookupKey (it_layer it) (layerCountTable st)) as [n |] eqn:L;
      [| lia].
    change (it_layer it) with (fst (it_layer it, n)).
    apply in_map. apply lookupKey_In. exact L.
Qed.

(** X25.  [selectAllLayers] sets the layer filter to the listed layers,
    each once.  When the items are on at most 200 layers, every item is
    then visible unless its own flag is [false].  [clearLayerFilter]
    empties the filter, after which no item is visible.  Neither touches
    the items. *)
Theorem selectAllLayers_shows_every_layer (st : State) :
  NoDup (selectedLayers (selectAllLayers st))
  /\ polylineItems (selectAllLayers st) = polylineItems st
  /\ ((List.length (layerCountTable st) <= 200)%nat ->
      visiblePolylineItems (selectAllLayers st)
      = filter visibleOrTrue (polylineItems st))
  /\ visiblePolylineItems (clearLayerFilter st) = []
  /\ polylineItems (clearLayerFilter st) = polylineItems st.
Proof.
  destruct (polylineLayerCounts_keys st) as [K1 K2].
  split; [exact K1 |]. split; [reflexivity |]. split; [| split].
  - intro Hlen. unfold visiblePolylineItems.
    cbn [polylineItems selectAllLayers with_selectedLayers].
    apply filter_ext_in. intros it Hit.
    assert (H : layerFilterHas (selectAllLayers st) (it_layer it) = true).
    { apply layerFilterHas_In. exact (K2 Hlen it Hit). }
    rewrite H. reflexivity.
  - unfold visiblePolylineItems, layerFilterHas.
    cbn [polylineItems selectedLayers clearLayerFilter with_selectedLayers
         existsb andb].
    clear K1 K2.
    induction (polylineItems st) as [| x t IH]; [reflexivity | exact IH].
  - reflexivity.
Qed.

(* ------------------------------------------------------------------- *)
(** *** Further properties: the end of a gesture *)
(* ------------------------------------------------------------------- *)

(** X26.  [onPointerUp] (and [onPointerCancel], which has the same body)
    ends every gesture: no point drag, polyline drag or pan is left, the
    next pointer move changes nothing, and an animation frame that still
    runs writes nothing.  The items and the viewport are as they were. *)
Theorem onPointerUp_ends_gestures (st : State) :
  let st' := onPointerUp st in
  dragging st' = None /\ draggingPolyline st' = None /\ panning st' = None
  /\ latestDrag st' = None
  /\ polylineItems st' = polylineItems st
  /\ viewBounds st' = viewBounds st
  /\ selected st' = selected st
  /\ (forall svg ev, onPointerMove svg ev st' = st')
  /\ dragFrame st' = st'.
Proof.
  intro st'. unfold st', onPointerUp.
  do 7 (split; [reflexivity |]).
  split; [intros svg ev; reflexivity |].
  unfold dragFrame. cbn [latestDrag with_dragRaf with_latestDrag].
  reflexivity.
Qed.

(* ------------------------------------------------------------------- *)
(** *** Further properties: which points are drawn *)
(* ------------------------------------------------------------------- *)

Lemma filter_length_impl (A : Type) (f g : A -> bool) (l : list A) :
  (forall x, In x l -> f x = true -> g x = true) ->
  (List.length (filter f l) <= List.length (filter g l))%nat.
Proof.
  induction l as [| x t IH]; intro H; [apply Nat.le_refl |].
  assert (IH' : (List.length (filter f t) <= List.length (filter g t))%nat)
    by (apply IH; intros y Hy; apply H; right; exact Hy).
  cbn [filter]. destruct (f x) eqn:F.
  - rewrite (H x (or_introl eq_refl) F). cbn [List.length]. lia.
  - destruct (g x); cbn [List.length]; lia.
Qed.

Lemma filter_length_or (A : Type) (f g : A -> bool) (l : list A) :
  (List.length (filter (fun x => f x || g x) l)
   <= List.length (filter f l) + List.length (filter g l))%nat.
Proof.
  induction l as [| x t IH]; [apply Nat.le_refl |].
  cbn [filter]. destruct (f x), (g x); cbn [orb List.length]; lia.
Qed.

Lemma filter_length_unique (A : Type) (p : A -> bool) (l : list A) :
  NoDup l ->
  (forall x y, In x l -> In y l -> p x = true -> p y = true -> x = y) ->
  (List.length (filter p l) <= 1)%nat.
Proof.
  induction 1 as [| x t Hx Hnd IH]; intro U; [cbn; lia |].
  assert (IH' : (List.length (filter p t) <= 1)%nat)
    by (apply IH; intros a b Ha Hb; apply U; right; assumption).
  cbn [filter]. destruct (p x) eqn:P; [| exact IH'].
  assert (E : filter p t = []).
  { destruct (filter p t) as [| y r] eqn:F; [reflexivity |].
    assert (Hy : In y (filter p t)) by (rewrite F; left; reflexivity).
    apply filter_In in Hy. destruct Hy as [Hy Py].
    exfalso. apply Hx.
    rewrite (U x y (or_introl eq_refl) (or_intror Hy) P Py). exact Hy. }
  rewrite E. cbn. lia.
Qed.

Lemma multiples_below (z : Z) (n : nat) :
  (1 < z)%Z -> (1 <= n)%nat ->
  let c := Z.of_nat
             (List.length
                (filter (fun i => (Z.of_nat i mod z =? 0)%Z) (seq 0 n))) in
  (1 <= c /\ z * (c - 1) <= Z.of_nat n - 1)%Z.
Proof.
  intros Hz Hn. induction n as [| n IH]; [lia |].
  destruct n as [| m].
  - cbn [seq filter]. rewrite Z.mod_0_l by lia. cbn. lia.
  - specialize (IH ltac:(lia)). cbv zeta in IH.
    rewrite seq_S, filter_app, length_app. cbn [plus filter].
    set (c := Z.of_nat
                (List.length
                   (filter (fun i => (Z.of_nat i mod z =? 0)%Z)
                           (seq 0 (S m))))) in *.
    destruct (Z.of_nat (S m) mod z =? 0)%Z eqn:M; cbn [List.length].
    + apply Z.eqb_eq in M.
      pose proof (Z.div_mod (Z.of_nat (S m)) z ltac:(lia)) as D.
      rewrite M in D.
      rewrite Nat2Z.inj_add. fold c. change (Z.of_nat 1) with 1%Z.
      set (k := (Z.of_nat (S m) / z)%Z) in *.
      rewrite (Nat2Z.inj_succ (S m)).
      set (a := Z.of_nat (S m)) in *.
      clearbody c k a. split; [lia |].
      destruct IH as [I1 I2].
      assert (Hck : (c <= k)%Z).
      { destruct (Z.le_gt_cases c k) as [L | L]; [exact L | exfalso].
        assert (z * k <= z * (c - 1))%Z
          by (apply Z.mul_le_mono_nonneg_l; lia).
        lia. }
      assert (z * c <= z * k)%Z by (apply Z.mul_le_mono_nonneg_l; lia).
      lia.
    + rewrite Nat2Z.inj_add. fold c. change (Z.of_nat 0) with 0%Z.
      rewrite (Nat2Z.inj_succ (S m)).
      set (a := Z.of_nat (S m)) in *.
      clearbody c a. split; lia.
Qed.

Lemma numRem_zero_multiple (i : nat) (z : Z) :
  (1 < z)%Z ->
  (numRem (Num.ofNat i) (Fin (inject_Z z)) =? n0) = true ->
  (Z.of_nat i mod z = 0)%Z.
Proof.
  intros Hz H. unfold numRem, Num.ofNat in H.
  destruct (Qeq_bool (inject_Z z) 0) eqn:E; [discriminate |].
  cbn [Num.eq n0] in H. apply Qeq_bool_iff in H.
  set (t := Qtrunc (inject_Z (Z.of_nat i) / inject_Z z)) in *.
  assert (Q : (inject_Z (Z.of_nat i) == inject_Z (z * t))%Q)
    by (rewrite inject_Z_mult; lra).
  apply (proj1 (inject_Z_injective _ _)) in Q. rewrite Q, Z.mul_comm.
  apply Z.mod_mul. lia.
Qed.

(** X28.  All the points of the selected item are drawn, in every point
    mode.  In the mode [hidden] no point of another item is drawn.  In
    the other modes the first and the last point of every polyline are
    drawn.  When the sampling step [z] is above 1, at most [n / z + 3]
    of the [n] points of an item that is not selected are drawn. *)
Theorem shouldRenderPoint_samples (st : State) (id : string) (n : nat) :
  (selectedItemId st = Some id ->
   forall i, shouldRenderPoint st id i n = true)
  /\ ((forall s, selectedItemId st = Some s -> String.eqb s id = false) ->
      pointMode st = pm_hidden ->
      forall i, shouldRenderPoint st id i n = false)
  /\ (pointMode st <> pm_hidden -> (1 <= n)%nat ->
      shouldRenderPoint st id 0 n = true
      /\ shouldRenderPoint st id (n - 1) n = true)
  /\ ((forall s, selectedItemId st = Some s -> String.eqb s id = false) ->
      forall z, pointSampleStep st = Fin (inject_Z z) -> (1 < z)%Z ->
                (Z.of_nat (renderedPoints st id n) * z
                 <= Z.of_nat n + 3 * z)%Z).
Proof.
  split; [| split; [| split]].
  - intros H i. unfold shouldRenderPoint. rewrite H, String.eqb_refl.
    reflexivity.
  - intros Hsel Hm i. unfold shouldRenderPoint.
    destruct (selectedItemId st) as [s |];
      [rewrite (Hsel s eq_refl) |]; rewrite Hm; reflexivity.
  - intros Hm Hn.
    assert (E0 : (Num.ofNat 0 =? n0) = true) by reflexivity.
    assert (E1 : (Num.ofNat (n - 1) =? Num.ofNat n - n1) = true).
    { unfold Num.ofNat, n1. cbn [Num.sub Num.add Num.neg Num.eq].
      apply Qeq_bool_iff.
      replace (Z.of_nat (n - 1)) with (Z.of_nat n + -1)%Z by lia.
      rewrite inject_Z_plus. change (inject_Z (-1)) with (-1)%Q. lra. }
    unfold shouldRenderPoint.
    split; repeat break_match; try reflexivity; try contradiction;
      rewrite ?E0, ?E1, ?orb_true_r in *; try discriminate;
      reflexivity.
  - intros Hsel z Hstep Hz.
    destruct n as [| m];
      [unfold renderedPoints; cbn [seq filter List.length]; lia |].
    set (n := S m).
    set (pSel := fun i : nat =>
                   match selected st with
                   | Some (sid, si) => String.eqb sid id && (si =? i)%nat
                   | None => false
                   end).
    set (pLast := fun i : nat => (S i =? n)%nat).
    set (pMul := fun i : nat => (Z.of_nat i mod z =? 0)%Z).
    assert (Hle : (renderedPoints st id n
                   <= List.length
                        (filter (fun i => (pSel i || pLast i) || pMul i)
                                (seq 0 n)))%nat).
    { unfold renderedPoints. apply filter_length_impl.
      intros i _ Hr. unfold shouldRenderPoint in Hr. rewrite Hstep in Hr.
      destruct (selectedItemId st) as [s |];
        [rewrite (Hsel s eq_refl) in Hr |];
        (destruct (pointMode st); [| | discriminate]);
        (assert (L : (Fin (inject_Z z) <=? n1) = false)
           by (apply le_Fin_false; change 1%Q with (inject_Z 1);
               rewrite <- Zlt_Qlt; exact Hz));
        rewrite L in Hr; fold (pSel i) in Hr;
        (destruct (pSel i); [reflexivity |]);
        (destruct ((Num.ofNat i =? n0)
                   || (Num.ofNat i =? Num.ofNat n - n1)) eqn:B;
         [ apply orb_true_iff in B; destruct B as [B | B];
           [ unfold Num.ofNat, n0 in B; cbn [Num.eq] in B;
             apply Qeq_bool_iff in B;
             change 0%Q with (inject_Z 0) in B;
             apply (proj1 (inject_Z_injective _ _)) in B;
             assert (i = 0)%nat by lia; subst i;
             unfold pMul; rewrite Z.mod_0_l by lia;
             rewrite orb_true_r; reflexivity
           | unfold Num.ofNat, n1 in B;
             cbn [Num.sub Num.add Num.neg Num.eq] in B;
             apply Qeq_bool_iff in B;
             assert (Q : (inject_Z (Z.of_nat i)
                          == inject_Z (Z.of_nat n + -1))%Q)
               by (rewrite inject_Z_plus;
                   change (inject_Z (-1)) with (-1)%Q; lra);
             apply (proj1 (inject_Z_injective _ _)) in Q;
             unfold pLast;
             assert (E : (S i =? n)%nat = true)
               by (apply Nat.eqb_eq; lia);
             rewrite E; reflexivity ]
         | unfold pMul;
           rewrite (numRem_zero_multiple i z Hz Hr);
           rewrite orb_true_r; reflexivity ]). }
    pose proof (filter_length_or _ (fun i => pSel i || pLast i) pMul
                                 (seq 0 n)) as O1.
    pose proof (filter_length_or _ pSel pLast (seq 0 n)) as O2.
    assert (U1 : (List.length (filter pSel (seq 0 n)) <= 1)%nat).
    { apply filter_length_unique; [apply seq_NoDup |].
      intros x y _ _ Px Py. unfold pSel in Px, Py.
      destruct (selected st) as [[sid si] |]; [| discriminate].
      apply andb_true_iff in Px, Py.
      destruct Px as [_ Px], Py as [_ Py].
      apply Nat.eqb_eq in Px, Py. congruence. }
    assert (U2 : (List.length (filter pLast (seq 0 n)) <= 1)%nat).
    { apply filter_length_unique; [apply seq_NoDup |].
      intros x y _ _ Px Py. unfold pLast in Px, Py.
      apply Nat.eqb_eq in Px, Py. lia. }
    pose proof (multiples_below z n Hz ltac:(unfold n; lia)) as M.
    cbv zeta in M. fold pMul in M.
    nia.
Qed.

(* ------------------------------------------------------------------- *)
(** *** Binary64 against the primitive floats *)
(* ------------------------------------------------------------------- *)

(** The operations of [B64] against the primitive floats of the
    kernel, on operands of the scenarios of this file: the sum at [2^53] that
    rounds to even, the absorbed pad, the overflowing product, the
    product with the cosine of the quarter turn, and a quotient. *)
Lemma B64_matches_primitive_floats :
  let f := fun x => B64.ofSF (Prim2SF x) in
  f 0x1p+53%float +~ f 1%float = f (0x1p+53 + 1)%float
  /\ f 0x1.fffffffffffffp+52%float +~ f 1%float
     = f (0x1.fffffffffffffp+52 + 1)%float
  /\ f 0x1.6345785d8ap+56%float -~ f 5%float
     = f (0x1.6345785d8ap+56 - 5)%float
  /\ f 0x1.b6a5b5e8e2f1ap+1023%float *~ f 0x1.5555555555555p+0%float
     = f (0x1.b6a5b5e8e2f1ap+1023 * 0x1.5555555555555p+0)%float
  /\ f (-5)%float *~ f 0x1.1a62633145c07p-54%float
     = f (-5 * 0x1.1a62633145c07p-54)%float
  /\ f 5%float +~ f (-5 * 0x1.1a62633145c07p-54)%float
     = f (5 + -5 * 0x1.1a62633145c07p-54)%float
  /\ f 800%float /~ f 600%float = f (800 / 600)%float
  /\ f 100%float *~ B64.round n0_05 = f 5%float
  /\ B64.round n0_05 = f 0x1.999999999999ap-5%float.
Proof. vm_compute. repeat split; reflexivity. Qed.

(** [Math.PI], the quarter turn and its cosine are the binary64 numbers
    that their definitions name. *)
Lemma quarterTurn_values :
  B64.Math_PI = B64.ofSF (Prim2SF 0x1.921fb54442d18p+1%float)
  /\ quarterTurn
     = B64.ofSF (Prim2SF (90 * 0x1.921fb54442d18p+1 / 180)%float)
  /\ quarterTurn = Fin (884279719003555 # 562949953421312)
  /\ cosQuarterTurn = B64.ofSF (Prim2SF 0x1.1a62633145c07p-54%float)
  /\ B64.isDouble cosQuarterTurn.
Proof. vm_compute. repeat split; reflexivity. Qed.

(* ------------------------------------------------------------------- *)
(** *** Command line: the rotation scenario *)
(* ------------------------------------------------------------------- *)

Lemma updateItem_length (id : string) (f : PolylineItem -> PolylineItem)
      (items : list PolylineItem) :
  List.length (updateItem id f items) = List.length items.
Proof.
  induction items as [| x t IH]; cbn [updateItem]; [reflexivity |].
  destruct (String.eqb (it_id x) id); cbn [List.length];
    [reflexivity | rewrite IH; reflexivity].
Qed.

Lemma commandTargetId_idle (st : State) :
  commandTargetId (with_commandState idle st) = commandTargetId st.
Proof. reflexivity. Qed.

(** What [rotate] does to the selected item, in binary64. *)
Lemma runCommand_rotate_item (svg : option SvgElement) (st : State)
      (id : string) (it : PolylineItem) :
  commandVerb (commandParts (commandLine st)) = "rotate" ->
  commandTargetId st = Some id ->
  findItemById st id = Some it ->
  let deg := ToNumber (partValue (commandParts (commandLine st)) 1) in
  Num.isFinite deg = true ->
  runCommand svg st
  = with_commandState ok
      (with_items
         (updateItem id
            (fun x => setPoints (rotatePoints deg (it_points x)) x)
            (polylineItems st))
         (with_commandState idle st))
  /\ findItemById (runCommand svg st) id
     = Some (setPoints (rotatePoints deg (it_points it)) it).
Proof.
  intros Hv Ht Hf deg Hd.
  assert (E : runCommand svg st
              = with_commandState ok
                  (with_items
                     (updateItem id
                        (fun x => setPoints (rotatePoints deg (it_points x)) x)
                        (polylineItems st))
                     (with_commandState idle st))).
  { unfold runCommand. cbv zeta. rewrite Hv.
    cbn [String.eqb Ascii.eqb Bool.eqb].
    rewrite commandTargetId_idle, Ht. fold deg. rewrite Hd. cbn [negb].
    unfold transformSelected.
    change (findItemById (with_commandState idle st) id)
      with (findItemById st id).
    rewrite Hf. reflexivity. }
  split; [exact E |].
  rewrite E. unfold findItemById in *.
  change (polylineItems (with_commandState ok ?s)) with (polylineItems s).
  cbn [polylineItems with_commandState with_items].
  apply (find_updateItem id
           (fun x => setPoints (rotatePoints deg (it_points x)) x));
    [| exact Hf].
  intro x. reflexivity.
Qed.

(** C9. The command [rotate 90] on a selected two-point item
    [(0,0)], [(10,0)] leaves it at exactly [(5,-5)], [(5,5)] and ends
    with the status [ok], in binary64 and with the values that the
    engines return for the cosine and the sine of the quarter turn
    (6.123233995736766e-17 and 1).  The pivot is the centre of the item's
    bounding box and a positive angle turns counter-clockwise: for every
    finite angle the new point is
    [(cx + dx cos - dy sin, cy + dy cos + dx sin)] with [(dx, dy)] the
    offset of the old point from the centre [(cx, cy)], so that the
    quarter turn takes [(0,0)], [(0,10)] to [(5,5)], [(-5,5)] and
    [(0,0)], [(4,2)] to [(3,-1)], [(1,3)]. *)
Theorem rotate_90_scenario (svg : option SvgElement) (st : State)
        (id : string) (it : PolylineItem) :
  commandVerb (commandParts (commandLine st)) = "rotate" ->
  commandTargetId st = Some id ->
  findItemById st id = Some it ->
  let deg := ToNumber (partValue (commandParts (commandLine st)) 1) in
  let st' := runCommand svg st in
  (Num.isFinite deg = true ->
   let b := pointsBounds (it_points it) in
   let cx := (minX b +~ maxX b) /~ n2 in
   let cy := (minY b +~ maxY b) /~ n2 in
   let rad := (deg *~ B64.Math_PI) /~ Fin 180 in
   let turned :=
     map (fun p =>
            (cx +~ (fst p -~ cx) *~ Math_cos rad
                -~ (snd p -~ cy) *~ Math_sin rad,
             cy +~ (snd p -~ cy) *~ Math_cos rad
                +~ (fst p -~ cx) *~ Math_sin rad))
         (it_points it) in
   commandState st' = ok
   /\ findItemById st' id = Some (setPoints turned it)
   /\ (forall id', String.eqb id id' = false ->
                   findItemById st' id' = findItemById st id')
   /\ List.length (polylineItems st') = List.length (polylineItems st))
  /\ (deg = Fin 90 ->
      Math_cos quarterTurn = cosQuarterTurn ->
      Math_sin quarterTurn = Fin 1 ->
      commandState st' = ok
      /\ (it_points it = [(Fin 0, Fin 0); (Fin 10, Fin 0)] ->
          findItemById st' id
          = Some (setPoints [(Fin 5, Fin (-5)); (Fin 5, Fin 5)] it))
      /\ (it_points it = [(Fin 0, Fin 0); (Fin 0, Fin 10)] ->
          findItemById st' id
          = Some (setPoints [(Fin 5, Fin 5); (Fin (-5), Fin 5)] it))
      /\ (it_points it = [(Fin 0, Fin 0); (Fin 4, Fin 2)] ->
          findItemById st' id
          = Some (setPoints [(Fin 3, Fin (-1)); (Fin 1, Fin 3)] it))).
Proof.
  intros Hv Ht Hf deg st'.
  split.
  - intro Hd. cbv zeta.
    destruct (runCommand_rotate_item svg st id it Hv Ht Hf Hd) as [E F].
    fold st' in E, F. fold deg in E, F.
    split; [rewrite E; reflexivity |].
    split; [exact F |].
    split.
    + intros id' Hne. rewrite E. unfold findItemById.
      cbn [polylineItems with_commandState with_items].
      apply find_updateItem_other; [intro x; reflexivity | exact Hne].
    + rewrite E. cbn [polylineItems with_commandState with_items].
      apply updateItem_length.
  - intros H90 Hc Hs.
    assert (Hd : Num.isFinite deg = true) by (rewrite H90; reflexivity).
    destruct (runCommand_rotate_item svg st id it Hv Ht Hf Hd) as [E F].
    fold st' in E, F. fold deg in E, F.
    split; [rewrite E; reflexivity |].
    assert (R : forall pts,
               rotatePoints deg pts
               = let b := pointsBounds pts in
                 let cx := (minX b +~ maxX b) /~ n2 in
                 let cy := (minY b +~ maxY b) /~ n2 in
                 map (fun p =>
                        (cx +~ (fst p -~ cx) *~ cosQuarterTurn
                            -~ (snd p -~ cy) *~ Fin 1,
                         cy +~ (snd p -~ cy) *~ cosQuarterTurn
                            +~ (fst p -~ cx) *~ Fin 1)) pts).
    { intro pts. unfold rotatePoints. rewrite H90.
      change (Fin 90 *~ B64.Math_PI /~ Fin 180) with quarterTurn.
      rewrite Hc, Hs. reflexivity. }
    rewrite F, R.
    repeat split; intros ->; vm_compute; reflexivity.
Qed.

(* ------------------------------------------------------------------- *)
(** *** Binary64: differences *)
(* ------------------------------------------------------------------- *)

Lemma SFsub_diag (s : spec_float) :
  SFsub B64.prec B64.emax s s = S754_zero false
  \/ SFsub B64.prec B64.emax s s = S754_nan.
Proof.
  destruct s as [sg | sg | | sg m e]; cbn [SFsub].
  - left. destruct sg; reflexivity.
  - right. destruct sg; reflexivity.
  - right. reflexivity.
  - left. rewrite Z.sub_diag. reflexivity.
Qed.

(** [a - a] is 0, or NaN when [a] is not finite in binary64. *)
Lemma sub64_diag (a : num) : a -~ a = Fin 0 \/ a -~ a = NaN.
Proof.
  unfold B64.sub.
  destruct (SFsub_diag (B64.toSF a)) as [H | H]; rewrite H; [left | right];
    reflexivity.
Qed.

(** [a - 0] is [a] as binary64 holds it. *)
Lemma sub64_zero_r (a : num) : a -~ Fin 0 = B64.round a.
Proof.
  unfold B64.sub, B64.round.
  change (B64.toSF (Fin 0)) with (S754_zero false).
  destruct (B64.toSF a) as [sg | sg | | sg m e]; try reflexivity.
  destruct sg; reflexivity.
Qed.

(** A finite difference or sum has finite operands. *)
Lemma isFinite_sub64 (a b : num) :
  Num.isFinite (a -~ b) = true ->
  Num.isFinite a = true /\ Num.isFinite b = true.
Proof.
  unfold B64.sub.
  destruct a as [qa | | |], b as [qb | | |];
    try (intros _; split; reflexivity);
    try generalize (B64.toSF (Fin qa)); try generalize (B64.toSF (Fin qb));
    try (intros [[] | [] | | [] ? ?]); cbn; discriminate.
Qed.

(* ------------------------------------------------------------------- *)
(** *** Fit to content: degenerate bounds *)
(* ------------------------------------------------------------------- *)

Lemma orderedBounds_point (p : Point) :
  orderedBounds (pointBounds p) = pointBounds p.
Proof.
  unfold orderedBounds, pointBounds. cbn [minX minY maxX maxY].
  rewrite !lt_irrefl. reflexivity.
Qed.

(** The span of a single point is the fallback 100. *)
Lemma fitSpan_point (p : Point) : fitSpan (pointBounds p) = n100.
Proof.
  unfold fitSpan. cbv zeta. rewrite orderedBounds_point.
  unfold pointBounds. cbn [minX minY maxX maxY].
  destruct (sub64_diag (fst p)) as [-> | ->],
           (sub64_diag (snd p)) as [-> | ->]; reflexivity.
Qed.

Lemma paddedBounds_point (p : Point) (pad : num) :
  paddedBounds (pointBounds p) pad = windowAround p pad.
Proof.
  unfold paddedBounds. cbv zeta. rewrite orderedBounds_point. reflexivity.
Qed.

(** The bounds of a non-empty list of copies of one finite point. *)
Lemma pointsBounds_coincident (p : Point) (pts : Polyline) :
  pointFinite p = true -> pts <> [] -> Forall (eq p) pts ->
  pointsBounds pts = pointBounds p.
Proof.
  intros Hp Hne Hall. destruct pts as [| q t]; [congruence |].
  pose proof (Forall_inv Hall) as Hq.
  pose proof (Forall_inv_tail Hall) as Ht. subst q.
  unfold pointsBounds. cbn [fold_left].
  assert (E : growBounds emptyBounds p = pointBounds p).
  { destruct p as [[x | | |] [y | | |]]; try discriminate Hp. reflexivity. }
  rewrite E. clear Hall Hne.
  induction t as [| q t IH]; cbn [fold_left]; [reflexivity |].
  pose proof (Forall_inv Ht) as Hq. subst q.
  assert (G : growBounds (pointBounds p) p = pointBounds p).
  { destruct p as [x y]. unfold growBounds, pointBounds, Num.gt.
    cbn [fst snd minX minY maxX maxY]. rewrite !lt_irrefl. reflexivity. }
  rewrite G. apply IH. exact (Forall_inv_tail Ht).
Qed.

(** C6 (as amended).  Degenerate content bounds in
    [setViewToContentBounds] and [fitToContent].  (1) Bounds with a
    non-finite edge leave the state as it is.  (2) Finite bounds are
    ordered and padded on every side by the span times the clamped pad
    ratio, where the span is the larger side, or 100 when that is not a
    positive finite number; the padded window, letter-boxed to the
    element, is assigned when its width and height as computed are
    finite and positive, and nothing is assigned otherwise.  (3) For the
    zero-area bounds of a point the span is the fallback 100, and the
    window is the one of half-width 100 times the clamped pad ratio
    around the point.  (4) With the pad ratio of [fitToContent] that
    half-width is 5.  (5) Without letter-boxing (no element, or a client
    width or height that is not positive) every assigned window has four
    finite edges.  (6) [fitToContent] on visible items whose points all
    coincide in one finite point frames that point as in (3), when no
    DXF bounding box is stored.  (7) [fitToContent] assigns the default
    window when no DXF bounding box is stored and no visible item has a
    point. *)
Theorem fit_degenerate_bounds (svg : option SvgElement) (st : State) :
  (forall bounds padRatio,
      boundsFinite bounds = false ->
      setViewToContentBounds svg bounds padRatio st = st)
  /\ (forall bounds padRatio,
         boundsFinite bounds = true ->
         let b := orderedBounds bounds in
         let span0 := Num.max (maxX b -~ minX b) (maxY b -~ minY b) in
         let span := if negb (Num.isFinite span0) || (span0 <=? n0)
                     then n100 else span0 in
         let pad := span *~ clampedPadRatio padRatio in
         let window := {| minX := minX b -~ pad; minY := minY b -~ pad;
                          maxX := maxX b +~ pad; maxY := maxY b +~ pad |} in
         let w := maxX window -~ minX window in
         let h := maxY window -~ minY window in
         setViewToContentBounds svg bounds padRatio st
         = if negb (Num.isFinite w) || negb (Num.isFinite h)
              || (w <=? n0) || (h <=? n0)
           then st
           else with_viewBounds
                  (letterbox (fst (clientSize svg)) (snd (clientSize svg))
                             window) st)
  /\ (forall p padRatio,
         pointFinite p = true ->
         let pad := n100 *~ clampedPadRatio padRatio in
         let window := windowAround p pad in
         let w := maxX window -~ minX window in
         let h := maxY window -~ minY window in
         setViewToContentBounds svg (pointBounds p) padRatio st
         = if negb (Num.isFinite w) || negb (Num.isFinite h)
              || (w <=? n0) || (h <=? n0)
           then st
           else with_viewBounds
                  (letterbox (fst (clientSize svg)) (snd (clientSize svg))
                               window) st)
  /\ n100 *~ clampedPadRatio (B64.round n0_05) = Fin 5
  /\ (forall bounds padRatio b,
         ((fst (clientSize svg) >? n0) && (snd (clientSize svg) >? n0))
         = false ->
         contentBoundsView svg bounds padRatio = Some b ->
         boundsFinite b = true)
  /\ (forall p,
         pointFinite p = true ->
         bboxBounds st = None ->
         flat_map it_points (visiblePolylineItems st) <> [] ->
         Forall (eq p) (flat_map it_points (visiblePolylineItems st)) ->
         fitToContent svg st
         = setViewToContentBounds svg (pointBounds p) (B64.round n0_05) st)
  /\ (bboxBounds st = None ->
      flat_map it_points (visiblePolylineItems st) = [] ->
      fitToContent svg st = with_viewBounds defaultBounds st).
Proof.
  split; [| split; [| split; [| split; [| split; [| split]]]]].
  - intros bounds padRatio Hb.
    unfold setViewToContentBounds, contentBoundsView.
    rewrite Hb. reflexivity.
  - intros bounds padRatio Hb. cbv zeta.
    unfold setViewToContentBounds, contentBoundsView, fitSpan, paddedBounds.
    rewrite Hb. cbn [negb]. cbv zeta. cbn [minX minY maxX maxY].
    destruct (negb (Num.isFinite _) || negb (Num.isFinite _)
              || (_ <=? n0) || (_ <=? n0)); [reflexivity |].
    destruct svg as [el |]; reflexivity.
  - intros p padRatio Hp. cbv zeta.
    unfold setViewToContentBounds, contentBoundsView.
    assert (Hb : boundsFinite (pointBounds p) = true).
    { destruct p as [[x | | |] [y | | |]]; try discriminate Hp. reflexivity. }
    rewrite Hb. cbn [negb]. cbv zeta.
    rewrite fitSpan_point, paddedBounds_point.
    destruct (negb (Num.isFinite _) || negb (Num.isFinite _)
              || (_ <=? n0) || (_ <=? n0)); [reflexivity |].
    destruct svg as [el |]; reflexivity.
  - vm_compute. reflexivity.
  - intros bounds padRatio b Hsz.
    unfold contentBoundsView.
    destruct (negb (boundsFinite bounds)); [discriminate |]. cbv zeta.
    set (b2 := paddedBounds bounds _).
    destruct (negb (Num.isFinite (maxX b2 -~ minX b2))) eqn:Ew;
      [discriminate |].
    destruct (negb (Num.isFinite (maxY b2 -~ minY b2))) eqn:Eh;
      [discriminate |].
    cbn [orb].
    destruct ((maxX b2 -~ minX b2 <=? n0) || (maxY b2 -~ minY b2 <=? n0));
      [discriminate |].
    intros [= <-].
    apply negb_false_iff in Ew, Eh.
    apply isFinite_sub64 in Ew, Eh. destruct Ew as [E1 E2], Eh as [E3 E4].
    assert (L : letterbox (fst (clientSize svg)) (snd (clientSize svg)) b2
                = b2).
    { unfold letterbox. cbv zeta. rewrite Hsz. reflexivity. }
    assert (L' : letterbox
                   match svg with Some el => clientWidth el | None => n0 end
                   match svg with Some el => clientHeight el | None => n0 end
                   b2 = b2).
    { destruct svg; exact L. }
    rewrite L'. unfold boundsFinite. rewrite E1, E2, E3, E4. reflexivity.
  - intros p Hp Hbb Hne Hall.
    unfold fitToContent. rewrite Hbb. unfold fitToVisiblePoints.
    cbv zeta.
    rewrite (pointsBounds_coincident p _ Hp Hne Hall).
    destruct (flat_map it_points (visiblePolylineItems st));
      [congruence | reflexivity].
  - intros Hbb Hpts.
    unfold fitToContent. rewrite Hbb. unfold fitToVisiblePoints.
    cbv zeta. rewrite Hpts. reflexivity.
Qed.

(* ------------------------------------------------------------------- *)
(** *** Further properties: the pan gesture *)
(* ------------------------------------------------------------------- *)

(** A finite binary64 number minus itself is 0. *)
Lemma sub64_diag_finite (a : num) :
  Num.isFinite a = true -> B64.isDouble a -> a -~ a = Fin 0.
Proof.
  intros Hf Hd. unfold B64.isDouble, B64.round in Hd. unfold B64.sub.
  destruct (B64.toSF a) as [sg | sg | | sg m e] eqn:E.
  - destruct sg; reflexivity.
  - rewrite <- Hd in Hf. destruct sg; discriminate Hf.
  - rewrite <- Hd in Hf. discriminate Hf.
  - cbn [SFsub]. rewrite Z.sub_diag. reflexivity.
Qed.

(** X4.  During a pan gesture a pointer move assigns the bounds saved at
    the start of the gesture with the pointer displacement subtracted
    from each edge, in binary64, and leaves the gesture and the items as
    they are; moves do not accumulate (a second move gives what it gives
    without the first); and a pointer back at its starting point
    restores the saved bounds, when the starting point is finite and it
    and the saved edges are binary64 numbers. *)
Theorem pan_translates_saved_bounds (svg : option SvgElement)
        (ev : PointerEvent) (st : State) (pan : Panning) (p : Point) :
  panning st = Some pan ->
  clientToModel svg ev = Some p ->
  let st' := onPointerMove svg ev st in
  let dx := fst p -~ fst (pan_start pan) in
  let dy := snd p -~ snd (pan_start pan) in
  viewBounds st'
  = {| minX := minX (pan_bounds pan) -~ dx;
       minY := minY (pan_bounds pan) -~ dy;
       maxX := maxX (pan_bounds pan) -~ dx;
       maxY := maxY (pan_bounds pan) -~ dy |}
  /\ panning st' = Some pan
  /\ polylineItems st' = polylineItems st
  /\ (forall svg2 ev2 p2,
         clientToModel svg2 ev2 = Some p2 ->
         onPointerMove svg2 ev2 st' = onPointerMove svg2 ev2 st)
  /\ (p = pan_start pan ->
      pointFinite p = true ->
      B64.isDouble (fst p) -> B64.isDouble (snd p) ->
      boundsAreDoubles (pan_bounds pan) ->
      viewBounds st' = pan_bounds pan).
Proof.
  intros Hpan Hp st' dx dy.
  assert (Hst' : st' = with_viewBounds
                         {| minX := minX (pan_bounds pan) -~ dx;
                            minY := minY (pan_bounds pan) -~ dy;
                            maxX := maxX (pan_bounds pan) -~ dx;
                            maxY := maxY (pan_bounds pan) -~ dy |} st).
  { unfold st', onPointerMove. rewrite Hpan, Hp.
    destruct p as [px py]. reflexivity. }
  rewrite Hst'.
  split; [reflexivity |].
  split; [exact Hpan |].
  split; [reflexivity |].
  split.
  - intros svg2 ev2 [qx qy] Hp2. unfold onPointerMove.
    cbn [panning with_viewBounds]. rewrite Hpan, Hp2. reflexivity.
  - intros Hback Hfin Hx Hy [D1 [D2 [D3 D4]]].
    cbn [viewBounds with_viewBounds].
    unfold dx, dy. rewrite <- Hback.
    destruct p as [px py]. cbn [fst snd] in *.
    unfold pointFinite in Hfin. cbn [fst snd] in Hfin.
    apply andb_true_iff in Hfin. destruct Hfin as [Fx Fy].
    rewrite (sub64_diag_finite px Fx Hx), (sub64_diag_finite py Fy Hy).
    rewrite !sub64_zero_r.
    unfold B64.isDouble in D1, D2, D3, D4. rewrite D1, D2, D3, D4.
    destruct (pan_bounds pan). reflexivity.
Qed.

(* ------------------------------------------------------------------- *)
(** *** Further properties: the commands [move] and [scale] *)
(* ------------------------------------------------------------------- *)

(** A transformation command that has found its item rewrites the
    points of that item and nothing else of the document. *)
Lemma transformSelected_found (id : string) (f : Polyline -> Polyline)
      (st : State) (it : PolylineItem) :
  findItemById st id = Some it ->
  let st' := transformSelected id f (with_commandState idle st) in
  commandState st' = ok
  /\ findItemById st' id = Some (setPoints (f (it_points it)) it)
  /\ (forall id', String.eqb id id' = false ->
                  findItemById st' id' = findItemById st id')
  /\ List.length (polylineItems st') = List.length (polylineItems st)
  /\ selected st' = selected st
  /\ selectedItemId st' = selectedItemId st
  /\ layerStyles st' = layerStyles st
  /\ selectedLayers st' = selectedLayers st
  /\ viewBounds st' = viewBounds st.
Proof.
  intros Hf st'. unfold st', transformSelected.
  change (findItemById (with_commandState idle st) id)
    with (findItemById st id).
  rewrite Hf. unfold findItemById in *.
  cbn [polylineItems with_commandState with_items].
  split; [reflexivity |].
  split.
  { apply (find_updateItem id (fun x => setPoints (f (it_points x)) x));
      [intro x; reflexivity | exact Hf]. }
  split.
  { intros id' Hne.
    apply find_updateItem_other; [intro x; reflexivity | exact Hne]. }
  split; [apply updateItem_length |].
  repeat split.
Qed.

(** X27.  The commands [move dx dy] and [scale sx [sy]] with a selected
    item and valid arguments rewrite the points of that item and nothing
    else.  [move] adds [(dx, dy)] to every point.  [scale] multiplies
    the offset of every point from the centre of the item's bounding box
    by [(sx, sy)], where [sy] is [sx] when the command has one factor
    only.  The status is [ok]; the number of items, every other item,
    the selection, the layer styles with the layer filter and the
    viewport are as they were. *)
Theorem transform_commands_rewrite_target (svg : option SvgElement)
        (st : State) (id : string) (it : PolylineItem) :
  commandTargetId st = Some id ->
  findItemById st id = Some it ->
  let parts := commandParts (commandLine st) in
  let st' := runCommand svg st in
  (commandVerb parts = "move" ->
   let dx := ToNumber (partValue parts 1) in
   let dy := ToNumber (partValue parts 2) in
   Num.isFinite dx = true -> Num.isFinite dy = true ->
   findItemById st' id
   = Some (setPoints (map (fun p => (fst p +~ dx, snd p +~ dy))
                          (it_points it)) it))
  /\ (commandVerb parts = "scale" ->
      let sx := ToNumber (partValue parts 1) in
      let sy := if (3 <=? List.length parts)%nat
                then ToNumber (partValue parts 2) else sx in
      Num.isFinite sx = true -> Num.isFinite sy = true ->
      (sx =? n0) = false -> (sy =? n0) = false ->
      let b := pointsBounds (it_points it) in
      let cx := (minX b +~ maxX b) /~ n2 in
      let cy := (minY b +~ maxY b) /~ n2 in
      findItemById st' id
      = Some (setPoints
                (map (fun p => (cx +~ (fst p -~ cx) *~ sx,
                                cy +~ (snd p -~ cy) *~ sy))
                     (it_points it)) it))
  /\ ((commandVerb parts = "move"
       /\ Num.isFinite (ToNumber (partValue parts 1)) = true
       /\ Num.isFinite (ToNumber (partValue parts 2)) = true)
      \/ (commandVerb parts = "scale"
          /\ let sx := ToNumber (partValue parts 1) in
             let sy := if (3 <=? List.length parts)%nat
                       then ToNumber (partValue parts 2) else sx in
             Num.isFinite sx = true /\ Num.isFinite sy = true
             /\ (sx =? n0) = false /\ (sy =? n0) = false) ->
      commandState st' = ok
      /\ (forall id', String.eqb id id' = false ->
                      findItemById st' id' = findItemById st id')
      /\ List.length (polylineItems st') = List.length (polylineItems st)
      /\ (forall it', findItemById st' id = Some it' ->
                      List.length (it_points it')
                      = List.length (it_points it))
      /\ selected st' = selected st
      /\ selectedItemId st' = selectedItemId st
      /\ layerStyles st' = layerStyles st
      /\ selectedLayers st' = selectedLayers st
      /\ viewBounds st' = viewBounds st).
Proof.
  intros Ht Hf parts st'.
  assert (Mv : commandVerb parts = "move" ->
               Num.isFinite (ToNumber (partValue parts 1)) = true ->
               Num.isFinite (ToNumber (partValue parts 2)) = true ->
               st' = transformSelected id
                       (movePoints (ToNumber (partValue parts 1))
                                   (ToNumber (partValue parts 2)))
                       (with_commandState idle st)).
  { intros Hv H1 H2. unfold st'. rewrite (runCommand_move svg st Hv), Ht.
    cbv zeta. fold parts. rewrite H1, H2. reflexivity. }
  assert (Sc : commandVerb parts = "scale" ->
               let sx := ToNumber (partValue parts 1) in
               let sy := if (3 <=? List.length parts)%nat
                         then ToNumber (partValue parts 2) else sx in
               Num.isFinite sx = true -> Num.isFinite sy = true ->
               (sx =? n0) = false -> (sy =? n0) = false ->
               st' = transformSelected id (scalePoints sx sy)
                       (with_commandState idle st)).
  { intros Hv sx sy H1 H2 H3 H4. unfold st'.
    rewrite (runCommand_scale svg st Hv), Ht.
    cbv zeta. fold parts. fold sx. fold sy.
    rewrite H1, H2, H3, H4. reflexivity. }
  cbv zeta in Sc.
  split; [| split].
  - intros Hv dx dy H1 H2. rewrite (Mv Hv H1 H2).
    exact (proj1 (proj2 (transformSelected_found
                           id (movePoints dx dy) st it Hf))).
  - intros Hv sx sy H1 H2 H3 H4 b cx cy. rewrite (Sc Hv H1 H2 H3 H4).
    exact (proj1 (proj2 (transformSelected_found
                           id (scalePoints sx sy) st it Hf))).
  - intros [[Hv [H1 H2]] | [Hv [H1 [H2 [H3 H4]]]]].
    + rewrite (Mv Hv H1 H2).
      destruct (transformSelected_found
                  id (movePoints (ToNumber (partValue parts 1))
                                 (ToNumber (partValue parts 2)))
                  st it Hf)
        as (A & B & C & D & E & F & G & H & I).
      split; [exact A |]. split; [exact C |]. split; [exact D |].
      split.
      { intros it' Hit'. rewrite B in Hit'. injection Hit' as <-.
        apply movePoints_length. }
      repeat split; assumption.
    + rewrite (Sc Hv H1 H2 H3 H4).
      destruct (transformSelected_found
                  id (scalePoints
                        (ToNumber (partValue parts 1))
                        (if (3 <=? List.length parts)%nat
                         then ToNumber (partValue parts 2)
                         else ToNumber (partValue parts 1)))
                  st it Hf)
        as (A & B & C & D & E & F & G & H & I).
      split; [exact A |]. split; [exact C |]. split; [exact D |].
      split.
      { intros it' Hit'. rewrite B in Hit'. injection Hit' as <-.
        apply scalePoints_length. }
      repeat split; assumption.
Qed.

End Program.

(* ===================================================================== *)
(** ** Closed instances *)
(* ===================================================================== *)

(** Instance of C3: the failing document read from a draft. *)
Lemma export_roundtrip_loses_infinite_point_witness :
  map it_points
      (fst (normalizePolylines sampleNumber 1
              (JSON_value
                 (exportObject
                    (run sampleNumber sampleStringify
                         (sampleParse infiniteRecordDocument)
                         sampleExp sampleCos sampleSin
                         [TypeJsonDraft "draft"; ApplyJson] initialState)))))
  <> map it_points
         (visiblePolylineItems
            (run sampleNumber sampleStringify
                 (sampleParse infiniteRecordDocument)
                 sampleExp sampleCos sampleSin
                 [TypeJsonDraft "draft"; ApplyJson] initialState)).
Proof.
  exact (proj2 (export_roundtrip_loses_infinite_point
                  sampleNumber sampleStringify
                  (sampleParse infiniteRecordDocument)
                  sampleExp sampleCos sampleSin
                  "draft" eq_refl) 1%nat).
Defined.








(** Instance of X8: the default style exported as visible. *)
Lemma layerStyle_export_roundtrip_witness :
  normalizeLayerStyle sampleNumber
    (JSON_value (layerStyleValue defaultLayerStyle true))
  = defaultLayerStyle.
Proof.
  apply (proj1 (proj2 (layerStyle_export_roundtrip
                  sampleNumber "0" defaultLayerStyle true
                  ltac:(repeat split;
                        try reflexivity;
                        right; eexists; split; reflexivity)))).
Defined.

(** Instance of X10: the first point of a segment nudged to the right
    with the step 1. *)
Lemma nudgeSelectedPoint_moves_selected_witness :
  nudgeSelectedPoint sampleNumber (Fin 1) (Fin 0) (Fin 1)
    (sampleState [(Fin 0, Fin 0); (Fin 10, Fin 0)] 0 "")
  = sampleState [(Fin 0, Fin 0); (Fin 10, Fin 0)] 0 ""
  \/ exists s,
      sampleNumber
        (pointNudgeStep (sampleState [(Fin 0, Fin 0); (Fin 10, Fin 0)] 0 ""))
      = Fin s
      /\ (0 < s)%Q
      /\ pointFinite
           (Num.add (Fin 0) (Num.mul (Num.mul (Fin 1) (Fin s)) (Fin 1)),
            Num.add (Fin 0) (Num.mul (Num.mul (Fin 0) (Fin s)) (Fin 1)))
         = true
      /\ selectedPointOf
           (nudgeSelectedPoint sampleNumber (Fin 1) (Fin 0) (Fin 1)
              (sampleState [(Fin 0, Fin 0); (Fin 10, Fin 0)] 0 ""))
         = Some ("a", 0%nat,
                 (Num.add (Fin 0) (Num.mul (Num.mul (Fin 1) (Fin s)) (Fin 1)),
                  Num.add (Fin 0)
                          (Num.mul (Num.mul (Fin 0) (Fin s)) (Fin 1)))).
Proof.
  exact (proj1 (nudgeSelectedPoint_moves_selected
                  sampleNumber (Fin 1) (Fin 0) (Fin 1)
                  (sampleState [(Fin 0, Fin 0); (Fin 10, Fin 0)] 0 "")
                  "a" 0%nat (Fin 0, Fin 0) eq_refl)).
Defined.



(** Instance of X13: a segment dragged from the origin, the pointer now
    at [(3, 0)]. *)
Lemma polyline_drag_translates_saved_points_witness :
  viewBounds
    (onPointerMove (sampleSvg 1) (sampleEvent 3 0 false)
       (with_draggingPolyline
          (Some {| dp_pointerId := 1; dp_id := "a";
                   dp_start := (Fin 0, Fin 0);
                   dp_basePoints := [(Fin 0, Fin 0); (Fin 10, Fin 0)] |})
          (sampleState [(Fin 0, Fin 0); (Fin 10, Fin 0)] 0 "")))
  = defaultBounds.
Proof.
  exact (proj2 (proj2 (proj2
           (polyline_drag_translates_saved_points
              (sampleSvg 1) (sampleEvent 3 0 false)
              (with_draggingPolyline
                 (Some {| dp_pointerId := 1; dp_id := "a";
                          dp_start := (Fin 0, Fin 0);
                          dp_basePoints :=
                            [(Fin 0, Fin 0); (Fin 10, Fin 0)] |})
                 (sampleState [(Fin 0, Fin 0); (Fin 10, Fin 0)] 0 ""))
              {| dp_pointerId := 1; dp_id := "a";
                 dp_start := (Fin 0, Fin 0);
                 dp_basePoints := [(Fin 0, Fin 0); (Fin 10, Fin 0)] |}
              (sampleItem "a" [(Fin 0, Fin 0); (Fin 10, Fin 0)])
              (Fin 3) (Fin 0) eq_refl eq_refl eq_refl eq_refl)))).
Defined.

(** Instance of X14: the first point of a segment dragged to
    [(3, 0)]. *)
Lemma point_drag_writes_latest_position_witness :
  findItemById
    (dragFrame
       (onPointerMove (sampleSvg 1) (sampleEvent 3 0 false)
          (with_dragging (Some ("a", 0%nat))
             (sampleState [(Fin 0, Fin 0); (Fin 10, Fin 0)] 0 ""))))
    "a"
  = Some (sampleItem "a" [(Fin 3, Fin 0); (Fin 10, Fin 0)]).
Proof.
  exact (proj1 (proj2 (proj2 (proj2 (proj2 (proj2
           (point_drag_writes_latest_position
              (sampleSvg 1) (sampleEvent 3 0 false)
              (with_dragging (Some ("a", 0%nat))
                 (sampleState [(Fin 0, Fin 0); (Fin 10, Fin 0)] 0 ""))
              "a" 0%nat (Fin 3) (Fin 0)
              eq_refl eq_refl eq_refl ltac:(discriminate) eq_refl))))))
           (sampleItem "a" [(Fin 0, Fin 0); (Fin 10, Fin 0)])
           eq_refl ltac:(simpl; lia)).
Defined.

(** Instance of X15: a [DIMENSION] entity measured from [(0, 0)] to
    [(1, 0)]. *)
Lemma polylinePointsFromEntity_shapes_witness :
  forallb pointFinite [(Fin 0, Fin 0); (Fin 1, Fin 0)] = true.
Proof.
  exact (proj1 (polylinePointsFromEntity_shapes
                  sampleNumber
                  (JObj [("type", JStr "DIMENSION");
                         ("measureStart",
                          JObj [("x", JNum (Fin 0)); ("y", JNum (Fin 0))]);
                         ("measureEnd",
                          JObj [("x", JNum (Fin 1)); ("y", JNum (Fin 0))])])
                  [(Fin 0, Fin 0); (Fin 1, Fin 0)] eq_refl)).
Defined.

(** Instance of C7: an unknown verb sets the status [fail] and changes
    nothing else. *)
Lemma runCommand_failure_no_mutation_witness :
  runCommand sampleNumber sampleStringify (sampleParse JNull)
             sampleCos sampleSin None
             (sampleState [(Fin 0, Fin 0); (Fin 10, Fin 0)] 0 "frobnicate")
  = with_commandState fail
      (sampleState [(Fin 0, Fin 0); (Fin 10, Fin 0)] 0 "frobnicate").
Proof.
  apply (proj1 (runCommand_failure_no_mutation
                  sampleNumber sampleStringify (sampleParse JNull)
                  sampleCos sampleSin None
                  (sampleState [(Fin 0, Fin 0); (Fin 10, Fin 0)] 0
                               "frobnicate"))).
  left. split; [reflexivity |].
  intros H. simpl in H.
  repeat (destruct H as [H | H]; [discriminate H |]).
  exact H.
Defined.

(** Counterexample to C7 as stated.  [delete] needs a selected point;
    in the initial state none is selected, and the command ends with the
    status [ok], not [fail]. *)
Lemma runCommand_delete_without_selection_ok :
  selected (with_commandLine "delete" initialState) = None
  /\ commandState
       (runCommand sampleNumber sampleStringify (sampleParse JNull)
                   sampleCos sampleSin None
                   (with_commandLine "delete" initialState))
     = ok.
Proof.
  split; reflexivity.
Qed.

(** C2 (evaluation at two failing inputs).  (1) The document
    [farDocument] is applied and fitted to an element of 800 by 600
    pixels: the bounds are valid, [2^53 - 1, 2^53] in x.  A pan gesture
    then starts at the client position (600, 300) and moves to (0, 300),
    which is a move of -1 in model coordinates; the pan branch of
    [onPointerMove] subtracts that from both saved edges, the two
    differences round to the same binary64 number [2^53], and the bounds
    are assigned with [minX = maxX].  (2) The document [tallDocument] is
    applied and fitted to an element of 800 by 600 pixels: the padded
    window has a finite positive width and height and passes the test of
    [setViewToContentBounds], the letter-boxing then widens it beyond the
    largest binary64 number, and the bounds are assigned with the x edges
    [-Infinity] and [Infinity]. *)
Theorem viewport_bounds_invariant_broken :
  (let st1 :=
     run sampleNumber sampleStringify (sampleParse farDocument)
         sampleExp sampleCos sampleSin
         [TypeJsonDraft "document"; ApplyJson; Fit farSvg] initialState in
   let st2 :=
     run sampleNumber sampleStringify (sampleParse farDocument)
         sampleExp sampleCos sampleSin
         [CanvasPointerDown farSvg (sampleEvent 600 300 true)] st1 in
   let st3 :=
     run sampleNumber sampleStringify (sampleParse farDocument)
         sampleExp sampleCos sampleSin
         [PointerMove farSvg (sampleEvent 0 300 true)] st2 in
   jsonState st1 = ok
   /\ boundsOk (viewBounds st1) = true
   /\ minX (viewBounds st1) = Fin 9007199254740991
   /\ maxX (viewBounds st1) = Fin 9007199254740992
   /\ clientToModel farSvg (sampleEvent 600 300 true)
      = Some (Fin 9007199254740990, Fin (1 # 2))
   /\ clientToModel farSvg (sampleEvent 0 300 true)
      = Some (Fin 9007199254740989, Fin (1 # 2))
   /\ panning st2
      = Some {| pan_pointerId := 1;
                pan_start := (Fin 9007199254740990, Fin (1 # 2));
                pan_bounds := viewBounds st1 |}
   /\ minX (viewBounds st3) = Fin 9007199254740992
   /\ maxX (viewBounds st3) = Fin 9007199254740992
   /\ boundsOk (viewBounds st3) = false)
  /\ (let st0 :=
        run sampleNumber sampleStringify (sampleParse tallDocument)
            sampleExp sampleCos sampleSin
            [TypeJsonDraft "document"; ApplyJson] initialState in
      let st1 :=
        run sampleNumber sampleStringify (sampleParse tallDocument)
            sampleExp sampleCos sampleSin [Fit (sampleSvg 1)] st0 in
      jsonState st0 = ok
      /\ viewBounds st0 = defaultBounds
      /\ boundsOk (viewBounds st0) = true
      /\ forallb pointFinite (flat_map it_points (polylineItems st0)) = true
      /\ minX (viewBounds st1) = NInf
      /\ maxX (viewBounds st1) = PInf
      /\ boundsOk (viewBounds st1) = false).
Proof.
  vm_compute. repeat split; reflexivity.
Qed.

(** C9 at a concrete document: the item ["a"] with the points [(0,0)]
    and [(10,0)] selected, the command line [rotate 90]. *)
Lemma rotate_90_scenario_witness :
  findItemById
    (runCommand sampleNumber sampleStringify (sampleParse JNull)
                  sampleCos sampleSin None
                  (sampleState [(Fin 0, Fin 0); (Fin 10, Fin 0)] 0
                               "rotate 90")) "a"
  = Some (sampleItem "a" [(Fin 5, Fin (-5)); (Fin 5, Fin 5)]).
Proof.
  pose proof (rotate_90_scenario
                sampleNumber sampleStringify (sampleParse JNull)
                sampleCos sampleSin None
                (sampleState [(Fin 0, Fin 0); (Fin 10, Fin 0)] 0 "rotate 90")
                "a" (sampleItem "a" [(Fin 0, Fin 0); (Fin 10, Fin 0)])
                eq_refl eq_refl eq_refl) as H.
  cbv zeta in H. destruct H as [_ H].
  destruct (H eq_refl eq_refl eq_refl) as [_ [H1 _]].
  exact (H1 eq_refl).
Defined.

(** Counterexample to C6 as stated.  Two coincident visible points at
    (50, 50) have zero-area bounds; [fitToContent] frames them with the
    window [45, 55] by [45, 55] (widened in x to the aspect ratio of an
    element of 800 by 600 pixels), not with the default window; and
    bounds with an infinite edge leave a window as it is, here the one
    just fitted, not the default window either. *)
Lemma fit_degenerate_bounds_not_default :
  viewBounds
    (fitToContent None
       (sampleState [(Fin 50, Fin 50); (Fin 50, Fin 50)] 0 ""))
  = {| minX := Fin 45; minY := Fin 45; maxX := Fin 55; maxY := Fin 55 |}
  /\ viewBounds
       (fitToContent (sampleSvg 1)
          (sampleState [(Fin 50, Fin 50); (Fin 50, Fin 50)] 0 ""))
     <> defaultBounds
  /\ minY (viewBounds
             (fitToContent (sampleSvg 1)
                (sampleState [(Fin 50, Fin 50); (Fin 50, Fin 50)] 0 "")))
     = Fin 45
  /\ viewBounds
       (setViewToContentBounds None
          {| minX := Fin 0; minY := Fin 0; maxX := PInf; maxY := Fin 1 |}
          (B64.round n0_05)
          (fitToContent None
             (sampleState [(Fin 50, Fin 50); (Fin 50, Fin 50)] 0 "")))
     = {| minX := Fin 45; minY := Fin 45; maxX := Fin 55; maxY := Fin 55 |}
  /\ defaultBounds
     = {| minX := Fin 0; minY := Fin 0; maxX := Fin 100; maxY := Fin 100 |}.
Proof.
  vm_compute. repeat split; try reflexivity. discriminate.
Qed.

(** X4 at a concrete gesture: the pan starts at the client position
    (10, 20) in the initial state and the pointer is there again. *)
Lemma pan_translates_saved_bounds_witness :
  viewBounds
    (onPointerMove (sampleSvg 1) (sampleEvent 10 20 true)
       (onCanvasPointerDown (sampleSvg 1) (sampleEvent 10 20 true)
                              initialState))
  = defaultBounds.
Proof.
  refine (proj2 (proj2 (proj2 (proj2
            (pan_translates_saved_bounds
               (sampleSvg 1) (sampleEvent 10 20 true)
               (onCanvasPointerDown (sampleSvg 1) (sampleEvent 10 20 true)
                                      initialState)
               {| pan_pointerId := 1; pan_start := (Fin 10, Fin (-20));
                  pan_bounds := defaultBounds |}
               (Fin 10, Fin (-20)) eq_refl eq_refl))))
            eq_refl eq_refl eq_refl eq_refl _).
  repeat split; reflexivity.
Defined.

(** C6, part (3), far from the origin: around two coincident points at
    (1e17, 1e17) the pad 5 is absorbed by the rounding, the padded
    window has the width 0, and [fitToContent] assigns nothing. *)
Lemma fit_far_point_assigns_nothing :
  fitToContent None
    (sampleState [(Fin 100000000000000000, Fin 100000000000000000);
                  (Fin 100000000000000000, Fin 100000000000000000)] 0 "")
  = sampleState [(Fin 100000000000000000, Fin 100000000000000000);
                 (Fin 100000000000000000, Fin 100000000000000000)] 0 "".
Proof.
  vm_compute. reflexivity.
Qed.

(** X27 at a concrete document: [move 1 2] on the item ["a"] with the
    points [(0,0)] and [(10,0)]. *)
Lemma transform_commands_rewrite_target_witness :
  findItemById
    (runCommand sampleNumber sampleStringify (sampleParse JNull)
                sampleCos sampleSin None
                (sampleState [(Fin 0, Fin 0); (Fin 10, Fin 0)] 0
                             "move 1 2")) "a"
  = Some (sampleItem "a" [(Fin 1, Fin 2); (Fin 11, Fin 2)]).
Proof.
  exact (proj1 (transform_commands_rewrite_target
                  sampleNumber sampleStringify (sampleParse JNull)
                  sampleCos sampleSin None
                  (sampleState [(Fin 0, Fin 0); (Fin 10, Fin 0)] 0
                               "move 1 2")
                  "a" (sampleItem "a" [(Fin 0, Fin 0); (Fin 10, Fin 0)])
                  eq_refl eq_refl)
               eq_refl eq_refl eq_refl).
Defined.
